(** * Romana Restaurant calling agent: knowledge store, context retriever,
      completion client and reservation dialogue

    A shallow embedding of [backend/rag_layer.py] (class [RAGLayer]) and
    [backend/voice_agent.py] (class [VoiceAgent]), and the properties of the
    specification checked against it.

    Modelling conventions.
    - A Python [str] is a [string] of bytes (UTF-8).  The character classes
      ([str.lower], [str.split], [str.isdigit], the regular-expression
      classes [\d], [\w], [\b]) are the ASCII ones, so the model agrees with
      Python on ASCII text.
    - A Python [dict] is an association list in insertion order with
      distinct keys: iteration order is observable in the retriever.
    - An exception is a value [Raise e] of the result type [res]; a
      [try/except] is a match on it.
    - What the outside world answers (the clock, the speech service, the
      completion service, the backup file) is an argument of the function
      that asks. *)

From Stdlib Require Import List ZArith QArith Bool Ascii String Lia.
From Stdlib Require Import DecimalString.
From Stdlib Require Import Permutation Sorted.
Import ListNotations.
Set Warnings "-register-all".
Close Scope Q_scope.
Local Open Scope string_scope.
Local Open Scope Z_scope.

(** ** Python prelude *)
Module Py.

(** The exception classes the modelled code can meet. *)
Inductive exn : Type :=
| KeyError
| TypeError
| ValueError
| AttributeError
| RuntimeError
| Timeout.

(** The outcome of running a statement block: a value, or a raised exception. *)
Inductive res (A : Type) : Type :=
| Ok (a : A)
| Raise (e : exn).
Arguments Ok {A} a.
Arguments Raise {A} e.

Definition bind {A B : Type} (r : res A) (k : A -> res B) : res B :=
  match r with
  | Ok a => k a
  | Raise e => Raise e
  end.

Notation "x <- r ;; k" := (bind r (fun x => k))
  (at level 61, r at next level, right associativity).

Definition is_ok {A : Type} (r : res A) : bool :=
  match r with Ok _ => true | Raise _ => false end.

(** *** Character classes (ASCII) *)

Definition code (c : ascii) : nat := nat_of_ascii c.

Definition between (lo hi : nat) (c : ascii) : bool :=
  (lo <=? code c)%nat && (code c <=? hi)%nat.

Definition is_digit (c : ascii) : bool := between 48 57 c.
Definition is_upper (c : ascii) : bool := between 65 90 c.
Definition is_lower (c : ascii) : bool := between 97 122 c.
Definition is_alpha (c : ascii) : bool := is_upper c || is_lower c.

(** [\w]: letters, digits and the underscore. *)
Definition is_word (c : ascii) : bool :=
  is_alpha c || is_digit c || (code c =? 95)%nat.

(** The white space of [str.split()] and [str.strip()]: TAB, LF, VT, FF, CR,
    the four separators 0x1c-0x1f, and the blank. *)
Definition is_space (c : ascii) : bool :=
  between 9 13 c || between 28 31 c || (code c =? 32)%nat.

Definition lower_char (c : ascii) : ascii :=
  if is_upper c then ascii_of_nat (code c + 32) else c.

Definition upper_char (c : ascii) : ascii :=
  if is_lower c then ascii_of_nat (code c - 32) else c.

(** *** Strings *)

(** [s.lower()] *)
Fixpoint lower (s : string) : string :=
  match s with
  | EmptyString => EmptyString
  | String c s' => String (lower_char c) (lower s')
  end.

(** [sub in s] for two strings: [sub] occurs in [s] as a contiguous run. *)
Fixpoint contains (sub s : string) : bool :=
  prefix sub s ||
  match s with
  | EmptyString => false
  | String _ s' => contains sub s'
  end.

(** [any(p(ch) for ch in s)] *)
Fixpoint any_char (p : ascii -> bool) (s : string) : bool :=
  match s with
  | EmptyString => false
  | String c s' => p c || any_char p s'
  end.

(** [s.split(sep)] for a one-character separator: never the empty list. *)
Fixpoint split_on (sep : ascii) (s : string) : list string :=
  match s with
  | EmptyString => [EmptyString]
  | String c s' =>
      if Ascii.eqb c sep then EmptyString :: split_on sep s'
      else match split_on sep s' with
           | w :: ws => String c w :: ws
           | [] => [String c EmptyString]
           end
  end.

(** [s.split()]: the maximal runs of non-blank characters. *)
Fixpoint split_ws (s : string) : list string :=
  match s with
  | EmptyString => []
  | String c s' =>
      if is_space c then split_ws s'
      else match s' with
           | EmptyString => [String c EmptyString]
           | String c' _ =>
               if is_space c' then String c EmptyString :: split_ws s'
               else match split_ws s' with
                    | w :: ws => String c w :: ws
                    | [] => [String c EmptyString]
                    end
           end
  end.

Fixpoint lstrip (s : string) : string :=
  match s with
  | EmptyString => EmptyString
  | String c s' => if is_space c then lstrip s' else s
  end.

Fixpoint rstrip (s : string) : string :=
  match s with
  | EmptyString => EmptyString
  | String c s' =>
      match rstrip s' with
      | EmptyString => if is_space c then EmptyString else String c EmptyString
      | r => String c r
      end
  end.

(** [s.strip()] *)
Definition strip (s : string) : string := rstrip (lstrip s).

(** [s.replace(a, b)] for one-character [a] and [b]. *)
Fixpoint replace_char (a b : ascii) (s : string) : string :=
  match s with
  | EmptyString => EmptyString
  | String c s' => String (if Ascii.eqb c a then b else c) (replace_char a b s')
  end.

Fixpoint title_from (in_word : bool) (s : string) : string :=
  match s with
  | EmptyString => EmptyString
  | String c s' =>
      if is_alpha c
      then String (if in_word then lower_char c else upper_char c) (title_from true s')
      else String c (title_from false s')
  end.

(** [s.title()]: a letter that follows a letter is lowered, any other letter
    is raised. *)
Definition title (s : string) : string := title_from false s.

(** [sep.join(l)] *)
Fixpoint join (sep : string) (l : list string) : string :=
  match l with
  | [] => EmptyString
  | [x] => x
  | x :: rest => x ++ sep ++ join sep rest
  end.

(** *** Numbers and text *)

Definition digit_value (c : ascii) : Z := Z.of_nat (code c) - 48.

Fixpoint int_of_digits_from (acc : Z) (s : string) : Z :=
  match s with
  | EmptyString => acc
  | String c s' => int_of_digits_from (acc * 10 + digit_value c) s'
  end.

(** [int(s)] on a non-empty run of decimal digits. *)
Definition int_of_digits (s : string) : Z := int_of_digits_from 0 s.

(** [str(n)] for an integer. *)
Definition str_of_int (n : Z) : string := NilZero.string_of_int (Z.to_int n).

(** [f"{n:02d}"] for a non-negative integer. *)
Definition pad2 (n : Z) : string :=
  if n <? 10 then "0" ++ str_of_int n else str_of_int n.

(** The maximal run of digits at the head of [s], and what follows it. *)
Fixpoint span_digits (s : string) : string * string :=
  match s with
  | EmptyString => (EmptyString, EmptyString)
  | String c s' =>
      if is_digit c
      then let (ds, rest) := span_digits s' in (String c ds, rest)
      else (EmptyString, s)
  end.

(** [\b] between a word character and what follows: the end of the text or a
    character outside [\w]. *)
Definition word_ends (rest : string) : bool :=
  match rest with
  | EmptyString => true
  | String c _ => negb (is_word c)
  end.

(** [re.search(r'\b(\d+)\b', s)], group 1.  [prev_word] tells whether the
    character before [s] is a word character.  A match starts at a digit that
    follows no word character; [\d+] then takes the whole run of digits (a
    shorter run ends before a digit, where [\b] fails), and the run must end
    at a word boundary.  The leftmost such run is the match. *)
Fixpoint search_number_from (prev_word : bool) (s : string) : option string :=
  match s with
  | EmptyString => None
  | String c s' =>
      if negb prev_word && is_digit c then
        let (ds, rest) := span_digits s in
        if word_ends rest then Some ds
        else search_number_from (is_word c) s'
      else search_number_from (is_word c) s'
  end.

Definition search_number (s : string) : option string :=
  search_number_from false s.

(** *** Values

    What the modelled code stores in dictionaries and lists.  A [float] is
    kept by its [repr] (the modelled functions print stored floats and never
    compute with them). *)
Inductive value : Type :=
| VNone
| VBool (b : bool)
| VInt (n : Z)
| VFloat (repr : string)
| VStr (s : string)
| VList (l : list value)
| VDict (d : list (string * value)).

(** A [dict] with string keys, in insertion order. *)
Definition dict : Type := list (string * value).

(** [d.get(k)] / [d[k]] *)
Fixpoint dict_get (k : string) (d : dict) : option value :=
  match d with
  | [] => None
  | (k', v) :: rest => if String.eqb k k' then Some v else dict_get k rest
  end.

(** [k in d] *)
Definition dict_mem (k : string) (d : dict) : bool :=
  match dict_get k d with Some _ => true | None => false end.

(** [d[k] = v]: an existing key keeps its place, a new key goes last. *)
Fixpoint dict_set (k : string) (v : value) (d : dict) : dict :=
  match d with
  | [] => [(k, v)]
  | (k', v') :: rest =>
      if String.eqb k k' then (k, v) :: rest else (k', v') :: dict_set k v rest
  end.

(** [d.update(e)] *)
Definition dict_update (d e : dict) : dict :=
  fold_left (fun acc kv => dict_set (fst kv) (snd kv) acc) e d.

(** [d[k]], raising [KeyError] on a missing key. *)
Definition dict_item (k : string) (d : dict) : res value :=
  match dict_get k d with
  | Some v => Ok v
  | None => Raise KeyError
  end.

(** *** Printing values *)

Definition quote1 : ascii := ascii_of_nat 39.
Definition quote2 : ascii := ascii_of_nat 34.
Definition backslash : ascii := ascii_of_nat 92.

Definition hex_digit (n : nat) : ascii :=
  if (n <? 10)%nat then ascii_of_nat (48 + n) else ascii_of_nat (87 + n).

(** Two and four lowercase hexadecimal digits. *)
Definition hex2 (n : nat) : string :=
  String (hex_digit (n / 16)) (String (hex_digit (n mod 16)) EmptyString).
Definition hex4 (n : N) : string :=
  hex2 (N.to_nat (n / 256)) ++ hex2 (N.to_nat (n mod 256)).

Definition chars (l : list ascii) : string :=
  fold_right String EmptyString l.

(** The body of [repr(s)] inside the quote character [q]. *)
Fixpoint repr_body (q : ascii) (s : string) : string :=
  match s with
  | EmptyString => EmptyString
  | String c s' =>
      (if Ascii.eqb c backslash then chars [backslash; backslash]
       else if Ascii.eqb c q then chars [backslash; q]
       else if (code c =? 10)%nat then String backslash "n"
       else if (code c =? 13)%nat then String backslash "r"
       else if (code c =? 9)%nat then String backslash "t"
       else if (code c <? 32)%nat || (code c =? 127)%nat
       then String backslash ("x" ++ hex2 (code c))
       else String c EmptyString)
      ++ repr_body q s'
  end.

(** [repr(s)] of a string: single quotes, unless the text holds a single
    quote and no double quote. *)
Definition repr_str (s : string) : string :=
  let q :=
    if any_char (Ascii.eqb quote1) s && negb (any_char (Ascii.eqb quote2) s)
    then quote2 else quote1 in
  String q (repr_body q s ++ String q EmptyString).

(** [repr(v)] *)
Fixpoint py_repr (v : value) : string :=
  match v with
  | VNone => "None"
  | VBool b => if b then "True" else "False"
  | VInt n => str_of_int n
  | VFloat r => r
  | VStr s => repr_str s
  | VList l => "[" ++ join ", " (map py_repr l) ++ "]"
  | VDict d =>
      "{" ++ join ", "
               (map (fun kv : string * value =>
                       let (k, x) := kv in repr_str k ++ ": " ++ py_repr x) d)
          ++ "}"
  end.

(** [str(v)], which is what an f-string field prints. *)
Definition py_str (v : value) : string :=
  match v with
  | VStr s => s
  | _ => py_repr v
  end.

(** The code point that starts [s] as UTF-8, and what follows it; a byte that
    starts no well-formed sequence stands for itself. *)
Definition decode_utf8 (s : string) : option (N * string) :=
  let cont (c : ascii) := between 128 191 c in
  let byte (c : ascii) := N.of_nat (code c) in
  match s with
  | EmptyString => None
  | String b0 r0 =>
      match r0 with
      | String b1 r1 =>
          if between 192 223 b0 && cont b1
          then Some ((byte b0 - 192) * 64 + (byte b1 - 128), r1)%N
          else
            match r1 with
            | String b2 r2 =>
                if between 224 239 b0 && cont b1 && cont b2
                then Some ((byte b0 - 224) * 4096 + (byte b1 - 128) * 64
                           + (byte b2 - 128), r2)%N
                else
                  match r2 with
                  | String b3 r3 =>
                      if between 240 247 b0 && cont b1 && cont b2 && cont b3
                      then Some ((byte b0 - 240) * 262144
                                 + (byte b1 - 128) * 4096
                                 + (byte b2 - 128) * 64 + (byte b3 - 128), r3)%N
                      else Some (byte b0, r0)
                  | EmptyString => Some (byte b0, r0)
                  end
            | EmptyString => Some (byte b0, r0)
            end
      | EmptyString => Some (byte b0, r0)
      end
  end.

(** One code point inside a JSON string, with [ensure_ascii]. *)
Definition json_escape (cp : N) : string :=
  (if cp =? 34 then chars [backslash; quote2]
   else if cp =? 92 then chars [backslash; backslash]
   else if cp =? 10 then String backslash "n"
   else if cp =? 13 then String backslash "r"
   else if cp =? 9 then String backslash "t"
   else if cp =? 8 then String backslash "b"
   else if cp =? 12 then String backslash "f"
   else if (32 <=? cp) && (cp <? 127)
   then String (ascii_of_nat (N.to_nat cp)) EmptyString
   else if cp <? 65536 then String backslash ("u" ++ hex4 cp)
   else
     let v := cp - 65536 in
     String backslash ("u" ++ hex4 (55296 + v / 1024))
     ++ String backslash ("u" ++ hex4 (56320 + v mod 1024)))%N.

Fixpoint json_body (fuel : nat) (s : string) : string :=
  match fuel with
  | O => EmptyString
  | S fuel' =>
      match decode_utf8 s with
      | None => EmptyString
      | Some (cp, rest) => json_escape cp ++ json_body fuel' rest
      end
  end.

(** [json.dumps(s)] of a string. *)
Definition json_str (s : string) : string :=
  String quote2 (json_body (String.length s) s ++ String quote2 EmptyString).

(** [json.dumps(v)] with the default separators. *)
Fixpoint json_dumps (v : value) : string :=
  match v with
  | VNone => "null"
  | VBool b => if b then "true" else "false"
  | VInt n => str_of_int n
  | VFloat r => r
  | VStr s => json_str s
  | VList l => "[" ++ join ", " (map json_dumps l) ++ "]"
  | VDict d =>
      "{" ++ join ", "
               (map (fun kv : string * value =>
                       let (k, x) := kv in json_str k ++ ": " ++ json_dumps x) d)
          ++ "}"
  end.

(** A turn of the conversation: [{"role": ..., "content": ...}]. *)
Record turn : Type := Turn { role : string; content : string }.

Definition assistant (text : string) : turn := Turn "assistant" text.
Definition user (text : string) : turn := Turn "user" text.

End Py.

(** ** The calendar of [datetime]

    A [date] is its proleptic Gregorian ordinal ([date.toordinal()]: day 1 is
    0001-01-01, a Monday); [d + timedelta(days=n)] is [d + n], the clock
    being taken far from [date.max]. *)
Module Calendar.
Import Py.

Definition is_leap (y : Z) : bool :=
  (y mod 4 =? 0) && (negb (y mod 100 =? 0) || (y mod 400 =? 0)).

Definition days_in_month (y m : Z) : Z :=
  match m with
  | 1 | 3 | 5 | 7 | 8 | 10 | 12 => 31
  | 4 | 6 | 9 | 11 => 30
  | 2 => if is_leap y then 29 else 28
  | _ => 0
  end.

Definition days_before_year (y : Z) : Z :=
  let p := y - 1 in p * 365 + p / 4 - p / 100 + p / 400.

Definition days_before_month (y m : Z) : Z :=
  fold_left (fun acc k => acc + days_in_month y (Z.of_nat k))
            (seq 1 (Z.to_nat (m - 1))) 0.

Definition ymd2ord (y m d : Z) : Z :=
  days_before_year y + days_before_month y m + d.

(** [datetime(y, m, d).date()] *)
Definition make_date (y m d : Z) : res Z :=
  if (1 <=? y) && (y <=? 9999) && (1 <=? m) && (m <=? 12)
     && (1 <=? d) && (d <=? days_in_month y m)
  then Ok (ymd2ord y m d)
  else Raise ValueError.

(** The year, month and day of an ordinal, by the library's division by
    400-, 100-, 4- and 1-year cycles. *)
Definition ord2ymd (ord : Z) : Z * Z * Z :=
  let n := ord - 1 in
  let n400 := n / 146097 in
  let n := n mod 146097 in
  let n100 := n / 36524 in
  let n := n mod 36524 in
  let n4 := n / 1461 in
  let n := n mod 1461 in
  let n1 := n / 365 in
  let n := n mod 365 in
  let year := n400 * 400 + 1 + n100 * 100 + n4 * 4 + n1 in
  if (n1 =? 4) || (n100 =? 4) then (year - 1, 12, 31)
  else
    let month := Z.shiftr (n + 50) 5 in
    let preceding := days_before_month year month in
    if preceding >? n
    then (year, month - 1, n - (preceding - days_in_month year (month - 1)) + 1)
    else (year, month, n - preceding + 1).

(** [d.year] *)
Definition year_of (d : Z) : Z := fst (fst (ord2ymd d)).

(** [d.weekday()]: Monday is 0. *)
Definition weekday (d : Z) : Z := (d + 6) mod 7.

Definition pad4 (n : Z) : string :=
  if n <? 10 then "000" ++ str_of_int n
  else if n <? 100 then "00" ++ str_of_int n
  else if n <? 1000 then "0" ++ str_of_int n
  else str_of_int n.

(** [d.strftime("%Y-%m-%d")] *)
Definition strftime_ymd (d : Z) : string :=
  let '(y, m, dd) := ord2ymd d in
  pad4 y ++ "-" ++ pad2 m ++ "-" ++ pad2 dd.

(** The month alternatives of [%m]: [1[0-2]|0[1-9]|[1-9]], the first that
    matches at the head of [s]. *)
Definition strptime_month (s : string) : option (Z * string) :=
  match s with
  | String c1 r1 =>
      let one :=
        if between 49 57 c1 then Some (digit_value c1, r1) else None in
      match r1 with
      | String c2 r2 =>
          if (code c1 =? 49)%nat && between 48 50 c2
          then Some (10 + digit_value c2, r2)
          else if (code c1 =? 48)%nat && between 49 57 c2
          then Some (digit_value c2, r2)
          else one
      | EmptyString => one
      end
  | EmptyString => None
  end.

(** The day alternatives of [%d]: [3[0-1]|[1-2]\d|0[1-9]|[1-9]| [1-9]]. *)
Definition strptime_day (s : string) : option (Z * string) :=
  match s with
  | String c1 r1 =>
      let one :=
        if between 49 57 c1 then Some (digit_value c1, r1) else None in
      match r1 with
      | String c2 r2 =>
          if (code c1 =? 51)%nat && between 48 49 c2
          then Some (30 + digit_value c2, r2)
          else if between 49 50 c1 && is_digit c2
          then Some (digit_value c1 * 10 + digit_value c2, r2)
          else if (code c1 =? 48)%nat && between 49 57 c2
          then Some (digit_value c2, r2)
          else match one with
               | Some r => Some r
               | None =>
                   if (code c1 =? 32)%nat && between 49 57 c2
                   then Some (digit_value c2, r2)
                   else None
               end
      | EmptyString => one
      end
  | EmptyString => None
  end.

(** [datetime.strptime(s, "%Y-%m-%d").date()]: four digits, a dash, a month,
    a dash, a day and nothing more; then the date must exist. *)
Definition strptime_ymd (s : string) : res Z :=
  match s with
  | String y1 (String y2 (String y3 (String y4 (String dash r)))) =>
      if is_digit y1 && is_digit y2 && is_digit y3 && is_digit y4
         && (code dash =? 45)%nat
      then
        match strptime_month r with
        | Some (m, String dash2 r2) =>
            if (code dash2 =? 45)%nat then
              match strptime_day r2 with
              | Some (d, EmptyString) =>
                  make_date
                    (int_of_digits
                       (String y1 (String y2 (String y3 (String y4 EmptyString)))))
                    m d
              | _ => Raise ValueError
              end
            else Raise ValueError
        | _ => Raise ValueError
        end
      else Raise ValueError
  | _ => Raise ValueError
  end.

(** A [time]: hour (0-23) and minute (0-59). *)
Definition time : Type := (Z * Z)%type.

(** [datetime.strptime(f"{hour:02d}:{minute:02d}", "%H:%M").time()] for
    non-negative [hour] and [minute]: the text parses exactly when the hour
    is at most 23 and the minute at most 59. *)
Definition strptime_hm (hour minute : Z) : res time :=
  if (hour <=? 23) && (minute <=? 59) then Ok (hour, minute)
  else Raise ValueError.

(** [t.strftime("%I:%M %p")] *)
Definition strftime_12h (t : time) : string :=
  let (h, m) := t in
  let h12 := if h mod 12 =? 0 then 12 else h mod 12 in
  pad2 h12 ++ ":" ++ pad2 m ++ " " ++ (if h <? 12 then "AM" else "PM").

End Calendar.

(** ** The voice agent: utility methods *)
Module VoiceAgent.
Import Py.

(** The table [word_to_number], in the order the source writes it (the order
    in which [dict.items()] yields it). *)
Definition word_to_number : list (string * Z) :=
  [ ("one", 1); ("two", 2); ("three", 3); ("four", 4); ("five", 5);
    ("six", 6); ("seven", 7); ("eight", 8); ("nine", 9); ("ten", 10);
    ("eleven", 11); ("twelve", 12); ("thirteen", 13); ("fourteen", 14);
    ("fifteen", 15); ("sixteen", 16); ("seventeen", 17); ("eighteen", 18);
    ("nineteen", 19); ("twenty", 20) ].

(** [for word, number in table.items(): if word in text: return number] *)
Fixpoint first_word_in (table : list (string * Z)) (text : string) : option Z :=
  match table with
  | [] => None
  | (word, number) :: rest =>
      if contains word text then Some number else first_word_in rest text
  end.

(** [_extract_number_from_text]: [None] is Python's [None]. *)
Definition _extract_number_from_text (text : string) : option Z :=
  match search_number text with
  | Some ds => Some (int_of_digits ds)
  | None => first_word_in word_to_number (lower text)
  end.

(** *** Regular expressions of the date and time parsers *)

(** [(st|nd|rd|th)] at the head of [s]: what follows it. *)
Definition ordinal_suffix (s : string) : option string :=
  match s with
  | String a (String b r) =>
      if String.eqb (String a (String b EmptyString)) "st"
         || String.eqb (String a (String b EmptyString)) "nd"
         || String.eqb (String a (String b EmptyString)) "rd"
         || String.eqb (String a (String b EmptyString)) "th"
      then Some r else None
  | _ => None
  end.

(** [(st|nd|rd|th)?\b] after the digits: with the suffix first, then
    without it. *)
Definition day_ends (rest : string) : bool :=
  match ordinal_suffix rest with
  | Some r => word_ends r || word_ends rest
  | None => word_ends rest
  end.

(** [(\d{1,2})(st|nd|rd|th)?\b] at the head of [s]: two digits first, then
    one. *)
Definition match_day_here (s : string) : option string :=
  match s with
  | String c1 r1 =>
      if is_digit c1 then
        match r1 with
        | String c2 r2 =>
            if is_digit c2 && day_ends r2
            then Some (String c1 (String c2 EmptyString))
            else if day_ends r1 then Some (String c1 EmptyString) else None
        | EmptyString => Some (String c1 EmptyString)
        end
      else None
  | EmptyString => None
  end.

(** [re.search(r'\b(\d{1,2})(st|nd|rd|th)?\b', s)], group 1. *)
Fixpoint search_day_from (prev_word : bool) (s : string) : option string :=
  match s with
  | EmptyString => None
  | String c s' =>
      match (if negb prev_word then match_day_here s else None) with
      | Some ds => Some ds
      | None => search_day_from (is_word c) s'
      end
  end.

Definition search_day (s : string) : option string := search_day_from false s.

(** [(\d{1,2})] at the head of [s]. *)
Definition digits_1_2 (s : string) : option string :=
  match s with
  | String c1 r1 =>
      if is_digit c1 then
        match r1 with
        | String c2 _ =>
            if is_digit c2 then Some (String c1 (String c2 EmptyString))
            else Some (String c1 EmptyString)
        | EmptyString => Some (String c1 EmptyString)
        end
      else None
  | EmptyString => None
  end.

(** [re.search(r'(\d{1,2})', s)], group 1. *)
Fixpoint search_hour (s : string) : option string :=
  match s with
  | EmptyString => None
  | String _ s' =>
      match digits_1_2 s with
      | Some ds => Some ds
      | None => search_hour s'
      end
  end.

(** [re.search(r':(\d{1,2})', s)], group 1. *)
Fixpoint search_minute (s : string) : option string :=
  match s with
  | EmptyString => None
  | String c s' =>
      match (if (code c =? 58)%nat then digits_1_2 s' else None) with
      | Some ds => Some ds
      | None => search_minute s'
      end
  end.

(** [[ap]\.?m\.?] at the head of [s]: whether it starts with [p]. *)
Definition period_here (s : string) : option bool :=
  match s with
  | String c r =>
      if (code c =? 97)%nat || (code c =? 112)%nat then
        let after_dot :=
          match r with
          | String d r' => if (code d =? 46)%nat then r' else r
          | EmptyString => r
          end in
        if prefix "m" after_dot || prefix "m" r
        then Some (code c =? 112)%nat
        else None
      else None
  | EmptyString => None
  end.

(** [re.search(r'([ap]\.?m\.?)', s)]: [group(1).startswith('p')]. *)
Fixpoint search_period (s : string) : option bool :=
  match s with
  | EmptyString => None
  | String _ s' =>
      match period_here s with
      | Some p => Some p
      | None => search_period s'
      end
  end.

(** *** Dates *)

Definition days : list (string * Z) :=
  [ ("monday", 0); ("tuesday", 1); ("wednesday", 2); ("thursday", 3);
    ("friday", 4); ("saturday", 5); ("sunday", 6) ].

Definition months : list string :=
  [ "january"; "february"; "march"; "april"; "may"; "june";
    "july"; "august"; "september"; "october"; "november"; "december" ].

(** The loop [for i, month in enumerate(months, 1)] of [_parse_date]:
    [Ok None] when the loop ends without returning. *)
Fixpoint month_day_loop (today : Z) (ms : list string) (i : Z) (date_str : string)
  : res (option Z) :=
  match ms with
  | [] => Ok None
  | month :: rest =>
      if contains month date_str then
        match search_day date_str with
        | Some ds =>
            let day := int_of_digits ds in
            let year := Calendar.year_of today in
            date_obj <- Calendar.make_date year i day ;;
            if date_obj <? today
            then (date_obj' <- Calendar.make_date (year + 1) i day ;; Ok (Some date_obj'))
            else Ok (Some date_obj)
        | None => month_day_loop today rest (i + 1) date_str
        end
      else month_day_loop today rest (i + 1) date_str
  end.

(** [_parse_date], with [today] the date of the clock. *)
Definition _parse_date (today : Z) (date_str : string) : res Z :=
  let date_str := lower date_str in
  if contains "today" date_str then Ok today
  else if contains "tomorrow" date_str then Ok (today + 1)
  else if contains "day after tomorrow" date_str then Ok (today + 2)
  else
    match first_word_in days date_str with
    | Some day_num =>
        let today_weekday := Calendar.weekday today in
        let days_until := (day_num - today_weekday) mod 7 in
        let days_until :=
          if contains "next" date_str then days_until + 7 else days_until in
        let days_until :=
          if (days_until =? 0) && negb (contains "today" date_str)
          then 7 else days_until in
        Ok (today + days_until)
    | None =>
        match Calendar.strptime_ymd date_str with
        | Ok d => Ok d
        | Raise _ =>
            match month_day_loop today months 1 date_str with
            | Ok (Some d) => Ok d
            | Ok None => Raise ValueError
            | Raise _ => Raise ValueError
            end
        end
    end.

(** *** Times *)

Definition time_words : list (string * Z) :=
  [ ("one", 1); ("two", 2); ("three", 3); ("four", 4); ("five", 5);
    ("six", 6); ("seven", 7); ("eight", 8); ("nine", 9); ("ten", 10);
    ("eleven", 11); ("twelve", 12) ].

(** [_parse_time] *)
Definition _parse_time (time_str : string) : res Calendar.time :=
  let time_str := lower time_str in
  if contains "noon" time_str then Ok (12, 0)
  else if contains "midnight" time_str then Ok (0, 0)
  else
    hour <- match search_hour time_str with
            | None =>
                match first_word_in time_words time_str with
                | Some number => Ok number
                | None => Raise ValueError
                end
            | Some ds => Ok (int_of_digits ds)
            end ;;
    let (hour, minute) :=
      match search_minute time_str with
      | Some ds => (hour, int_of_digits ds)
      | None =>
          if contains "half" time_str || contains "thirty" time_str
          then (hour, 30)
          else if contains "quarter" time_str then
            if contains "to" time_str then ((hour - 1) mod 12, 45)
            else (hour, 15)
          else (hour, 0)
      end in
    let is_pm :=
      match search_period time_str with
      | Some p => p
      | None =>
          if contains "evening" time_str || contains "night" time_str
             || (hour <? 7)
          then true
          else if contains "afternoon" time_str && (hour <? 12) then true
          else false
      end in
    let hour :=
      if is_pm && (hour <? 12) then hour + 12
      else if negb is_pm && (hour =? 12) then 0
      else hour in
    Calendar.strptime_hm hour minute.

(** *** The reservation session

    [self.current_reservation] is a dictionary with the keys [completed],
    [step] and [data]; the record below is that dictionary.

    The flow appends the [data] dictionary itself to [self.reservations],
    not a copy, so a later write to a slot of the session shows in the list
    as well.  [recorded] keeps track of that sharing (it is no key of the
    Python dictionary): it is the number of entries at the end of
    [self.reservations] that are this session's own [data] dictionary. *)
Record reservation : Type := Session {
  completed : bool;
  step : string;
  data : dict;
  recorded : nat
}.

(** A session whose [data] dictionary is in no list, as [_start_reservation]
    makes it. *)
Definition Reservation (completed : bool) (step : string) (data : dict)
  : reservation :=
  Session completed step data 0.

(** The list [self.reservations] after a write to the dictionary that its
    last [n] entries are: those entries show the dictionary as written. *)
Definition shared (n : nat) (d : dict) (l : list dict) : list dict :=
  (firstn (List.length l - n) l
   ++ map (fun _ => d) (skipn (List.length l - n) l))%list.

(** The objects one turn of the reservation dialogue can change: the session,
    the list [self.reservations], and the caller's [conversation_history]
    list, which the handlers extend in place and hand back. *)
Record world : Type := World {
  current_reservation : reservation;
  reservations : list dict;
  conversation_history : list turn
}.

(** A block of the agent's code: it changes the world and returns or raises.
    The world it leaves is kept when it raises. *)
Definition M (A : Type) : Type := world -> world * res A.

Definition ret {A : Type} (a : A) : M A := fun w => (w, Ok a).

Definition raise {A : Type} (e : exn) : M A := fun w => (w, Raise e).

Definition lift {A : Type} (r : res A) : M A := fun w => (w, r).

Definition mbind {A B : Type} (m : M A) (k : A -> M B) : M B :=
  fun w =>
    match m w with
    | (w', Ok a) => k a w'
    | (w', Raise e) => (w', Raise e)
    end.

(** [try: m  except Exception: h] *)
Definition try_except {A : Type} (m h : M A) : M A :=
  fun w =>
    match m w with
    | (w', Raise _) => h w'
    | done => done
    end.

Notation "x <~ m ;; k" := (mbind m (fun x => k))
  (at level 61, m at next level, right associativity).
Notation "m ;;; k" := (mbind m (fun _ => k))
  (at level 61, right associativity).

(** [self.current_reservation["step"] = s] *)
Definition set_step (s : string) : M unit :=
  fun w =>
    let r := current_reservation w in
    (World (Session (completed r) s (data r) (recorded r))
           (reservations w) (conversation_history w), Ok tt).

(** [self.current_reservation["data"][k] = v]: the write is seen through
    every entry of [self.reservations] that is this dictionary. *)
Definition set_data (k : string) (v : value) : M unit :=
  fun w =>
    let r := current_reservation w in
    let written := dict_set k v (data r) in
    (World (Session (completed r) (step r) written (recorded r))
           (shared (recorded r) written (reservations w))
           (conversation_history w), Ok tt).

(** [self.current_reservation["completed"] = True] *)
Definition set_completed : M unit :=
  fun w =>
    let r := current_reservation w in
    (World (Session true (step r) (data r) (recorded r))
           (reservations w) (conversation_history w), Ok tt).

(** [self.reservations.append(self.current_reservation["data"])]: the new
    entry is the session's dictionary itself. *)
Definition append_reservation : M unit :=
  fun w =>
    let r := current_reservation w in
    (World (Session (completed r) (step r) (data r) (S (recorded r)))
           (reservations w ++ [data r])
           (conversation_history w), Ok tt).

(** [conversation_history.append({"role": "assistant", "content": text})] *)
Definition append_history (t : turn) : M unit :=
  fun w =>
    (World (current_reservation w) (reservations w)
           (conversation_history w ++ [t]), Ok tt).

(** [res_data[k]] inside an f-string. *)
Definition data_field (k : string) : M string :=
  fun w => (w, v <- dict_item k (data (current_reservation w)) ;; Ok (py_str v)).

Definition newline : string := String (ascii_of_nat 10) EmptyString.

Section Dialogue.

(** The speech service: [text_to_speech(text)] returns the audio or raises
    [RuntimeError]. *)
Variable text_to_speech : string -> res string.

(** [datetime.now().date()] *)
Variable today : Z.

(** The tail of a branch that records its answer:
    [audio = tts(response); history.append(...); return response, audio, history]. *)
Definition answer (response : string) : M (option (string * string)) :=
  audio <~ lift (text_to_speech response) ;;
  append_history (assistant response) ;;;
  ret (Some (response, audio)).

(** The tail of a branch that asks again:
    [audio = tts(response); return response, audio, history]. *)
Definition ask_again (response : string) : M (option (string * string)) :=
  audio <~ lift (text_to_speech response) ;;
  ret (Some (response, audio)).

Definition party_size_prompt : string :=
  "I need to know how many people will be dining. Please say just a number, like 'four' or 'six'.".
Definition past_date_prompt : string :=
  "I'm sorry, we can't make reservations for dates in the past. Please choose a future date.".
Definition bad_date_prompt : string :=
  "I couldn't understand that date. Please say something like 'tomorrow', 'this Friday', or 'May 20th'.".
Definition bad_time_prompt : string :=
  "Please tell me a valid time between 11AM and 10PM, like 'seven thirty PM' or '12:45 PM'.".
Definition bad_phone_prompt : string :=
  "I need a phone number with digits. Please provide a valid phone number.".
Definition start_over_prompt : string :=
  "Let's start over. How many people will be dining with us?".

(** The affirmative keywords of the [confirm] step. *)
Definition affirmative (query : string) : bool :=
  contains "yes" (lower query) || contains "correct" (lower query)
  || contains "right" (lower query).

(** [_handle_reservation_flow].  The value is [Some (response, audio)] for
    [return response, audio, conversation_history] (the list returned is the
    caller's list, [conversation_history] of the final world) and [None] when
    no branch matches the step and the function falls off its end. *)
Definition _handle_reservation_flow (query : string)
  : M (option (string * string)) :=
  fun w =>
  let current_step := step (current_reservation w) in
  (if String.eqb current_step "party_size" then
     match _extract_number_from_text query with
     | Some party_size =>
         if party_size >? 0 then
           set_data "party_size" (VInt party_size) ;;;
           set_step "date" ;;;
           answer ("Great! We'll reserve for " ++ str_of_int party_size
                   ++ " people. What date would you like to dine with us? You can say tomorrow, Friday, or a specific date.")
         else ask_again party_size_prompt
     | None => ask_again party_size_prompt
     end
   else if String.eqb current_step "date" then
     try_except
       (parsed_date <~ lift (_parse_date today query) ;;
        if parsed_date <? today then ask_again past_date_prompt
        else
          set_data "date" (VStr (Calendar.strftime_ymd parsed_date)) ;;;
          set_step "time" ;;;
          answer "What time would you like to reserve? Our hours are 11AM to 10PM.")
       (ask_again bad_date_prompt)
   else if String.eqb current_step "time" then
     try_except
       (parsed_time <~ lift (_parse_time query) ;;
        set_data "time" (VStr (Calendar.strftime_12h parsed_time)) ;;;
        set_step "name" ;;;
        answer "Perfect! What name should I put the reservation under?")
       (ask_again bad_time_prompt)
   else if String.eqb current_step "name" then
     set_data "name" (VStr query) ;;;
     set_step "phone" ;;;
     answer "Thank you. Could I also have a contact phone number in case we need to reach you?"
   else if String.eqb current_step "phone" then
     if any_char is_digit query then
       set_data "phone" (VStr query) ;;;
       set_step "confirm" ;;;
       name <~ data_field "name" ;;
       phone <~ data_field "phone" ;;
       party_size <~ data_field "party_size" ;;
       date <~ data_field "date" ;;
       time <~ data_field "time" ;;
       answer ("Let me confirm your reservation:" ++ newline
               ++ "Name: " ++ name ++ newline
               ++ "Phone: " ++ phone ++ newline
               ++ "Party Size: " ++ party_size ++ newline
               ++ "Date: " ++ date ++ newline
               ++ "Time: " ++ time ++ newline ++ newline
               ++ "Is this information correct? Please say yes or no.")
     else ask_again bad_phone_prompt
   else if String.eqb current_step "confirm" then
     if affirmative query then
       append_reservation ;;;
       set_completed ;;;
       answer ("Your reservation is confirmed! We look forward to serving you at Romana Restaurant. "
               ++ "Do you have any special requests or dietary restrictions we should know about?")
     else
       set_step "party_size" ;;;
       ask_again start_over_prompt
   else ret None) w.

(** [_start_reservation]: a fresh session replaces the current one. *)
Definition _start_reservation (query : string) : M (option (string * string)) :=
  fun w =>
    answer "Thank you for choosing Romana Restaurant! Please tell me how many people will be dining with us? Just say a number."
      (World (Reservation false "party_size" []) (reservations w)
             (conversation_history w)).

End Dialogue.

(** The step sequence of a reservation, and a step's place in it. *)
Definition steps : list string :=
  [ "party_size"; "date"; "time"; "name"; "phone"; "confirm" ].

Fixpoint index_of (s : string) (l : list string) : option nat :=
  match l with
  | [] => None
  | x :: rest =>
      if String.eqb s x then Some O
      else match index_of s rest with
           | Some n => Some (S n)
           | None => None
           end
  end.

Definition step_index (s : string) : option nat := index_of s steps.

(** Whether a step takes the reply: its parse succeeds and the value passes
    the step's check.  The [name] step takes any reply; the [confirm] step
    parses nothing. *)
Definition accepts (today : Z) (current_step query : string) : bool :=
  if String.eqb current_step "party_size" then
    match _extract_number_from_text query with
    | Some party_size => party_size >? 0
    | None => false
    end
  else if String.eqb current_step "date" then
    match _parse_date today query with
    | Ok parsed_date => negb (parsed_date <? today)
    | Raise _ => false
    end
  else if String.eqb current_step "time" then is_ok (_parse_time query)
  else if String.eqb current_step "name" then true
  else if String.eqb current_step "phone" then any_char is_digit query
  else false.

(** The validation failures of the reservation flow and the text each one
    answers: a party size that is no number or not positive, a date that is
    not understood or lies before today, a time that is not understood, a
    phone number with no digit. *)
Definition reprompt (today : Z) (current_step query : string) : option string :=
  if String.eqb current_step "party_size" then
    if accepts today current_step query then None else Some party_size_prompt
  else if String.eqb current_step "date" then
    match _parse_date today query with
    | Ok parsed_date =>
        if parsed_date <? today then Some past_date_prompt else None
    | Raise _ => Some bad_date_prompt
    end
  else if String.eqb current_step "time" then
    if accepts today current_step query then None else Some bad_time_prompt
  else if String.eqb current_step "phone" then
    if accepts today current_step query then None else Some bad_phone_prompt
  else None.

(** A session at the [confirm] step, as the five earlier steps leave it,
    and a speech service that always answers. *)
Definition sample_session : reservation :=
  Reservation false "confirm"
    [ ("party_size", VInt 4); ("date", VStr "2026-11-13");
      ("time", VStr "07:30 PM"); ("name", VStr "Ada");
      ("phone", VStr "555 1234") ].

Definition sample_world : world := World sample_session [] [].

Definition sample_speech (text : string) : res string := Ok "audio".

(** 2026-11-04, a Wednesday. *)
Definition sample_today : Z := 739924.

End VoiceAgent.

(** ** The retrieval layer: knowledge store, retriever, completion client *)
Module RAGLayer.
Import Py.

(** *** Knowledge store *)

(** [_initialize_knowledge_base]; [now] is [datetime.now().isoformat()]. *)
Definition _initialize_knowledge_base (now : string) : dict :=
  [ ("restaurant_info", VDict
      [ ("name", VStr "Romana Restaurant");
        ("cuisine", VStr "Italian");
        ("description", VStr "Authentic Italian cuisine serving homemade pasta and wood-fired pizzas");
        ("location", VStr "Toronto, Canada");
        ("phone", VStr "(555) 123-4567");
        ("email", VStr "reservations@romanarestaurant.com");
        ("website", VStr "www.romanarestaurant.com");
        ("hours", VDict
          [ ("monday", VStr "11:00 AM - 10:00 PM");
            ("tuesday", VStr "11:00 AM - 10:00 PM");
            ("wednesday", VStr "11:00 AM - 10:00 PM");
            ("thursday", VStr "11:00 AM - 10:00 PM");
            ("friday", VStr "11:00 AM - 11:00 PM");
            ("saturday", VStr "10:00 AM - 11:00 PM");
            ("sunday", VStr "10:00 AM - 10:00 PM") ]);
        ("popular_dishes", VList
          [ VDict [ ("name", VStr "Spaghetti Carbonara");
                    ("description", VStr "Classic carbonara with pancetta, egg, black pepper, and Pecorino Romano");
                    ("price", VFloat "16.99");
                    ("allergens", VList [VStr "gluten"; VStr "dairy"; VStr "eggs"]) ];
            VDict [ ("name", VStr "Margherita Pizza");
                    ("description", VStr "Traditional pizza with San Marzano tomatoes, fresh mozzarella, and basil");
                    ("price", VFloat "14.99");
                    ("allergens", VList [VStr "gluten"; VStr "dairy"]) ];
            VDict [ ("name", VStr "Lasagna Bolognese");
                    ("description", VStr "Layered pasta with beef ragù, béchamel sauce, and Parmigiano");
                    ("price", VFloat "18.99");
                    ("allergens", VList [VStr "gluten"; VStr "dairy"; VStr "eggs"]) ];
            VDict [ ("name", VStr "Tiramisu");
                    ("description", VStr "Classic Italian dessert with espresso-soaked ladyfingers and mascarpone");
                    ("price", VFloat "9.99");
                    ("allergens", VList [VStr "gluten"; VStr "dairy"; VStr "eggs"]) ];
            VDict [ ("name", VStr "Risotto al Funghi");
                    ("description", VStr "Creamy arborio rice with wild mushrooms and Parmigiano");
                    ("price", VFloat "17.99");
                    ("allergens", VList [VStr "dairy"]) ] ]);
        ("specials", VDict
          [ ("monday", VStr "20% off all pasta dishes");
            ("tuesday", VStr "Wine pairing special - half-price wine by the glass");
            ("wednesday", VStr "Family meal deal - 4 people eat for $60");
            ("thursday", VStr "Date night package - 3-course meal for two $65");
            ("friday", VStr "Happy hour 4-6 PM - $5 appetizers and drinks") ]);
        ("policies", VDict
          [ ("reservations", VStr "Reservations recommended, especially on weekends");
            ("cancellations", VStr "24-hour cancellation policy");
            ("dress_code", VStr "Business casual");
            ("parking", VStr "Valet available for $10, street parking also available");
            ("pets", VStr "Service animals only");
            ("payment", VStr "We accept all major credit cards, no checks") ]);
        ("dietary_accommodations", VDict
          [ ("gluten_free", VBool true);
            ("vegetarian", VBool true);
            ("vegan", VBool true);
            ("dairy_free", VBool true);
            ("nut_free", VBool true) ]) ]);
    ("menu_categories", VList
      [ VStr "Appetizers"; VStr "Pasta"; VStr "Pizza"; VStr "Main Courses";
        VStr "Desserts"; VStr "Beverages" ]);
    ("faqs", VList
      [ VDict [ ("question", VStr "Do you offer gluten-free options?");
                ("answer", VStr "Yes, we have gluten-free pasta and pizza crust available for an additional $2.") ];
        VDict [ ("question", VStr "Is there a kids' menu?");
                ("answer", VStr "Yes, we offer a children's menu with smaller portions priced at $9.99, including a drink and dessert.") ];
        VDict [ ("question", VStr "Can you accommodate food allergies?");
                ("answer", VStr "Yes, please inform your server of any allergies when ordering. Our kitchen can accommodate most dietary restrictions.") ];
        VDict [ ("question", VStr "Do you have outdoor seating?");
                ("answer", VStr "Yes, we have a beautiful patio that's open seasonally, weather permitting.") ];
        VDict [ ("question", VStr "Do you take reservations?");
                ("answer", VStr "Yes, we recommend reservations, especially for weekend dining. You can book online or call us at (555) 123-4567.") ];
        VDict [ ("question", VStr "Is there a corkage fee?");
                ("answer", VStr "Yes, we allow outside wine with a $25 corkage fee per bottle.") ] ]);
    ("last_updated", VStr now) ].

Definition slash : ascii := ascii_of_nat 47.

(** The last step of [update_knowledge_base] in a mapping [current]:
    merge into the mapping found at [last_part], or replace. *)
Definition update_last (last_part : string) (new_data : value) (merge : bool)
    (current : dict) : dict :=
  match (if merge then dict_get last_part current else None), new_data with
  | Some (VDict old), VDict incoming =>
      dict_set last_part (VDict (dict_update old incoming)) current
  | _, _ => dict_set last_part new_data current
  end.

(** The walk of [update_knowledge_base] from the mapping [current] along
    [part :: rest]: the mapping after the update.  A missing segment becomes
    an empty mapping.  On a node that is no mapping the code raises
    [TypeError] before it has changed anything (the membership test on a
    number, or the index or the item assignment by a string on a list or a
    text): a node that is no mapping is met only through keys that were
    there, so nothing has been created when it raises. *)
Fixpoint update_path (part : string) (rest : list string) (new_data : value)
    (merge : bool) (current : dict) : res dict :=
  match rest with
  | [] => Ok (update_last part new_data merge current)
  | next :: rest' =>
      match dict_get part current with
      | None =>
          child <- update_path next rest' new_data merge [] ;;
          Ok (dict_set part (VDict child) current)
      | Some (VDict child) =>
          child' <- update_path next rest' new_data merge child ;;
          Ok (dict_set part (VDict child') current)
      | Some _ => Raise TypeError
      end
  end.

(** The [try] block of [update_knowledge_base] before the time stamp.  At
    the root the argument is a mapping (its declared type); any other
    argument there is answered as a failure. *)
Definition update_body (kb : dict) (new_data : value) (section : option string)
    (merge : bool) : res dict :=
  match section with
  | Some (String c s) =>
      match split_on slash (String c s) with
      | part :: rest => update_path part rest new_data merge kb
      | [] => Raise ValueError
      end
  | _ =>
      match new_data with
      | VDict incoming => Ok (dict_update kb incoming)
      | _ => Raise TypeError
      end
  end.

(** [update_knowledge_base]: the returned flag and the knowledge base after
    the call; [now] is [datetime.now().isoformat()]. *)
Definition update_knowledge_base (kb : dict) (new_data : value)
    (section : option string) (merge : bool) (now : string) : bool * dict :=
  match update_body kb new_data section merge with
  | Ok kb' => (true, dict_set "last_updated" (VStr now) kb')
  | Raise _ => (false, kb)
  end.

(** [x == VStr part] for an element of a list. *)
Definition is_text (part : string) (x : value) : bool :=
  match x with
  | VStr s => String.eqb s part
  | _ => false
  end.

(** One turn of the loop of [get_knowledge_base] at the node [current]:
    [Ok None] when [part not in current], [Ok (Some v)] for [current[part]].
    A list or a text that holds [part] raises at the index; a number, a
    truth value or [None] raises at the membership test. *)
Definition enter (part : string) (current : value) : res (option value) :=
  match current with
  | VDict d => Ok (dict_get part d)
  | VList l => if existsb (is_text part) l then Raise TypeError else Ok None
  | VStr s => if contains part s then Raise TypeError else Ok None
  | _ => Raise TypeError
  end.

(** The loop of [get_knowledge_base]. *)
Fixpoint walk (path_parts : list string) (current : value) : res value :=
  match path_parts with
  | [] => Ok current
  | part :: rest =>
      found <- enter part current ;;
      match found with
      | Some next => walk rest next
      | None => Ok (VDict [])
      end
  end.

(** [get_knowledge_base] *)
Definition get_knowledge_base (kb : dict) (section : option string) : value :=
  match section with
  | Some (String c s) =>
      match walk (split_on slash (String c s)) (VDict kb) with
      | Ok v => v
      | Raise _ => VDict []
      end
  | _ => VDict kb
  end.

(** What [restore_knowledge_base] finds at [filename]: no file, a file that
    cannot be read as JSON, or the value [json.load] returns. *)
Inductive backup_file : Type :=
| NoSuchFile
| Unreadable
| Loaded (data : value).

(** [restore_knowledge_base]: the returned flag and the knowledge base after
    the call. *)
Definition restore_knowledge_base (kb : dict) (file : backup_file) : bool * dict :=
  match file with
  | NoSuchFile => (false, kb)
  | Unreadable => (false, kb)
  | Loaded (VDict data) =>
      if dict_mem "restaurant_info" data then (true, data) else (false, kb)
  | Loaded _ => (false, kb)
  end.

(** *** Context retriever

    Scores are exact rationals: the quotient of two word counts, plus the
    decimal bonuses; [threshold] is the rational the caller passes. *)

(** [set(text.lower().split())], each word once. *)
Definition word_set (text : string) : list string :=
  nodup string_dec (split_ws (lower text)).

Definition mem (w : string) (l : list string) : bool := existsb (String.eqb w) l.

(** [_simple_text_similarity]: the Jaccard index of the two word sets. *)
Definition _simple_text_similarity (text1 text2 : string) : Q :=
  let words1 := word_set text1 in
  let words2 := word_set text2 in
  let intersection := List.length (filter (fun w => mem w words2) words1) in
  let union := List.length (nodup string_dec (words1 ++ words2)) in
  Qmake (Z.of_nat intersection) (Pos.of_nat (Nat.max union 1)).

(** [a > b] on scores. *)
Definition Qgtb (a b : Q) : bool := negb (Qle_bool a b).

(** An element of [context_parts]. *)
Record context_part : Type := Part { text : string; score : Q }.

Definition underscore : ascii := ascii_of_nat 95.
Definition blank : ascii := ascii_of_nat 32.

(** [key.replace('_', ' ').title()] *)
Definition heading (key : string) : string :=
  title (replace_char underscore blank key).

(** [similarity + (0.2 if mentioned else 0)] *)
Definition with_key_bonus (similarity : Q) (mentioned : bool) : Q :=
  Qplus similarity (if mentioned then Qmake 2 10 else Qmake 0 1).

(** The body of the loop over [restaurant_info.items()] for one item: the
    parts it appends. *)
Definition scan_item (clean_query : string) (threshold : Q)
    (key : string) (val : value) : list context_part :=
  match val with
  | VStr s =>
      let similarity := _simple_text_similarity clean_query s in
      if Qgtb similarity threshold || contains (lower key) clean_query
      then [ Part (heading key ++ ": " ++ s)
                  (with_key_bonus similarity (contains (lower key) clean_query)) ]
      else []
  | VDict d =>
      flat_map
        (fun kv : string * value =>
           let (sub_key, sub_value) := kv in
           let combined_text := sub_key ++ ": " ++ py_str sub_value in
           let similarity := _simple_text_similarity clean_query combined_text in
           if Qgtb similarity threshold || contains (lower sub_key) clean_query
           then [ Part (heading key ++ " - " ++ heading sub_key ++ ": "
                        ++ py_str sub_value)
                       (with_key_bonus similarity
                          (contains (lower sub_key) clean_query)) ]
           else [])
        d
  | VList l =>
      flat_map
        (fun item : value =>
           let item_text :=
             match item with
             | VDict _ => json_dumps item
             | _ => py_str item
             end in
           let similarity := _simple_text_similarity clean_query item_text in
           if Qgtb similarity threshold
           then [ Part (heading key ++ ": " ++ py_str item) similarity ]
           else [])
        l
  | _ => []
  end.

(** [text.lower()] on a value that must be a text. *)
Definition as_text (v : value) : res string :=
  match v with
  | VStr s => Ok s
  | _ => Raise AttributeError
  end.

(** The body of the loop over the FAQs for one entry. *)
Definition scan_faq (clean_query : string) (threshold : Q) (faq : value)
  : res (list context_part) :=
  match faq with
  | VDict d =>
      question <- (q <- dict_item "question" d ;; as_text q) ;;
      let question_similarity := _simple_text_similarity clean_query question in
      answer <- (a <- dict_item "answer" d ;; as_text a) ;;
      let answer_similarity := _simple_text_similarity clean_query answer in
      let max_similarity :=
        if Qgtb answer_similarity question_similarity
        then answer_similarity else question_similarity in
      if Qgtb max_similarity threshold
      then Ok [ Part ("FAQ: " ++ question ++ " - " ++ answer)
                     (Qplus max_similarity (Qmake 1 10)) ]
      else Ok []
  | _ => Raise TypeError
  end.

Fixpoint scan_faqs (clean_query : string) (threshold : Q) (faqs : list value)
  : res (list context_part) :=
  match faqs with
  | [] => Ok []
  | faq :: rest =>
      here <- scan_faq clean_query threshold faq ;;
      there <- scan_faqs clean_query threshold rest ;;
      Ok (here ++ there)%list
  end.

(** [for faq in v]: what the loop ranges over.  A mapping yields its keys
    and a text its characters, on which the loop body raises at once. *)
Definition iterate (v : value) : res (list value) :=
  match v with
  | VList l => Ok l
  | VDict d => Ok (map (fun kv : string * value => VStr (fst kv)) d)
  | VStr s => Ok (map (fun c => VStr (String c EmptyString)) (list_ascii_of_string s))
  | _ => Raise TypeError
  end.

(** The [try] block of [retrieve_relevant_context] up to the sort:
    [context_parts]. *)
Definition collect_context (kb : dict) (clean_query : string) (threshold : Q)
  : res (list context_part) :=
  info <- dict_item "restaurant_info" kb ;;
  items <- match info with
           | VDict d => Ok d
           | _ => Raise AttributeError
           end ;;
  let info_parts :=
    flat_map (fun kv : string * value =>
                scan_item clean_query threshold (fst kv) (snd kv)) items in
  faqs <- (f <- dict_item "faqs" kb ;; iterate f) ;;
  faq_parts <- scan_faqs clean_query threshold faqs ;;
  Ok (info_parts ++ faq_parts)%list.

(** [l.sort(key=score, reverse=True)]: descending and stable. *)
Fixpoint insert_desc (x : context_part) (l : list context_part)
  : list context_part :=
  match l with
  | [] => [x]
  | y :: rest =>
      if Qgtb (score y) (score x) then y :: insert_desc x rest else x :: l
  end.

Definition sort_desc (l : list context_part) : list context_part :=
  fold_right insert_desc [] l.

Definition no_context : string := "No specific context found for your query.".
Definition context_error : string := "Error retrieving context information.".

(** [retrieve_relevant_context] *)
Definition retrieve_relevant_context (kb : dict) (query : string) (threshold : Q)
  : string :=
  let clean_query := strip (lower query) in
  match collect_context kb clean_query threshold with
  | Ok context_parts =>
      let top_contexts := map text (firstn 5 (sort_desc context_parts)) in
      match top_contexts with
      | [] => no_context
      | _ => join (String (ascii_of_nat 10) EmptyString) top_contexts
      end
  | Raise _ => context_error
  end.

(** *** Completion client *)

(** The answer of the completion service to the POST: its status, its body,
    and [result['choices'][0]['message']['content']] of the body read as
    JSON (which raises when the body has no such field). *)
Record http_response : Type := Response {
  status_code : Z;
  body : string;
  message_content : res string
}.

(** [l[i:]] *)
Definition slice_from {A : Type} (i : Z) (l : list A) : list A :=
  let n := Z.of_nat (List.length l) in
  skipn (Z.to_nat (if i <? 0 then Z.max 0 (i + n) else i)) l.

(** What a call of [generate_response] leaves: the text and the history it
    returns, and the caller's list after the call (the method extends the
    list it was given in place). *)
Record generated : Type := Generated {
  response : string;
  history : list turn;
  argument_after : list turn
}.

Definition fallback_response : string :=
  "I'm having trouble processing your request. Please try again later.".
Definition timeout_msg : string :=
  "Request timed out. The server might be busy.".
Definition error_response : string :=
  "I encountered an error. Please try again.".

(** [generate_response].  [post] is what [requests.post] does with the
    request built from the query, the retrieved context and the last turns:
    a response, or an exception ([Timeout] or another).  Building the
    request (query enhancement, context retrieval, the slice of the last
    turns) raises nothing on a text query and changes nothing the caller
    sees; the two [append]s come after everything that can raise. *)
Definition generate_response (conversation_memory : Z) (query : string)
    (conversation_history : option (list turn)) (post : res http_response)
  : generated :=
  let conversation_history :=
    match conversation_history with
    | None => []
    | Some h => h
    end in
  let user_message := user query in
  let attempt : res generated :=
    reply <- post ;;
    if status_code reply =? 200 then
      assistant_response <- message_content reply ;;
      let extended :=
        (conversation_history ++ [user_message; assistant assistant_response])%list in
      let kept :=
        if Z.of_nat (List.length extended) >? conversation_memory * 2
        then slice_from (- conversation_memory * 2) extended
        else extended in
      Ok (Generated assistant_response kept extended)
    else
      let extended :=
        (conversation_history ++ [user_message; assistant fallback_response])%list in
      Ok (Generated fallback_response extended extended) in
  match attempt with
  | Ok g => g
  | Raise Timeout => Generated timeout_msg conversation_history conversation_history
  | Raise _ => Generated error_response conversation_history conversation_history
  end.

(** *** Notions the properties are stated with *)

(** The value at a path of the tree: every segment is a key of the mapping
    reached so far.  A path exists when this is [Some]. *)
Fixpoint lookup_path (path_parts : list string) (node : value) : option value :=
  match path_parts with
  | [] => Some node
  | part :: rest =>
      match node with
      | VDict d =>
          match dict_get part d with
          | Some next => lookup_path rest next
          | None => None
          end
      | _ => None
      end
  end.

(** A loaded backup has the expected form: a mapping with the key
    [restaurant_info]. *)
Definition valid_backup (data : value) : bool :=
  match data with
  | VDict d => dict_mem "restaurant_info" d
  | _ => false
  end.





(** An FAQ entry the retriever can read: a mapping with a text [question]
    and a text [answer]. *)
Definition faq_shaped (faq : value) : bool :=
  match faq with
  | VDict d =>
      match dict_get "question" d, dict_get "answer" d with
      | Some (VStr _), Some (VStr _) => true
      | _, _ => false
      end
  | _ => false
  end.

(** A knowledge base the retriever can scan: [restaurant_info] is a mapping
    and [faqs] a list of readable entries. *)
Definition scannable (kb : dict) : bool :=
  match dict_get "restaurant_info" kb, dict_get "faqs" kb with
  | Some (VDict _), Some (VList faqs) => forallb faq_shaped faqs
  | _, _ => false
  end.

(** The time stamp the constructor is given in the examples. *)
Definition sample_now : string := "2026-11-04T10:00:00".

End RAGLayer.

(** ** The voice agent: ordering flow and conversation router *)
Module Conversation.
Import Py.

(** [self.current_order]: a dictionary with the keys [completed], [step],
    [items], [special_requests] and, once the table is known,
    [table_number]. *)
Record order : Type := Order {
  order_completed : bool;
  order_step : string;
  items : list value;
  special_requests : string;
  table_number : option Z
}.

(** The objects a turn of the conversation can change: the knowledge base of
    the retrieval layer, the two sessions, the two lists of finished
    transactions, and the caller's [conversation_history] list.  An order is
    appended to [self.orders] as the object it is, so the list shows it with
    the [completed] flag the same branch sets next. *)
Record agent : Type := Agent {
  knowledge_base : dict;
  current_reservation : option VoiceAgent.reservation;
  reservations : list dict;
  current_order : option order;
  orders : list order;
  conversation_history : list turn
}.

(** What [handle_conversation] returns: the triple
    [(response, audio, conversation_history)] whose list is the caller's
    list, the pair [(response, history)] of [generate_response], or [None]
    when a flow falls off its end. *)
Inductive routed : Type :=
| Spoken (response : string) (audio : option string)
| Unspoken (response : string) (history : list turn)
| Nothing.

Definition M (A : Type) : Type := agent -> agent * res A.

Definition ret {A : Type} (x : A) : M A := fun a => (a, Ok x).

Definition lift {A : Type} (r : res A) : M A := fun a => (a, r).

Definition mbind {A B : Type} (m : M A) (k : A -> M B) : M B :=
  fun a =>
    match m a with
    | (a', Ok x) => k x a'
    | (a', Raise e) => (a', Raise e)
    end.

Notation "x <~ m ;; k" := (mbind m (fun x => k))
  (at level 61, m at next level, right associativity).
Notation "m ;;; k" := (mbind m (fun _ => k))
  (at level 61, right associativity).

(** [self.current_order = o] and the assignments to its keys. *)
Definition set_order (o : order) : M unit :=
  fun a =>
    (Agent (knowledge_base a) (current_reservation a) (reservations a)
           (Some o) (orders a) (conversation_history a), Ok tt).

(** [self.orders.append(self.current_order)] followed by
    [self.current_order["completed"] = True]. *)
Definition place_order (o : order) : M unit :=
  fun a =>
    let placed :=
      Order true (order_step o) (items o) (special_requests o) (table_number o) in
    (Agent (knowledge_base a) (current_reservation a) (reservations a)
           (Some placed) (orders a ++ [placed]) (conversation_history a), Ok tt).

(** [conversation_history.append({"role": "assistant", "content": text})] *)
Definition append_history (t : turn) : M unit :=
  fun a =>
    (Agent (knowledge_base a) (current_reservation a) (reservations a)
           (current_order a) (orders a) (conversation_history a ++ [t]), Ok tt).

(** A method of the reservation flow run on the agent: it sees the session
    [r], the list of reservations and the history, and leaves them changed. *)
Definition on_reservation {A : Type} (r : VoiceAgent.reservation)
    (m : VoiceAgent.M A) : M A :=
  fun a =>
    let (w, out) :=
      m (VoiceAgent.World r (reservations a) (conversation_history a)) in
    (Agent (knowledge_base a)
           (Some (VoiceAgent.current_reservation w))
           (VoiceAgent.reservations w)
           (current_order a) (orders a)
           (VoiceAgent.conversation_history w), out).

(** [item[k]] for an element of the menu: only a mapping can be indexed by a
    text. *)
Definition item_field (k : string) (item : value) : res value :=
  match item with
  | VDict d => dict_item k d
  | _ => Raise TypeError
  end.

(** [item['name'].lower()] *)
Definition item_name (item : value) : res string :=
  name <- item_field "name" item ;;
  match name with
  | VStr s => Ok s
  | _ => Raise AttributeError
  end.

(** [[f(item) for item in l]], stopping at the first exception. *)
Fixpoint each {A B : Type} (f : A -> res B) (l : list A) : res (list B) :=
  match l with
  | [] => Ok []
  | x :: rest =>
      y <- f x ;;
      ys <- each f rest ;;
      Ok (y :: ys)
  end.

(** The loop of [item_selection]: the items of the menu whose lowered name
    occurs in the lowered query, in menu order. *)
Fixpoint matching_items (query : string) (menu : list value) : res (list value) :=
  match menu with
  | [] => Ok []
  | item :: rest =>
      name <- item_name item ;;
      found <- matching_items query rest ;;
      Ok (if contains (lower name) (lower query) then item :: found else found)
  end.

Definition newline : string := String (ascii_of_nat 10) EmptyString.

(** [self.operating_hours], in the order the constructor writes it. *)
Definition operating_hours : list (string * string) :=
  [ ("Monday", "11:00 AM - 10:00 PM");
    ("Tuesday", "11:00 AM - 10:00 PM");
    ("Wednesday", "11:00 AM - 10:00 PM");
    ("Thursday", "11:00 AM - 10:00 PM");
    ("Friday", "11:00 AM - 11:00 PM");
    ("Saturday", "10:00 AM - 11:00 PM");
    ("Sunday", "10:00 AM - 10:00 PM") ].

(** [_get_operating_hours] *)
Definition _get_operating_hours : string :=
  "Our operating hours are:" ++ newline
  ++ join newline
       (map (fun dh : string * string => fst dh ++ ": " ++ snd dh)
            operating_hours)
  ++ newline ++ newline
  ++ "Is there a particular day you're planning to visit?".

(** [_get_available_commands] *)
Definition _get_available_commands : string :=
  "Here are some things you can ask me:" ++ newline
  ++ "- 'Book a table' or 'Make a reservation'" ++ newline
  ++ "- 'I'd like to order food'" ++ newline
  ++ "- 'What are today's specials?'" ++ newline
  ++ "- 'What are your hours?'" ++ newline
  ++ "- 'Where are you located?'" ++ newline
  ++ "- 'I have feedback about my experience'" ++ newline
  ++ "- Ask any questions about our menu, ingredients, or services!".

(** The table [specials] of [_get_daily_specials], by [date.weekday()]. *)
Definition specials : list (string * string) :=
  [ ("Monday", "Mushroom Risotto with truffle oil and Tiramisu for dessert");
    ("Tuesday", "Homemade Lasagna with garlic bread and Panna Cotta");
    ("Wednesday", "Seafood Linguine with white wine sauce and Lemon Sorbet");
    ("Thursday", "Osso Buco with saffron risotto and Cannoli");
    ("Friday", "Grilled Sea Bass with Mediterranean vegetables and Chocolate Fondant");
    ("Saturday", "Prime Rib with truffle mashed potatoes and Crème Brûlée");
    ("Sunday", "Sunday Roast with all the trimmings and Gelato selection") ].

(** [any(word in query_lower for word in words)] *)
Definition any_word (words : list string) (query_lower : string) : bool :=
  existsb (fun word => contains word query_lower) words.

Definition reservation_words : list string :=
  [ "reservation"; "book"; "table"; "reserve" ].
Definition order_words : list string :=
  [ "order"; "menu"; "food"; "dish"; "eat"; "hungry" ].
Definition hours_words : list string :=
  [ "hours"; "open"; "close"; "timing"; "schedule" ].
Definition feedback_words : list string :=
  [ "feedback"; "review"; "experience"; "comment" ].
Definition help_words : list string :=
  [ "help"; "commands"; "options"; "what can you do" ].
Definition specials_words : list string :=
  [ "specials"; "today"; "chef"; "recommend"; "popular" ].
Definition location_words : list string :=
  [ "location"; "address"; "directions"; "find" ].

Definition error_msg : string :=
  "I'm sorry, I encountered an error processing your request. Could you please try again?".

Section Agent.

(** The speech service: [text_to_speech(text)] returns the audio or raises. *)
Variable text_to_speech : string -> res string.

(** [datetime.now().date()] *)
Variable today : Z.

(** [f"{sum(item['price'] for item in items):.2f}"]: the sum of the prices
    in floating point, printed with two decimals; it raises when an item has
    no price or a price that is no number.  Floating-point arithmetic is not
    modelled: the flows are stated for every such function. *)
Variable total_text : list value -> res string.

(** [self.rag_layer.conversation_memory] and what [requests.post] does with
    the completion request of this turn. *)
Variable conversation_memory : Z.
Variable post : res RAGLayer.http_response.

(** [audio = tts(response); history.append(...); return response, audio, history] *)
Definition answer (response : string) : M routed :=
  audio <~ lift (text_to_speech response) ;;
  append_history (assistant response) ;;;
  ret (Spoken response (Some audio)).

(** [self.rag_layer.get_knowledge_base("restaurant_info/popular_dishes")],
    as the [for] loops range over it. *)
Definition menu : M (list value) :=
  fun a =>
    (a, RAGLayer.iterate
          (RAGLayer.get_knowledge_base (knowledge_base a)
             (Some "restaurant_info/popular_dishes"))).

(** [_start_ordering] *)
Definition _start_ordering (query : string) : M routed :=
  set_order (Order false "table_number" [] "" None) ;;;
  dishes <~ menu ;;
  lines <~ lift (each (fun item =>
                         name <- item_field "name" item ;;
                         price <- item_field "price" item ;;
                         Ok (py_str name ++ " - $" ++ py_str price)) dishes) ;;
  answer ("I'd be happy to take your order. First, could you tell me your table number?"
          ++ newline ++ newline
          ++ "Our popular dishes today:" ++ newline ++ join newline lines).

(** [_handle_ordering_flow] on the order [o] that is [self.current_order]. *)
Definition _handle_ordering_flow (o : order) (query : string) : M routed :=
  let current_step := order_step o in
  if String.eqb current_step "table_number" then
    match VoiceAgent._extract_number_from_text query with
    | Some table_num =>
        if table_num >? 0 then
          set_order (Order (order_completed o) "item_selection" (items o)
                           (special_requests o) (Some table_num)) ;;;
          answer "Great! What would you like to order? You can say multiple items at once."
        else
          audio <~ lift (text_to_speech
            "I need your table number. Please say just the number, like 'table five' or 'number seven'.") ;;
          ret (Spoken "I need your table number. Please say just the number, like 'table five' or 'number seven'." (Some audio))
    | None =>
        audio <~ lift (text_to_speech
          "I need your table number. Please say just the number, like 'table five' or 'number seven'.") ;;
        ret (Spoken "I need your table number. Please say just the number, like 'table five' or 'number seven'." (Some audio))
    end
  else if String.eqb current_step "item_selection" then
    dishes <~ menu ;;
    ordered_items <~ lift (matching_items query dishes) ;;
    match ordered_items with
    | _ :: _ =>
        let extended := (items o ++ ordered_items)%list in
        set_order (Order (order_completed o) (order_step o) extended
                         (special_requests o) (table_number o)) ;;;
        total <~ lift (total_text extended) ;;
        item_names <~ lift (each item_name ordered_items) ;;
        if contains "no" (lower query) || contains "that's it" (lower query)
           || contains "that's all" (lower query)
        then
          set_order (Order (order_completed o) "special_requests" extended
                           (special_requests o) (table_number o)) ;;;
          answer "Any special requests or dietary restrictions we should know about?"
        else
          answer ("I've added " ++ join ", " item_names
                  ++ " to your order. Current total: $" ++ total ++ newline
                  ++ "Would you like to add anything else? Please say yes or no.")
    | [] =>
        answer "I didn't recognize those menu items. Could you please try again or ask to hear our menu?"
    end
  else if String.eqb current_step "special_requests" then
    set_order (Order (order_completed o) "confirm_order" (items o) query
                     (table_number o)) ;;;
    lines <~ lift (each (fun item =>
                           name <- item_field "name" item ;;
                           price <- item_field "price" item ;;
                           Ok ("- " ++ py_str name ++ " ($" ++ py_str price ++ ")"))
                        (items o)) ;;
    total <~ lift (total_text (items o)) ;;
    table <~ lift (match table_number o with
                   | Some n => Ok (str_of_int n)
                   | None => Raise KeyError
                   end) ;;
    answer ("Let me confirm your order:" ++ newline
            ++ "Table: " ++ table ++ newline
            ++ "Items:" ++ newline ++ join newline lines ++ newline
            ++ "Special Requests: " ++ query ++ newline
            ++ "Total: $" ++ total ++ newline ++ newline
            ++ "Should I place this order? Please say yes or no.")
  else if String.eqb current_step "confirm_order" then
    if contains "yes" (lower query) || contains "confirm" (lower query)
       || contains "place" (lower query)
    then
      place_order o ;;;
      total <~ lift (total_text (items o)) ;;
      answer ("Your order has been placed! Total amount: $" ++ total ++ newline
              ++ "Your food will be prepared shortly. Is there anything else I can help with today?")
    else
      set_order (Order (order_completed o) "item_selection" (items o)
                       (special_requests o) (table_number o)) ;;;
      answer "What would you like to change about your order?"
  else ret Nothing.

(** [datetime.now().strftime("%A")]: the English name of the weekday. *)
Definition day_names : list string :=
  [ "Monday"; "Tuesday"; "Wednesday"; "Thursday"; "Friday"; "Saturday";
    "Sunday" ].

Definition strftime_A (d : Z) : string :=
  nth (Z.to_nat (Calendar.weekday d)) day_names "".

(** [specials[day]] *)
Definition special_of (day : string) : res string :=
  match find (fun ds : string * string => String.eqb (fst ds) day) specials with
  | Some ds => Ok (snd ds)
  | None => Raise KeyError
  end.

(** [_get_daily_specials] *)
Definition _get_daily_specials : M routed :=
  let day := strftime_A today in
  special <~ lift (special_of day) ;;
  answer ("Today's specials for " ++ day ++ " are: " ++ special ++ ". "
          ++ "Our chef personally recommends pairing it with our house wine selection. "
          ++ "Would you like to include any of these items in your order?").

(** [_get_location_info] *)
Definition _get_location_info : M routed :=
  answer ("Romana Restaurant is located at 123 Culinary Avenue, Downtown. "
          ++ "We're right across from Central Park and just two blocks from the Main Street subway station. "
          ++ "Free parking is available in our private lot behind the restaurant. "
          ++ "Would you like me to send directions to your phone?").

(** [_handle_feedback] *)
Definition _handle_feedback (query : string) : M routed :=
  answer ("Thank you for your feedback! We truly value your opinion. "
          ++ "Could you share what you enjoyed most about your dining experience today, and if there's anything we could improve?").

(** The result of a reservation method as the router passes it on. *)
Definition passed_on (out : option (string * string)) : routed :=
  match out with
  | Some (response, audio) => Spoken response (Some audio)
  | None => Nothing
  end.

(** [return self.rag_layer.generate_response(query, conversation_history)] *)
Definition rag_response (query : string) : M routed :=
  fun a =>
    let g :=
      RAGLayer.generate_response conversation_memory query
        (Some (conversation_history a)) post in
    (Agent (knowledge_base a) (current_reservation a) (reservations a)
           (current_order a) (orders a) (RAGLayer.argument_after g),
     Ok (Unspoken (RAGLayer.response g) (RAGLayer.history g))).

(** [_start_reservation] on the agent: a fresh session replaces
    [self.current_reservation], whatever it was. *)
Definition start_reservation (query : string) : M routed :=
  out <~ on_reservation (VoiceAgent.Reservation false "party_size" [])
           (VoiceAgent._start_reservation text_to_speech query) ;;
  ret (passed_on out).

(** The intents of [handle_conversation], in the order the code tests
    them. *)
Definition intents (query : string) : M routed :=
  let query_lower := lower query in
  if any_word reservation_words query_lower then start_reservation query
  else if any_word order_words query_lower then _start_ordering query
  else if any_word hours_words query_lower then answer _get_operating_hours
  else if any_word feedback_words query_lower then _handle_feedback query
  else if any_word help_words query_lower then answer _get_available_commands
  else if any_word specials_words query_lower then _get_daily_specials
  else if any_word location_words query_lower then _get_location_info
  else rag_response query.

(** The [try] block of [handle_conversation]. *)
Definition route (query : string) : M routed :=
  fun a =>
    let without_reservation : M routed :=
      match current_order a with
      | Some o =>
          if negb (order_completed o) then _handle_ordering_flow o query
          else intents query
      | None => intents query
      end in
    match current_reservation a with
    | Some r =>
        if negb (VoiceAgent.completed r)
        then (out <~ on_reservation r
                       (VoiceAgent._handle_reservation_flow text_to_speech
                          today query) ;;
              ret (passed_on out)) a
        else without_reservation a
    | None => without_reservation a
    end.

(** The [except] clauses of [handle_conversation] around a block: an
    exception is answered with the apology, spoken if the speech service
    answers. *)
Definition caught (done : agent * res routed) : agent * routed :=
  match done with
  | (a', Ok out) => (a', out)
  | (a', Raise _) =>
      match text_to_speech error_msg with
      | Ok audio => (a', Spoken error_msg (Some audio))
      | Raise _ => (a', Spoken error_msg None)
      end
  end.

(** [handle_conversation]: the agent after the call and what is returned. *)
Definition handle_conversation (query : string) (a : agent) : agent * routed :=
  caught (route query a).

End Agent.

(** *** Notions the properties are stated with *)

(** No session is under way: each of the two is absent or completed. *)
Definition idle (a : agent) : bool :=
  match current_reservation a with
  | Some r => VoiceAgent.completed r
  | None => true
  end
  &&
  match current_order a with
  | Some o => order_completed o
  | None => true
  end.

(** The item has a text name whose lowered form occurs in the lowered
    query. *)
Definition named_in (query : string) (item : value) : bool :=
  match item_name item with
  | Ok name => contains (lower name) (lower query)
  | Raise _ => false
  end.

(** The result is a triple with the caller's list, or [None]: not the pair
    of the completion client. *)
Definition voiced (out : routed) : Prop :=
  match out with
  | Unspoken _ _ => False
  | _ => True
  end.

(** An agent as the constructor leaves it, a menu-price printer for the
    examples, and a completion service that is down. *)
Definition fresh_agent : agent :=
  Agent (RAGLayer._initialize_knowledge_base RAGLayer.sample_now)
        None [] None [] [].

(** A price in cents, read from its decimal text. *)
Definition cents_of (price : value) : res Z :=
  match price with
  | VInt n => Ok (n * 100)
  | VFloat r =>
      match split_on (ascii_of_nat 46) r with
      | [whole; cents] =>
          if (String.length cents =? 2)%nat
          then Ok (int_of_digits whole * 100 + int_of_digits cents)
          else Raise ValueError
      | _ => Raise ValueError
      end
  | _ => Raise TypeError
  end.

(** The total of the examples: prices written with two decimals are added
    as decimals. *)
Definition sample_total (chosen : list value) : res string :=
  prices <- each (fun item => price <- item_field "price" item ;; cents_of price)
                 chosen ;;
  let total := fold_left Z.add prices 0 in
  Ok (str_of_int (total / 100) ++ "." ++ pad2 (total mod 100)).

Definition sample_post : res RAGLayer.http_response := Raise Timeout.

End Conversation.

(** ** Notions the further properties are stated with *)
Module Notions.
Import Py.

(** What a proper prefix of a path may hold for an update to go through:
    nothing, or a mapping. *)
Definition passable (found : option value) : Prop :=
  match found with
  | Some (VDict _) | None => True
  | Some _ => False
  end.

(** [x] does not rank below [y]. *)
Definition not_below (x y : RAGLayer.context_part) : Prop :=
  Qle (RAGLayer.score y) (RAGLayer.score x).

(** The text is made of decimal digits. *)
Fixpoint all_digits (s : string) : bool :=
  match s with
  | EmptyString => true
  | String c s' => is_digit c && all_digits s'
  end.

(** The parts the retriever collects for a question about three days and
    parking, and the entries of [restaurant_info], on the initial knowledge
    base. *)
Definition sample_question : string :=
  "Is parking free on Monday, Tuesday and Wednesday?".

Definition sample_parts : list RAGLayer.context_part :=
  match RAGLayer.collect_context
          (RAGLayer._initialize_knowledge_base RAGLayer.sample_now)
          (strip (lower sample_question)) (Qmake 1 10) with
  | Ok parts => parts
  | Raise _ => []
  end.

Definition sample_info : dict :=
  match dict_get "restaurant_info"
          (RAGLayer._initialize_knowledge_base RAGLayer.sample_now) with
  | Some (VDict items) => items
  | _ => []
  end.

(** The dishes of the initial menu, and those named in an order for two of
    them. *)
Definition sample_selection : string :=
  "One Tiramisu and a Margherita Pizza, please".

Definition sample_dishes : list value :=
  match RAGLayer.iterate
          (RAGLayer.get_knowledge_base
             (RAGLayer._initialize_knowledge_base RAGLayer.sample_now)
             (Some "restaurant_info/popular_dishes")) with
  | Ok dishes => dishes
  | Raise _ => []
  end.

Definition sample_found : list value :=
  filter (Conversation.named_in sample_selection) sample_dishes.

(** An agent with an order under way at the given step. *)
Definition ordering_agent (current_step : string) (chosen : list value)
  : Conversation.agent :=
  Conversation.Agent
    (RAGLayer._initialize_knowledge_base RAGLayer.sample_now) None []
    (Some (Conversation.Order false current_step chosen "" (Some 5))) [] [].

(** A speech service that is down. *)
Definition silent_speech (text : string) : res string := Raise RuntimeError.

End Notions.

(** * Properties *)

(** ** The voice agent *)
Module VoiceAgentProps.
Import Py VoiceAgent.

(** *** Substrings *)

Lemma prefix_iff (sub s : string) :
  prefix sub s = true <-> exists b, s = sub ++ b.
Proof.
  revert sub. induction s as [| c' s' IH]; intros sub; destruct sub as [| c sub];
    cbn [prefix].
  - split; [intros _; exists ""; reflexivity | reflexivity].
  - split; [discriminate | intros [b Hb]; discriminate].
  - split; [intros _; eexists; reflexivity | reflexivity].
  - destruct (Ascii.ascii_dec c c') as [-> | Hne].
    + rewrite IH. split; intros [b Hb]; exists b.
      * cbn [append]. now rewrite Hb.
      * cbn [append] in Hb. now injection Hb.
    + split; [discriminate |]. intros [b Hb]. cbn [append] in Hb.
      injection Hb as Hc _. congruence.
Qed.

Lemma contains_iff (sub s : string) :
  contains sub s = true <-> exists a b, s = a ++ sub ++ b.
Proof.
  induction s as [| c s' IH].
  - cbn [contains]. rewrite orb_false_r, prefix_iff. split.
    + intros [b Hb]. exists "", b. exact Hb.
    + intros (a & b & Hab). destruct a; [eauto | discriminate].
  - cbn [contains]. rewrite orb_true_iff, prefix_iff, IH. split.
    + intros [[b Hb] | (a & b & Hab)].
      * exists "", b. exact Hb.
      * exists (String c a), b. cbn [append]. now rewrite Hab.
    + intros (a & b & Hab). destruct a as [| c0 a].
      * left. exists b. exact Hab.
      * right. cbn [append] in Hab. injection Hab as _ Hrest. eauto.
Qed.

Lemma append_assoc (a b c : string) : (a ++ b) ++ c = a ++ b ++ c.
Proof. induction a as [| x a IH]; cbn [append]; [reflexivity | now rewrite IH]. Qed.

Lemma contains_trans (a b s : string) :
  contains a b = true -> contains b s = true -> contains a s = true.
Proof.
  rewrite !contains_iff. intros (x & y & ->) (u & v & ->).
  exists (u ++ x), (y ++ v). now rewrite !append_assoc.
Qed.

Lemma contains_false_trans (a b s : string) :
  contains a b = true -> contains a s = false -> contains b s = false.
Proof.
  intros Hab Has. destruct (contains b s) eqn:Hbs; [| reflexivity].
  rewrite (contains_trans a b s Hab Hbs) in Has. discriminate.
Qed.

(** *** Number extraction *)

Lemma first_word_in_range (table : list (string * Z)) (lo hi : Z)
    (text : string) (n : Z) :
  Forall (fun wn => lo <= snd wn <= hi) table ->
  first_word_in table text = Some n -> lo <= n <= hi.
Proof.
  induction 1 as [| [word number] rest Hhead _ IH]; simpl; intros Hfound.
  - discriminate.
  - destruct (contains word text).
    + injection Hfound as <-. exact Hhead.
    + auto.
Qed.

Lemma word_to_number_range :
  Forall (fun wn : string * Z => 1 <= snd wn <= 20) word_to_number.
Proof. unfold word_to_number. repeat constructor; simpl; lia. Qed.

Lemma extract_number_digits_first (text ds : string) :
  search_number text = Some ds ->
  _extract_number_from_text text = Some (int_of_digits ds).
Proof. intros Hds. unfold _extract_number_from_text. now rewrite Hds. Qed.

Lemma extract_number_words_second (text : string) :
  search_number text = None ->
  _extract_number_from_text text = first_word_in word_to_number (lower text).
Proof. intros Hnone. unfold _extract_number_from_text. now rewrite Hnone. Qed.

(** The word lookup never returns fourteen, sixteen, seventeen, eighteen or
    nineteen: a text in which one of these words occurs also holds four,
    six, seven, eight or nine, which the loop reaches first. *)
Lemma teen_words_are_shadowed (text : string) (n : Z) :
  first_word_in word_to_number text = Some n ->
  n <> 14 /\ n <> 16 /\ n <> 17 /\ n <> 18 /\ n <> 19.
Proof.
  unfold word_to_number. cbn [first_word_in].
  repeat first
    [ match goal with
      | H : contains ?short text = false |- context [contains ?long text] =>
          rewrite (contains_false_trans short long text eq_refl H);
          cbv iota
      end
    | match goal with
      | |- (if contains ?word text then _ else _) = _ -> _ =>
          destruct (contains word text) eqn:?;
          [intros [= <-]; repeat split; lia |]
      end ].
  discriminate.
Qed.

(** C2: the word lookup of [_extract_number_from_text] tests each word of
    its table as a substring of the text, in table order.  So "twenty-one",
    for which the claim says [None], yields 1 (the table's first word, one,
    occurs in it), and the table's own entries fourteen, sixteen, seventeen,
    eighteen and nineteen are never returned: those words yield 4, 6, 7, 8
    and 9.  The other values of the claim are as it states them, and a digit
    match is returned before the word table is looked at. *)
Theorem extract_number_word_lookup_shadows :
  _extract_number_from_text "twenty-one" = Some 1
  /\ _extract_number_from_text "fourteen" = Some 4
  /\ _extract_number_from_text "sixteen" = Some 6
  /\ _extract_number_from_text "seventeen" = Some 7
  /\ _extract_number_from_text "eighteen" = Some 8
  /\ _extract_number_from_text "nineteen" = Some 9
  /\ (forall text n,
        first_word_in word_to_number text = Some n ->
        n <> 14 /\ n <> 16 /\ n <> 17 /\ n <> 18 /\ n <> 19)
  /\ _extract_number_from_text "four" = Some 4
  /\ _extract_number_from_text "4" = Some 4
  /\ _extract_number_from_text "zero people" = None
  /\ _extract_number_from_text "twenty" = Some 20
  /\ (forall text ds,
        search_number text = Some ds ->
        _extract_number_from_text text = Some (int_of_digits ds)).
Proof.
  do 6 (split; [reflexivity |]).
  split; [exact teen_words_are_shadowed |].
  do 4 (split; [reflexivity |]).
  exact extract_number_digits_first.
Qed.

(** *** Weekday names *)

(** The weekday branch of [_parse_date], for a text that names a weekday and
    none of the relative phrases. *)
Lemma parse_date_weekday (today : Z) (s : string) (day_num : Z) :
  contains "today" (lower s) = false ->
  contains "tomorrow" (lower s) = false ->
  contains "day after tomorrow" (lower s) = false ->
  first_word_in days (lower s) = Some day_num ->
  _parse_date today s =
  Ok (today +
      (let until := (day_num - Calendar.weekday today) mod 7 in
       let until := if contains "next" (lower s) then until + 7 else until in
       if until =? 0 then 7 else until)).
Proof.
  intros Htoday Htomorrow Hafter Hday.
  unfold _parse_date. cbv zeta.
  rewrite Htoday, Htomorrow, Hafter, Hday. simpl negb. rewrite andb_true_r.
  reflexivity.
Qed.

(** The offset a bare weekday name resolves to. *)
Lemma bare_offset (today day_num : Z) :
  0 <= day_num < 7 ->
  let k := if (day_num - Calendar.weekday today) mod 7 =? 0 then 7
           else (day_num - Calendar.weekday today) mod 7 in
  1 <= k <= 7
  /\ Calendar.weekday (today + k) = day_num
  /\ (k = 7 <-> day_num = Calendar.weekday today).
Proof.
  intros Hnum k. subst k. unfold Calendar.weekday.
  destruct (Z.eqb_spec ((day_num - (today + 6) mod 7) mod 7) 0) as [E | E];
    Z.div_mod_to_equations; lia.
Qed.

(** C6, as the code has it: on a Wednesday "friday" is 2 days ahead, "next
    friday" 9 and "wednesday" 7.  On any day a bare weekday name resolves to
    the next date of that weekday, 1 to 7 days ahead and never today (7 days
    exactly when it names today's weekday); "next" adds 7 days to that when
    the name is not today's weekday, and nothing when it is: both forms then
    give 7 days. *)
Theorem parse_date_weekday_names (today : Z) :
  (Calendar.weekday today = 2 ->
   _parse_date today "friday" = Ok (today + 2)
   /\ _parse_date today "next friday" = Ok (today + 9)
   /\ _parse_date today "wednesday" = Ok (today + 7))
  /\ (forall name day_num,
        In (name, day_num) days ->
        exists k,
          _parse_date today name = Ok (today + k)
          /\ 1 <= k <= 7
          /\ Calendar.weekday (today + k) = day_num
          /\ (k = 7 <-> day_num = Calendar.weekday today)
          /\ _parse_date today ("next " ++ name)
             = Ok (today + (if day_num =? Calendar.weekday today
                            then 7 else k + 7))).
Proof.
  split.
  - intros Hwed.
    rewrite (parse_date_weekday today "friday" 4),
            (parse_date_weekday today "next friday" 4),
            (parse_date_weekday today "wednesday" 2) by reflexivity.
    rewrite Hwed. repeat split.
  - intros name day_num Hin.
    assert (Hrange : 0 <= day_num < 7).
    { unfold days in Hin. simpl in Hin.
      repeat (destruct Hin as [Hin | Hin]; [injection Hin as <- <-; lia |]).
      contradiction. }
    destruct (bare_offset today day_num Hrange) as (Hk & Hwd & Hseven).
    set (k := if (day_num - Calendar.weekday today) mod 7 =? 0 then 7
              else (day_num - Calendar.weekday today) mod 7) in *.
    exists k.
    assert (Hboth :
              _parse_date today name = Ok (today + k)
              /\ _parse_date today ("next " ++ name)
                 = Ok (today +
                       (if (day_num - Calendar.weekday today) mod 7 + 7 =? 0
                        then 7
                        else (day_num - Calendar.weekday today) mod 7 + 7))).
    { unfold days in Hin. simpl in Hin.
      repeat (destruct Hin as [Hin | Hin];
              [injection Hin as <- <-;
               split; rewrite (parse_date_weekday today _ _) by reflexivity;
               reflexivity |]).
      contradiction. }
    destruct Hboth as [Hbare Hnext].
    split; [exact Hbare |].
    split; [exact Hk |].
    split; [exact Hwd |].
    split; [exact Hseven |].
    rewrite Hnext. f_equal. f_equal.
    subst k. unfold Calendar.weekday in *.
    destruct (Z.eqb_spec day_num ((today + 6) mod 7)) as [E | E];
      destruct (Z.eqb_spec ((day_num - (today + 6) mod 7) mod 7) 0) as [E1 | E1];
      destruct (Z.eqb_spec ((day_num - (today + 6) mod 7) mod 7 + 7) 0) as [E2 | E2];
      Z.div_mod_to_equations; lia.
Qed.

(** On Wednesday 2026-11-04 the three dates of the claim. *)
Lemma parse_date_weekday_names_witness :
  Calendar.weekday sample_today = 2
  /\ _parse_date sample_today "friday" = Ok (sample_today + 2)
  /\ _parse_date sample_today "next friday" = Ok (sample_today + 9)
  /\ _parse_date sample_today "wednesday" = Ok (sample_today + 7).
Proof.
  split; [reflexivity |].
  exact (proj1 (parse_date_weekday_names sample_today) eq_refl).
Defined.

(** C6 as the specification states it fails: on a Wednesday "next wednesday"
    is the same date as "wednesday", 7 days ahead, not 7 days after it. *)
Lemma next_same_weekday_adds_nothing :
  Calendar.weekday sample_today = 2
  /\ _parse_date sample_today "wednesday" = Ok (sample_today + 7)
  /\ _parse_date sample_today "next wednesday" = Ok (sample_today + 7)
  /\ _parse_date sample_today "next wednesday" <> Ok (sample_today + 7 + 7).
Proof. repeat split. discriminate. Qed.

(** *** The reservation flow *)

Lemma step_index_cases (s : string) (i : nat) :
  step_index s = Some i ->
  (s = "party_size" /\ i = 0%nat) \/ (s = "date" /\ i = 1%nat)
  \/ (s = "time" /\ i = 2%nat) \/ (s = "name" /\ i = 3%nat)
  \/ (s = "phone" /\ i = 4%nat) \/ (s = "confirm" /\ i = 5%nat).
Proof.
  unfold step_index, steps. cbn [index_of].
  destruct (String.eqb_spec s "party_size") as [-> | _]; [intros [= <-]; tauto |].
  destruct (String.eqb_spec s "date") as [-> | _]; [intros [= <-]; tauto |].
  destruct (String.eqb_spec s "time") as [-> | _]; [intros [= <-]; tauto |].
  destruct (String.eqb_spec s "name") as [-> | _]; [intros [= <-]; tauto |].
  destruct (String.eqb_spec s "phone") as [-> | _]; [intros [= <-]; tauto |].
  destruct (String.eqb_spec s "confirm") as [-> | _]; [intros [= <-]; tauto |].
  discriminate.
Qed.

Section Flow.

Variable text_to_speech : string -> res string.
Variable today : Z.

Ltac run_tts :=
  repeat match goal with
  | |- context [text_to_speech ?t] =>
      let E := fresh "Etts" in destruct (text_to_speech t) eqn:E
  end.

Ltac run_fields :=
  repeat match goal with
  | |- context [dict_item ?k ?d] => destruct (dict_item k d)
  end.

Ltac unfold_flow :=
  cbv beta iota zeta delta
      [_handle_reservation_flow answer ask_again mbind lift ret raise try_except
       set_step set_data set_completed append_reservation append_history
       data_field current_reservation reservations conversation_history
       step data completed fst snd bind].

Ltac at_step :=
  cbn [String.eqb Ascii.eqb Bool.eqb]; unfold_flow;
  cbn [String.eqb Ascii.eqb Bool.eqb].

(** Closes the two halves of [reprompt_leaves_history] once the branch of
    the flow is fixed; [i] is the place of the current step. *)
Ltac settle i :=
  cbn;
  split;
  [ first
      [ intros ? [= <-]; repeat split; try reflexivity; intros ? ?; congruence
      | intros ?; discriminate ]
  | first
      [ left; reflexivity
      | right; eexists; eexists; repeat split;
        first
          [ left; split; [reflexivity | exists i; split; reflexivity]
          | right; repeat split; (reflexivity || assumption) ] ] ].

(** C1, as the code has it: at the [confirm] step a reply with none of the
    affirmative keywords resets the step to [party_size] and leaves the
    collected values and the [completed] flag as they are (an affirmative
    reply completes the session at [confirm]); on every other step of the
    sequence a reply the step accepts moves the step to the next one, and a
    reply it does not accept leaves step and values unchanged. *)
Theorem reservation_step_transitions (query : string) (w : world) (i : nat) :
  step_index (step (current_reservation w)) = Some i ->
  let before := current_reservation w in
  let after :=
    current_reservation
      (fst (_handle_reservation_flow text_to_speech today query w)) in
  if String.eqb (step before) "confirm" then
    if affirmative query
    then step after = "confirm" /\ completed after = true
         /\ data after = data before
    else step after = "party_size" /\ completed after = completed before
         /\ data after = data before
  else if accepts today (step before) query
  then step_index (step after) = Some (S i)
  else step after = step before /\ data after = data before.
Proof.
  destruct w as [[done current_step slots] booked past].
  cbn [current_reservation step data completed].
  intros Hstep.
  destruct (step_index_cases _ _ Hstep) as
    [[-> ->] | [[-> ->] | [[-> ->] | [[-> ->] | [[-> ->] | [-> ->]]]]]];
    clear Hstep; unfold accepts; at_step.
  - destruct (_extract_number_from_text query) as [party_size |].
    + destruct (party_size >? 0); run_tts; cbn; auto.
    + run_tts; cbn; auto.
  - destruct (_parse_date today query) as [parsed_date | e].
    + destruct (parsed_date <? today); cbn [negb]; run_tts; cbn; auto.
    + run_tts; cbn; auto.
  - destruct (_parse_time query) as [parsed_time | e]; cbn [is_ok];
      run_tts; cbn; auto.
  - run_tts; cbn; auto.
  - destruct (any_char is_digit query).
    + run_fields; run_tts; cbn; auto.
    + run_tts; cbn; auto.
  - destruct (affirmative query); run_tts; cbn; auto.
Qed.

(** C10: a validation failure of the reservation flow (a party size that is
    no positive number, a date that is not understood or is past, a time
    that is not understood, a phone number with no digit) leaves the
    conversation history and the session as they were and answers the
    re-prompt of that failure; and whenever a turn of the flow does extend
    the history, it extends it by the one assistant turn it returns, and the
    step has taken the reply and moved to the next one, or the session has
    been confirmed. *)
Theorem reprompt_leaves_history (query : string) (w : world) :
  let before := current_reservation w in
  let out := _handle_reservation_flow text_to_speech today query w in
  (forall prompt,
      reprompt today (step before) query = Some prompt ->
      conversation_history (fst out) = conversation_history w
      /\ current_reservation (fst out) = before
      /\ (forall audio,
             text_to_speech prompt = Ok audio ->
             snd out = Ok (Some (prompt, audio))))
  /\ (conversation_history (fst out) = conversation_history w
      \/ exists reply audio,
           snd out = Ok (Some (reply, audio))
           /\ conversation_history (fst out)
              = (conversation_history w ++ [assistant reply])%list
           /\ ((accepts today (step before) query = true
                /\ exists i,
                     step_index (step before) = Some i
                     /\ step_index (step (current_reservation (fst out)))
                        = Some (S i))
               \/ (step before = "confirm" /\ affirmative query = true
                   /\ completed (current_reservation (fst out)) = true))).
Proof.
  destruct w as [[done current_step slots] booked past].
  cbn [current_reservation step data completed conversation_history].
  unfold reprompt, accepts.
  destruct (String.eqb_spec current_step "party_size") as [-> | Hps].
  { at_step.
    destruct (_extract_number_from_text query) as [party_size |];
      [destruct (party_size >? 0) |]; run_tts; settle 0%nat. }
  destruct (String.eqb_spec current_step "date") as [-> | Hdate].
  { at_step.
    destruct (_parse_date today query) as [parsed_date | e];
      [destruct (parsed_date <? today) |]; cbn [negb]; run_tts; settle 1%nat. }
  destruct (String.eqb_spec current_step "time") as [-> | Htime].
  { at_step.
    destruct (_parse_time query) as [parsed_time | e]; cbn [is_ok];
      run_tts; settle 2%nat. }
  destruct (String.eqb_spec current_step "name") as [-> | Hname].
  { at_step. run_tts; settle 3%nat. }
  destruct (String.eqb_spec current_step "phone") as [-> | Hphone].
  { at_step.
    destruct (any_char is_digit query); run_fields; run_tts; settle 4%nat. }
  destruct (String.eqb_spec current_step "confirm") as [-> | Hconfirm].
  { at_step. destruct (affirmative query) eqn:Hyes; run_tts; settle 5%nat. }
  unfold_flow.
  apply String.eqb_neq in Hps, Hdate, Htime, Hname, Hphone, Hconfirm.
  rewrite Hps, Hdate, Htime, Hname, Hphone, Hconfirm.
  settle 0%nat.
Qed.

End Flow.

(** A "no" at the [confirm] step of the sample session. *)
Lemma reservation_step_transitions_witness :
  step_index (step (current_reservation sample_world)) = Some 5%nat
  /\ step (current_reservation
             (fst (_handle_reservation_flow sample_speech sample_today
                     "no" sample_world))) = "party_size"
  /\ completed (current_reservation
                  (fst (_handle_reservation_flow sample_speech sample_today
                          "no" sample_world))) = false
  /\ data (current_reservation
             (fst (_handle_reservation_flow sample_speech sample_today
                     "no" sample_world))) = data sample_session.
Proof.
  split; [reflexivity |].
  exact (reservation_step_transitions sample_speech sample_today "no"
           sample_world 5%nat eq_refl).
Defined.

(** C1 as the specification states it fails: after a "no" at the [confirm]
    step the five collected values are still in the session. *)
Lemma confirm_negative_keeps_data :
  step (current_reservation
          (fst (_handle_reservation_flow sample_speech sample_today
                  "no" sample_world))) = "party_size"
  /\ data (current_reservation
             (fst (_handle_reservation_flow sample_speech sample_today
                     "no" sample_world)))
     = [ ("party_size", VInt 4); ("date", VStr "2026-11-13");
         ("time", VStr "07:30 PM"); ("name", VStr "Ada");
         ("phone", VStr "555 1234") ]
  /\ data (current_reservation
             (fst (_handle_reservation_flow sample_speech sample_today
                     "no" sample_world))) <> [].
Proof. repeat split. discriminate. Qed.

(** A phone number with no digit at the [phone] step. *)
Lemma reprompt_leaves_history_witness :
  reprompt sample_today "phone" "call me" = Some bad_phone_prompt
  /\ conversation_history
       (fst (_handle_reservation_flow sample_speech sample_today "call me"
               (World (Reservation false "phone" []) [] [user "call me"])))
     = [user "call me"]
  /\ snd (_handle_reservation_flow sample_speech sample_today "call me"
            (World (Reservation false "phone" []) [] [user "call me"]))
     = Ok (Some (bad_phone_prompt, "audio")).
Proof.
  split; [reflexivity |].
  pose proof
    (proj1 (reprompt_leaves_history sample_speech sample_today "call me"
              (World (Reservation false "phone" []) [] [user "call me"]))
       bad_phone_prompt eq_refl) as (Hhistory & _ & Hanswer).
  split; [exact Hhistory | exact (Hanswer "audio" eq_refl)].
Defined.

End VoiceAgentProps.

(** ** The retrieval layer *)
Module RAGLayerProps.
Import Py RAGLayer.


(** *** Dictionaries *)

Lemma dict_get_set_same (k : string) (v : value) (d : dict) :
  dict_get k (dict_set k v d) = Some v.
Proof.
  induction d as [| [k' v'] rest IH]; simpl.
  - now rewrite String.eqb_refl.
  - destruct (String.eqb_spec k k') as [-> | Hne]; simpl.
    + now rewrite String.eqb_refl.
    + destruct (String.eqb_spec k k'); [contradiction | exact IH].
Qed.

Lemma dict_get_set_other (k k' : string) (v : value) (d : dict) :
  k <> k' -> dict_get k (dict_set k' v d) = dict_get k d.
Proof.
  intros Hne. induction d as [| [k0 v0] rest IH]; simpl.
  - destruct (String.eqb_spec k k'); [contradiction | reflexivity].
  - destruct (String.eqb_spec k' k0) as [-> | Hne0]; simpl.
    + destruct (String.eqb_spec k k0); [contradiction | reflexivity].
    + destruct (String.eqb_spec k k0); [reflexivity | exact IH].
Qed.

Lemma split_on_cons (sep : ascii) (s : string) :
  exists part rest, split_on sep s = part :: rest.
Proof.
  induction s as [| c s' (part & rest & IH)]; simpl.
  - eauto.
  - destruct (Ascii.eqb c sep); [eauto |]. rewrite IH. eauto.
Qed.

(** *** Reading *)

Lemma walk_found (path_parts : list string) (node v : value) :
  lookup_path path_parts node = Some v -> walk path_parts node = Ok v.
Proof.
  revert node. induction path_parts as [| part rest IH]; simpl; intros node H.
  - now injection H as ->.
  - destruct node; try discriminate. simpl.
    destruct (dict_get part d) as [next |]; [auto | discriminate].
Qed.

Lemma walk_missing (path_parts : list string) (node : value) :
  lookup_path path_parts node = None ->
  walk path_parts node = Ok (VDict []) \/ exists e, walk path_parts node = Raise e.
Proof.
  revert node. induction path_parts as [| part rest IH]; simpl; intros node H.
  - discriminate.
  - destruct node; simpl; try (right; eexists; reflexivity).
    + destruct (contains part s); [right; eexists; reflexivity | now left].
    + destruct (existsb (is_text part) l); [right; eexists; reflexivity | now left].
    + destruct (dict_get part d) as [next |]; [auto | now left].
Qed.

(** C9: for every path string with a segment that is missing from the
    tree, also when the walk meets a node that is no mapping (a text, a
    list, a number; the [TypeError] the walk raises there is caught inside),
    [get_knowledge_base] returns the empty mapping if the path string is not
    empty, and the whole knowledge base if it is: the test [if section]
    takes the empty string for no section.  No exception leaves the
    function. *)
Theorem get_missing_path_is_empty (kb : dict) (section : string) :
  lookup_path (split_on slash section) (VDict kb) = None ->
  get_knowledge_base kb (Some section)
  = if String.eqb section "" then VDict kb else VDict [].
Proof.
  intros Hmissing. unfold get_knowledge_base.
  destruct section as [| c s]; [reflexivity |].
  cbn [String.eqb].
  destruct (walk_missing _ _ Hmissing) as [-> | [e ->]]; reflexivity.
Qed.

(** The walk meets a text below an existing key. *)
Lemma get_missing_path_is_empty_witness :
  lookup_path (split_on slash "restaurant_info/name/Romana")
    (VDict (_initialize_knowledge_base sample_now)) = None
  /\ get_knowledge_base (_initialize_knowledge_base sample_now)
       (Some "restaurant_info/name/Romana") = VDict [].
Proof.
  split; [reflexivity |].
  exact (get_missing_path_is_empty (_initialize_knowledge_base sample_now)
           "restaurant_info/name/Romana" eq_refl).
Defined.

(** C9 as the specification states it fails: the one segment of the empty
    path string is missing from the initial knowledge base, and the result
    is the whole knowledge base, not the empty mapping. *)
Lemma get_empty_path_is_whole_tree :
  lookup_path (split_on slash "")
    (VDict (_initialize_knowledge_base sample_now)) = None
  /\ get_knowledge_base (_initialize_knowledge_base sample_now) (Some "")
     = VDict (_initialize_knowledge_base sample_now)
  /\ get_knowledge_base (_initialize_knowledge_base sample_now) (Some "")
     <> VDict [].
Proof. split; [reflexivity |]. split; [reflexivity | discriminate]. Qed.

Lemma get_existing_path (kb : dict) (section : string) (v : value) :
  section <> "" ->
  lookup_path (split_on slash section) (VDict kb) = Some v ->
  get_knowledge_base kb (Some section) = v.
Proof.
  intros Hsection Hfound. unfold get_knowledge_base.
  destruct section as [| c s]; [contradiction |].
  now rewrite (walk_found _ _ _ Hfound).
Qed.

(** *** Writing *)


Lemma lookup_path_stamp (part : string) (rest : list string) (now : string)
    (d : dict) :
  part <> "last_updated" ->
  lookup_path (part :: rest) (VDict (dict_set "last_updated" (VStr now) d))
  = lookup_path (part :: rest) (VDict d).
Proof.
  intros Hpart. cbn [lookup_path]. now rewrite dict_get_set_other.
Qed.



(** Where the time stamp is a text, as the constructor and every update
    leave it, the only existing path that starts at [last_updated] is that
    key itself. *)
Lemma stamped_path_is_root (kb : dict) (stamp : string) (rest : list string) :
  dict_get "last_updated" kb = Some (VStr stamp) ->
  lookup_path ("last_updated" :: rest) (VDict kb) <> None ->
  rest = [].
Proof.
  intros Hstamp. cbn [lookup_path]. rewrite Hstamp.
  destruct rest as [| part rest']; [reflexivity |].
  cbn [lookup_path]. intros Hfound. now contradiction Hfound.
Qed.

Lemma update_stamps (kb kb' : dict) (new_data : value)
    (section : option string) (merge : bool) (now : string) :
  update_knowledge_base kb new_data section merge now = (true, kb') ->
  dict_get "last_updated" kb' = Some (VStr now).
Proof.
  unfold update_knowledge_base.
  destruct (update_body kb new_data section merge) as [updated | e];
    intros [= <-]. apply dict_get_set_same.
Qed.

(** *** Restoring *)

(** C8: [restore_knowledge_base] accepts a backup exactly when the loaded
    value is a mapping with the key [restaurant_info], and then the
    knowledge base is that mapping; for a file that is missing, that cannot
    be read as JSON, or whose value is no such mapping, it returns [False]
    and the knowledge base is the one before the call. *)
Theorem restore_accepts_valid_backups_only (kb : dict) (file : backup_file) :
  (fst (restore_knowledge_base kb file) = true <->
   exists data, file = Loaded (VDict data) /\ valid_backup (VDict data) = true)
  /\ (forall data, file = Loaded (VDict data) -> valid_backup (VDict data) = true ->
        restore_knowledge_base kb file = (true, data))
  /\ ((file = NoSuchFile \/ file = Unreadable
       \/ exists data, file = Loaded data /\ valid_backup data = false) ->
      restore_knowledge_base kb file = (false, kb)).
Proof.
  split; [| split].
  - destruct file as [| | [| | | | | | data]]; simpl;
      try (split; [discriminate | intros (d & Hd & _); discriminate]).
    destruct (dict_mem "restaurant_info" data) eqn:Hmem; simpl.
    + split; [intros _; exists data; auto | reflexivity].
    + split; [discriminate |].
      intros (d & [= <-] & Hvalid). congruence.
  - intros data -> Hvalid. simpl in *. now rewrite Hvalid.
  - intros [-> | [-> | (data & -> & Hvalid)]]; try reflexivity.
    destruct data; simpl in *; try reflexivity. now rewrite Hvalid.
Qed.

(** A backup that is a list. *)
Lemma restore_accepts_valid_backups_only_witness :
  restore_knowledge_base (_initialize_knowledge_base sample_now)
    (Loaded (VList [VStr "restaurant_info"]))
  = (false, _initialize_knowledge_base sample_now).
Proof.
  apply (proj2 (proj2 (restore_accepts_valid_backups_only
                         (_initialize_knowledge_base sample_now)
                         (Loaded (VList [VStr "restaurant_info"]))))).
  right. right. exists (VList [VStr "restaurant_info"]). split; reflexivity.
Defined.

(** *** Completion *)



(** C7: when the request to the completion service times out,
    [generate_response] returns the fixed time-out text, and both the
    history it returns and the caller's list are the history it was given
    (the empty one for [None]): no turn is appended. *)
Theorem timeout_keeps_history (conversation_memory : Z) (query : string)
    (conversation_history : option (list turn)) :
  let given := match conversation_history with Some h => h | None => [] end in
  generate_response conversation_memory query conversation_history (Raise Timeout)
  = Generated timeout_msg given given.
Proof.
  intros given. subst given.
  unfold generate_response. cbn [bind].
  destruct conversation_history as [h |]; reflexivity.
Qed.

(** *** Retrieving *)

Lemma mem_In (w : string) (l : list string) : mem w l = true -> In w l.
Proof.
  unfold mem. rewrite existsb_exists. intros (x & Hx & Heq).
  apply String.eqb_eq in Heq. now subst.
Qed.

(** The Jaccard index is at most 1: the common words are among all words. *)
Lemma similarity_le_1 (text1 text2 : string) :
  Qle (_simple_text_similarity text1 text2) 1.
Proof.
  unfold _simple_text_similarity, Qle. cbn [Qnum Qden].
  set (words1 := word_set text1). set (words2 := word_set text2).
  assert (Hle : (List.length (filter (fun w => mem w words2) words1)
                 <= List.length (nodup string_dec (words1 ++ words2)))%nat).
  { apply NoDup_incl_length.
    - apply NoDup_filter. apply NoDup_nodup.
    - intros w Hw. apply filter_In in Hw as [Hw _].
      apply nodup_In, in_or_app. now left. }
  rewrite Z.mul_1_r, Z.mul_1_l.
  rewrite <- (Pos2Nat.id (Pos.of_nat _)) at 1.
  lia.
Qed.


















End RAGLayerProps.

(** * Further properties of the code *)

(** ** The knowledge store: updates *)
Module StoreProps.
Import Py RAGLayer RAGLayerProps Notions.

(** *** Writing and reading back *)

(** The walk of an update through fresh mappings never fails. *)
Lemma update_path_fresh (rest : list string) :
  forall part v merge, exists made, update_path part rest v merge [] = Ok made.
Proof.
  induction rest as [| next rest' IH]; intros part v merge.
  - eexists. reflexivity.
  - cbn [update_path dict_get]. destruct (IH next v merge) as [made ->].
    eexists. reflexivity.
Qed.


(** After a successful non-merge update the value is at the path. *)
Lemma update_path_written (rest : list string) :
  forall part v current updated,
    update_path part rest v false current = Ok updated ->
    lookup_path (part :: rest) (VDict updated) = Some v.
Proof.
  induction rest as [| next rest' IH]; intros part v current updated Hrun.
  - cbn [update_path] in Hrun. injection Hrun as <-.
    unfold update_last. cbn [lookup_path]. now rewrite dict_get_set_same.
  - cbn [update_path] in Hrun.
    destruct (dict_get part current) as [[| | | | | | child] |]; try discriminate.
    + destruct (update_path next rest' v false child) as [child' |] eqn:Hchild;
        [| discriminate].
      injection Hrun as <-. cbn [lookup_path]. rewrite dict_get_set_same.
      exact (IH _ _ _ _ Hchild).
    + destruct (update_path next rest' v false []) as [child' |] eqn:Hchild;
        [| discriminate].
      injection Hrun as <-. cbn [lookup_path]. rewrite dict_get_set_same.
      exact (IH _ _ _ _ Hchild).
Qed.

(** X1: a successful non-merge [update_knowledge_base] at a non-empty path
    that does not start at the root key [last_updated] is read back by
    [get_knowledge_base] at the same path, also when the update had to
    create the path's mappings. *)
Theorem update_then_get (kb kb' : dict) (section : string) (v : value)
    (now : string) :
  section <> "" ->
  hd "" (split_on slash section) <> "last_updated" ->
  update_knowledge_base kb v (Some section) false now = (true, kb') ->
  get_knowledge_base kb' (Some section) = v.
Proof.
  intros Hsection Hhead. unfold update_knowledge_base, update_body.
  destruct section as [| c s]; [contradiction |].
  destruct (split_on_cons slash (String c s)) as (part & rest & Hsplit).
  rewrite Hsplit in *. cbn [hd] in Hhead.
  destruct (update_path part rest v false kb) as [updated |] eqn:Hrun;
    intros [= <-].
  apply get_existing_path; [discriminate |].
  rewrite Hsplit, lookup_path_stamp by assumption.
  exact (update_path_written _ _ _ _ _ Hrun).
Qed.

Lemma update_then_get_witness :
  "events/2026/new_year" <> ""
  /\ hd "" (split_on slash "events/2026/new_year") <> "last_updated"
  /\ lookup_path (split_on slash "events/2026/new_year")
       (VDict (_initialize_knowledge_base sample_now)) = None
  /\ get_knowledge_base
       (snd (update_knowledge_base (_initialize_knowledge_base sample_now)
               (VStr "open until 1 AM") (Some "events/2026/new_year") false
               "2026-01-01T00:00:00"))
       (Some "events/2026/new_year")
     = VStr "open until 1 AM".
Proof.
  assert (Hsection : "events/2026/new_year" <> "") by discriminate.
  assert (Hhead : hd "" (split_on slash "events/2026/new_year") <> "last_updated")
    by (vm_compute; discriminate).
  split; [exact Hsection |]. split; [exact Hhead |].
  split; [vm_compute; reflexivity |].
  exact (update_then_get (_initialize_knowledge_base sample_now) _
           "events/2026/new_year" (VStr "open until 1 AM")
           "2026-01-01T00:00:00" Hsection Hhead eq_refl).
Defined.

Lemma update_path_succeeds_iff (rest : list string) :
  forall part v merge current,
    is_ok (update_path part rest v merge current) = true <->
    forall k, (k < List.length (part :: rest))%nat ->
              passable (lookup_path (firstn k (part :: rest)) (VDict current)).
Proof.
  induction rest as [| next rest' IH]; intros part v merge current.
  - cbn [update_path is_ok]. split; [| reflexivity].
    intros _ k Hk. cbn [List.length] in Hk.
    destruct k; [exact I | lia].
  - cbn [update_path].
    destruct (dict_get part current) as [found |] eqn:Hget.
    + destruct found as [| | | | | | child];
        try (cbn [is_ok]; split; [discriminate |];
             intros Hall; specialize (Hall 1%nat ltac:(cbn [List.length]; lia));
             cbn [firstn lookup_path] in Hall; rewrite Hget in Hall;
             contradiction).
      specialize (IH next v merge child).
      destruct (update_path next rest' v merge child) as [child' |];
        cbn [bind is_ok] in *.
      * split; [| reflexivity]. intros _ [| k] Hk; [exact I |].
        cbn [firstn lookup_path]. rewrite Hget.
        apply (proj1 IH eq_refl). cbn [List.length] in *. lia.
      * split; [discriminate |]. intros Hall. apply IH.
        intros k Hk. specialize (Hall (S k) ltac:(cbn [List.length] in *; lia)).
        cbn [firstn lookup_path] in Hall. now rewrite Hget in Hall.
    + destruct (update_path_fresh rest' next v merge) as [made ->].
      cbn [bind is_ok]. split; [| reflexivity].
      intros _ [| k] Hk; [exact I |].
      cbn [firstn lookup_path]. now rewrite Hget.
Qed.

(** X2: [update_knowledge_base] at a non-empty path returns True exactly
    when every proper prefix of the path is absent from the knowledge base
    or names a mapping (a text, list or number on the way makes the walk
    raise); when it returns False the knowledge base is the one before the
    call. *)
Theorem update_succeeds_iff (kb : dict) (section : string) (v : value)
    (merge : bool) (now : string) :
  section <> "" ->
  (fst (update_knowledge_base kb v (Some section) merge now) = true <->
   forall k, (k < List.length (split_on slash section))%nat ->
             passable (lookup_path (firstn k (split_on slash section)) (VDict kb)))
  /\ (fst (update_knowledge_base kb v (Some section) merge now) = false ->
      snd (update_knowledge_base kb v (Some section) merge now) = kb).
Proof.
  intros Hsection. unfold update_knowledge_base, update_body.
  destruct section as [| c s]; [contradiction |].
  destruct (split_on_cons slash (String c s)) as (part & rest & Hsplit).
  rewrite Hsplit.
  pose proof (update_path_succeeds_iff rest part v merge kb) as Hiff.
  destruct (update_path part rest v merge kb); cbn [is_ok fst snd] in *.
  - split; [exact Hiff | discriminate].
  - split; [exact Hiff | reflexivity].
Qed.

Lemma update_succeeds_iff_witness :
  "restaurant_info/name/short" <> ""
  /\ ~ passable (lookup_path (firstn 2 (split_on slash "restaurant_info/name/short"))
                   (VDict (_initialize_knowledge_base sample_now)))
  /\ fst (update_knowledge_base (_initialize_knowledge_base sample_now)
            (VStr "Romana") (Some "restaurant_info/name/short") false
            "2026-01-01T00:00:00") = false
  /\ snd (update_knowledge_base (_initialize_knowledge_base sample_now)
            (VStr "Romana") (Some "restaurant_info/name/short") false
            "2026-01-01T00:00:00")
     = _initialize_knowledge_base sample_now.
Proof.
  assert (Hsection : "restaurant_info/name/short" <> "") by discriminate.
  pose proof (update_succeeds_iff (_initialize_knowledge_base sample_now)
                "restaurant_info/name/short" (VStr "Romana") false
                "2026-01-01T00:00:00" Hsection) as [Hiff Hkept].
  assert (Hblocked :
    ~ passable (lookup_path (firstn 2 (split_on slash "restaurant_info/name/short"))
                  (VDict (_initialize_knowledge_base sample_now))))
    by (vm_compute; exact (fun H => H)).
  assert (Hfailed :
    fst (update_knowledge_base (_initialize_knowledge_base sample_now)
           (VStr "Romana") (Some "restaurant_info/name/short") false
           "2026-01-01T00:00:00") = false).
  { destruct (fst (update_knowledge_base (_initialize_knowledge_base sample_now)
                     (VStr "Romana") (Some "restaurant_info/name/short") false
                     "2026-01-01T00:00:00")); [| reflexivity].
    exfalso. apply Hblocked. apply (proj1 Hiff eq_refl). vm_compute. lia. }
  split; [exact Hsection |]. split; [exact Hblocked |].
  split; [exact Hfailed | exact (Hkept Hfailed)].
Defined.


(** *** What an update leaves alone *)





(** *** Merging *)





(** Merging needs a mapping on both sides: otherwise the update replaces. *)
Lemma update_path_merge_replaces (rest : list string) :
  forall part v current,
    (match v with VDict _ => False | _ => True end
     \/ match lookup_path (part :: rest) (VDict current) with
        | Some (VDict _) => False
        | _ => True
        end) ->
    update_path part rest v true current = update_path part rest v false current.
Proof.
  induction rest as [| next rest' IH]; intros part v current Hside.
  - cbn [update_path]. unfold update_last. cbn [lookup_path] in Hside.
    destruct (dict_get part current) as [[| | | | | | old] |]; try reflexivity.
    destruct v; try reflexivity. destruct Hside; contradiction.
  - cbn [update_path]. cbn [lookup_path] in Hside.
    destruct (dict_get part current) as [[| | | | | | child] |] eqn:Hget;
      try reflexivity.
    + now rewrite IH.
    + rewrite IH; [reflexivity |].
      destruct Hside as [Hv | _]; [now left | right].
      cbn [lookup_path dict_get]. destruct rest'; exact I.
Qed.

(** X5: with merge requested, an update whose new value is not a mapping, or
    whose path holds no mapping, does what the update without merge does:
    it replaces. *)
Theorem merge_without_mappings_replaces (kb : dict) (section : string)
    (v : value) (now : string) :
  section <> "" ->
  (match v with VDict _ => False | _ => True end
   \/ match lookup_path (split_on slash section) (VDict kb) with
      | Some (VDict _) => False
      | _ => True
      end) ->
  update_knowledge_base kb v (Some section) true now
  = update_knowledge_base kb v (Some section) false now.
Proof.
  intros Hsection Hside. unfold update_knowledge_base, update_body.
  destruct section as [| c s]; [contradiction |].
  destruct (split_on_cons slash (String c s)) as (part & rest & Hsplit).
  rewrite Hsplit in *. now rewrite update_path_merge_replaces.
Qed.

Lemma merge_without_mappings_replaces_witness :
  update_knowledge_base (_initialize_knowledge_base sample_now)
    (VDict [("street", VStr "1 Main Street")]) (Some "restaurant_info/location")
    true "2026-01-01T00:00:00"
  = update_knowledge_base (_initialize_knowledge_base sample_now)
      (VDict [("street", VStr "1 Main Street")]) (Some "restaurant_info/location")
      false "2026-01-01T00:00:00"
  /\ exists text,
       lookup_path (split_on slash "restaurant_info/location")
         (VDict (_initialize_knowledge_base sample_now)) = Some (VStr text).
Proof.
  split.
  - apply (merge_without_mappings_replaces (_initialize_knowledge_base sample_now)
             "restaurant_info/location" (VDict [("street", VStr "1 Main Street")])
             "2026-01-01T00:00:00").
    + discriminate.
    + right. vm_compute. exact I.
  - eexists. vm_compute. reflexivity.
Defined.

(** *** The time stamp *)

(** X6: after every successful update, whatever the path, the value and the
    merge flag, [get_knowledge_base] at [last_updated] is the time of the
    update: a value written at that key is overwritten by the stamp. *)
Theorem update_stamps_last_updated (kb kb' : dict) (new_data : value)
    (section : option string) (merge : bool) (now : string) :
  update_knowledge_base kb new_data section merge now = (true, kb') ->
  get_knowledge_base kb' (Some "last_updated") = VStr now.
Proof.
  intros Hrun. apply get_existing_path; [discriminate |].
  replace (split_on slash "last_updated") with ["last_updated"]
    by reflexivity.
  cbn [lookup_path]. now rewrite (update_stamps _ _ _ _ _ _ Hrun).
Qed.

Lemma update_stamps_last_updated_witness :
  get_knowledge_base
    (snd (update_knowledge_base (_initialize_knowledge_base sample_now)
            (VStr "never") (Some "last_updated") false "2026-01-01T00:00:00"))
    (Some "last_updated")
  = VStr "2026-01-01T00:00:00"
  /\ fst (update_knowledge_base (_initialize_knowledge_base sample_now)
            (VStr "never") (Some "last_updated") false "2026-01-01T00:00:00")
     = true.
Proof.
  split; [| vm_compute; reflexivity].
  exact (update_stamps_last_updated (_initialize_knowledge_base sample_now) _
           (VStr "never") (Some "last_updated") false "2026-01-01T00:00:00"
           eq_refl).
Defined.

End StoreProps.

(** ** The retriever: scores and ranking *)
Module RetrieverProps.
Import Py RAGLayer RAGLayerProps Notions.

(** *** The similarity score *)

Lemma In_mem (w : string) (l : list string) : In w l -> mem w l = true.
Proof.
  intros Hin. unfold mem. apply existsb_exists. exists w.
  split; [assumption | apply String.eqb_refl].
Qed.

Lemma same_words_same_length (l1 l2 : list string) :
  NoDup l1 -> NoDup l2 -> incl l1 l2 -> incl l2 l1 ->
  List.length l1 = List.length l2.
Proof.
  intros H1 H2 H12 H21. apply Nat.le_antisymm; now apply NoDup_incl_length.
Qed.

Lemma word_set_NoDup (t : string) : NoDup (word_set t).
Proof. apply NoDup_nodup. Qed.

Lemma common_words_swap (w1 w2 : list string) :
  NoDup w1 -> NoDup w2 ->
  List.length (filter (fun w => mem w w2) w1)
  = List.length (filter (fun w => mem w w1) w2).
Proof.
  intros H1 H2. apply same_words_same_length.
  - now apply NoDup_filter.
  - now apply NoDup_filter.
  - intros w Hw. apply filter_In in Hw as [Hin Hmem].
    apply filter_In. split; [now apply mem_In | now apply In_mem].
  - intros w Hw. apply filter_In in Hw as [Hin Hmem].
    apply filter_In. split; [now apply mem_In | now apply In_mem].
Qed.

Lemma all_words_swap (w1 w2 : list string) :
  List.length (nodup string_dec (w1 ++ w2))
  = List.length (nodup string_dec (w2 ++ w1)).
Proof.
  apply same_words_same_length; try apply NoDup_nodup;
    intros w Hw; apply nodup_In; apply nodup_In in Hw;
    apply in_or_app; apply in_app_or in Hw; tauto.
Qed.

Lemma of_nat_pos (n : nat) : (1 <= n)%nat -> Z.pos (Pos.of_nat n) = Z.of_nat n.
Proof. intros Hn. rewrite <- (Nat2Pos.id n) at 2 by lia. now rewrite positive_nat_Z. Qed.

(** X7: [_simple_text_similarity] is a Jaccard index of the two word sets:
    it lies between 0 and 1, does not depend on the order of its arguments,
    is 0 exactly when the texts share no word, and is 1 for a text with at
    least one word compared with itself. *)
Theorem similarity_is_a_jaccard_index (text1 text2 : string) :
  Qle 0 (_simple_text_similarity text1 text2)
  /\ Qle (_simple_text_similarity text1 text2) 1
  /\ Qeq (_simple_text_similarity text1 text2)
         (_simple_text_similarity text2 text1)
  /\ (Qeq (_simple_text_similarity text1 text2) 0 <->
      forall w, In w (word_set text1) -> ~ In w (word_set text2))
  /\ (word_set text1 <> [] -> Qeq (_simple_text_similarity text1 text1) 1).
Proof.
  split; [| split; [| split; [| split]]].
  - unfold _simple_text_similarity, Qle. cbn [Qnum Qden]. lia.
  - apply similarity_le_1.
  - unfold _simple_text_similarity.
    rewrite (common_words_swap (word_set text1) (word_set text2))
      by apply word_set_NoDup.
    rewrite (all_words_swap (word_set text1) (word_set text2)).
    apply Qeq_refl.
  - unfold _simple_text_similarity, Qeq. cbn [Qnum Qden].
    rewrite Z.mul_1_r, Z.mul_0_l.
    split.
    + intros Hzero w H1 H2.
      assert (Hin : In w (filter (fun w => mem w (word_set text2)) (word_set text1))).
      { apply filter_In. split; [assumption | now apply In_mem]. }
      destruct (filter (fun w => mem w (word_set text2)) (word_set text1));
        [contradiction | cbn [List.length] in Hzero; lia].
    + intros Hdisjoint.
      destruct (filter (fun w => mem w (word_set text2)) (word_set text1))
        as [| w rest] eqn:Hcommon; [reflexivity |].
      exfalso.
      assert (Hin : In w (filter (fun w => mem w (word_set text2)) (word_set text1)))
        by (rewrite Hcommon; now left).
      apply filter_In in Hin as [H1 H2].
      exact (Hdisjoint w H1 (mem_In _ _ H2)).
  - intros Hwords. unfold _simple_text_similarity, Qeq. cbn [Qnum Qden].
    set (words := word_set text1) in *.
    assert (Hcommon : List.length (filter (fun w => mem w words) words)
                      = List.length words).
    { f_equal. apply forallb_filter_id. apply forallb_forall.
      intros w Hw. now apply In_mem. }
    assert (Hall : List.length (nodup string_dec (words ++ words))
                   = List.length words).
    { apply same_words_same_length;
        [apply NoDup_nodup | apply word_set_NoDup | |].
      - intros w Hw. apply nodup_In in Hw. apply in_app_or in Hw. tauto.
      - intros w Hw. apply nodup_In, in_or_app. now left. }
    rewrite Hcommon, Hall.
    assert (Hpos : (1 <= List.length words)%nat)
      by (destruct words; [contradiction | cbn [List.length]; lia]).
    rewrite Nat.max_l by assumption. rewrite of_nat_pos by assumption. lia.
Qed.


(** *** Ranking *)

Lemma Qgtb_false (a b : Q) : Qgtb a b = false -> Qle a b.
Proof. unfold Qgtb. intros H. now apply Qle_bool_iff, negb_false_iff. Qed.

Lemma Qgtb_true (a b : Q) : Qgtb a b = true -> Qlt b a.
Proof.
  unfold Qgtb. intros H. apply negb_true_iff in H.
  apply Qnot_le_lt. intros Hle. apply Qle_bool_iff in Hle. congruence.
Qed.

Lemma insert_desc_perm (x : context_part) (l : list context_part) :
  Permutation (insert_desc x l) (x :: l).
Proof.
  induction l as [| y rest IH]; cbn [insert_desc].
  - apply Permutation_refl.
  - destruct (Qgtb (score y) (score x)).
    + eapply perm_trans; [apply perm_skip, IH | apply perm_swap].
    + apply Permutation_refl.
Qed.

Lemma insert_desc_sorted (x : context_part) (l : list context_part) :
  StronglySorted not_below l -> StronglySorted not_below (insert_desc x l).
Proof.
  induction 1 as [| y rest Hrest IH Hy]; cbn [insert_desc].
  - repeat constructor.
  - destruct (Qgtb (score y) (score x)) eqn:Hcmp.
    + constructor; [exact IH |].
      apply Forall_forall. intros z Hz.
      apply (Permutation_in _ (insert_desc_perm x rest)) in Hz.
      destruct Hz as [<- | Hz].
      * apply Qlt_le_weak. now apply Qgtb_true.
      * exact (proj1 (Forall_forall _ _) Hy z Hz).
    + apply Qgtb_false in Hcmp.
      constructor; [now constructor |].
      constructor; [exact Hcmp |].
      apply Forall_forall. intros z Hz.
      unfold not_below. eapply Qle_trans; [| exact Hcmp].
      exact (proj1 (Forall_forall _ _) Hy z Hz).
Qed.

Lemma sort_desc_spec (l : list context_part) :
  Permutation (sort_desc l) l /\ StronglySorted not_below (sort_desc l).
Proof.
  unfold sort_desc. induction l as [| x rest [Hperm Hsorted]];
    cbn [fold_right].
  - split; constructor.
  - split.
    + eapply perm_trans; [apply insert_desc_perm | now apply perm_skip].
    + now apply insert_desc_sorted.
Qed.

(** X8: when the scan collects at least one part, the text returned by
    [retrieve_relevant_context] is the newline join of the texts of the
    first five parts (all of them when there are fewer) of a ranking that
    has exactly the collected parts, in descending order of score. *)
Theorem retrieve_ranks_the_collected_parts (kb : dict) (query : string)
    (threshold : Q) (parts : list context_part) :
  collect_context kb (strip (lower query)) threshold = Ok parts ->
  parts <> [] ->
  exists ranked,
    Permutation ranked parts
    /\ StronglySorted not_below ranked
    /\ retrieve_relevant_context kb query threshold
       = join (String (ascii_of_nat 10) EmptyString)
              (map text (firstn 5 ranked))
    /\ (List.length (firstn 5 ranked) <= 5)%nat.
Proof.
  intros Hcollect Hsome.
  destruct (sort_desc_spec parts) as [Hperm Hsorted].
  exists (sort_desc parts).
  split; [exact Hperm |]. split; [exact Hsorted |].
  split; [| apply firstn_le_length].
  unfold retrieve_relevant_context. rewrite Hcollect.
  destruct (sort_desc parts) as [| top rest] eqn:Hranked.
  - apply Permutation_nil in Hperm. contradiction.
  - reflexivity.
Qed.

Lemma retrieve_ranks_the_collected_parts_witness :
  (5 < List.length sample_parts)%nat
  /\ exists ranked,
       Permutation ranked sample_parts
       /\ StronglySorted not_below ranked
       /\ retrieve_relevant_context (_initialize_knowledge_base sample_now)
            sample_question (Qmake 1 10)
          = join (String (ascii_of_nat 10) EmptyString)
                 (map text (firstn 5 ranked))
       /\ (List.length (firstn 5 ranked) <= 5)%nat.
Proof.
  split; [vm_compute; lia |].
  apply (retrieve_ranks_the_collected_parts
           (_initialize_knowledge_base sample_now) sample_question (Qmake 1 10)
           sample_parts).
  - vm_compute. reflexivity.
  - vm_compute. discriminate.
Defined.

(** *** Keys named by the query *)

Lemma In_flat_map_part {A : Type} (f : A -> list context_part) (l : list A)
    (x : A) (p : context_part) :
  In x l -> In p (f x) -> In p (flat_map f l).
Proof. intros Hx Hp. apply in_flat_map. eauto. Qed.

(** X9: on a knowledge base the scan can read, every text entry of
    [restaurant_info] whose lowercased key occurs in the query is collected
    with its similarity raised by 0.2, and so is every entry of a nested
    mapping whose lowercased key occurs in the query; whatever the
    threshold. *)
Theorem named_key_is_collected (kb items : dict) (clean_query : string)
    (threshold : Q) :
  scannable kb = true ->
  dict_get "restaurant_info" kb = Some (VDict items) ->
  exists parts,
    collect_context kb clean_query threshold = Ok parts
    /\ (forall key s,
          In (key, VStr s) items ->
          contains (lower key) clean_query = true ->
          In (Part (heading key ++ ": " ++ s)
                   (Qplus (_simple_text_similarity clean_query s) (Qmake 2 10)))
             parts)
    /\ (forall key d sub_key sub_value,
          In (key, VDict d) items ->
          In (sub_key, sub_value) d ->
          contains (lower sub_key) clean_query = true ->
          In (Part (heading key ++ " - " ++ heading sub_key ++ ": "
                    ++ py_str sub_value)
                   (Qplus (_simple_text_similarity clean_query
                             (sub_key ++ ": " ++ py_str sub_value))
                          (Qmake 2 10)))
             parts).
Proof.
  intros Hshape Hinfo. unfold scannable in Hshape. rewrite Hinfo in Hshape.
  unfold collect_context, dict_item. rewrite Hinfo.
  destruct (dict_get "faqs" kb) as [[| | | | | faqs |] |]; try discriminate.
  cbn [bind iterate].
  assert (Hfaqs : exists faq_parts,
             scan_faqs clean_query threshold faqs = Ok faq_parts).
  { clear - Hshape. induction faqs as [| faq rest IH]; cbn [scan_faqs].
    - eauto.
    - cbn [forallb] in Hshape. apply andb_true_iff in Hshape as [Hfaq Hrest].
      destruct (IH Hrest) as [there ->].
      destruct faq as [| | | | | | d]; try discriminate.
      cbn [faq_shaped] in Hfaq. cbn [scan_faq]. unfold dict_item.
      destruct (dict_get "question" d) as [[| | | | question | |] |];
        try discriminate.
      destruct (dict_get "answer" d) as [[| | | | answer | |] |];
        try discriminate.
      cbn [bind as_text].
      destruct (Qgtb _ threshold); cbn [bind]; eauto. }
  destruct Hfaqs as [faq_parts ->]. cbn [bind].
  eexists. split; [reflexivity |]. split.
  - intros key s Hin Hnamed. apply in_or_app. left.
    apply (In_flat_map_part _ _ (key, VStr s)); [assumption |].
    cbn [fst snd scan_item]. rewrite Hnamed, orb_true_r.
    unfold with_key_bonus. now left.
  - intros key d sub_key sub_value Hin Hsub Hnamed. apply in_or_app. left.
    apply (In_flat_map_part _ _ (key, VDict d)); [assumption |].
    cbn [fst snd scan_item].
    apply (In_flat_map_part _ _ (sub_key, sub_value)); [assumption |].
    rewrite Hnamed, orb_true_r. unfold with_key_bonus. now left.
Qed.

Lemma named_key_is_collected_witness :
  exists parts,
    collect_context (_initialize_knowledge_base sample_now)
      "do you have a website" (Qmake 9 10) = Ok parts
    /\ In (Part "Website: www.romanarestaurant.com"
             (Qplus (_simple_text_similarity "do you have a website"
                       "www.romanarestaurant.com") (Qmake 2 10)))
          parts.
Proof.
  destruct (named_key_is_collected (_initialize_knowledge_base sample_now)
              sample_info "do you have a website" (Qmake 9 10)
              eq_refl eq_refl) as (parts & Hrun & Htexts & _).
  exists parts. split; [exact Hrun |].
  apply (Htexts "website" "www.romanarestaurant.com").
  - vm_compute. tauto.
  - vm_compute. reflexivity.
Defined.

(** *** Knowledge bases the retriever cannot scan *)

(** X10: on a knowledge base whose [faqs] is a list but which the scan
    cannot read ([restaurant_info] is not a mapping, or an FAQ is not a
    mapping with a text question and a text answer), the retriever's
    handler returns the error text, whatever the query and threshold. *)
Theorem unscannable_base_gives_error_text (kb : dict) (faqs : list value)
    (query : string) (threshold : Q) :
  dict_get "faqs" kb = Some (VList faqs) ->
  scannable kb = false ->
  retrieve_relevant_context kb query threshold = context_error.
Proof.
  intros Hfaqs Hshape. unfold scannable in Hshape. rewrite Hfaqs in Hshape.
  unfold retrieve_relevant_context, collect_context, dict_item.
  destruct (dict_get "restaurant_info" kb) as [[| | | | | | items] |];
    try reflexivity.
  rewrite Hfaqs. cbn [bind iterate].
  assert (Hraise : exists e,
             scan_faqs (strip (lower query)) threshold faqs = Raise e).
  { clear - Hshape. induction faqs as [| faq rest IH]; [discriminate |].
    cbn [forallb] in Hshape. cbn [scan_faqs].
    destruct (faq_shaped faq) eqn:Hfaq.
    - cbn [andb] in Hshape. destruct (IH Hshape) as [e ->].
      destruct (scan_faq _ threshold faq); cbn [bind]; eauto.
    - assert (Hhere : exists e,
                 scan_faq (strip (lower query)) threshold faq = Raise e).
      { destruct faq as [| | | | | | d]; cbn [scan_faq]; eauto.
        cbn [faq_shaped] in Hfaq. unfold dict_item.
        destruct (dict_get "question" d) as [[| | | | question | |] |];
          cbn [bind as_text]; eauto.
        destruct (dict_get "answer" d) as [[| | | | answer | |] |];
          cbn [bind as_text]; eauto. discriminate. }
      destruct Hhere as [e ->]. cbn [bind]. eauto. }
  destruct Hraise as [e ->]. reflexivity.
Qed.

Lemma unscannable_base_gives_error_text_witness :
  retrieve_relevant_context
    [("restaurant_info", VDict [("name", VStr "Romana Restaurant")]);
     ("faqs", VList [VDict [("question", VStr "Do you deliver?")]])]
    "name" (Qmake 3 10)
  = context_error.
Proof.
  apply (unscannable_base_gives_error_text _
           [VDict [("question", VStr "Do you deliver?")]]).
  - reflexivity.
  - reflexivity.
Defined.

End RetrieverProps.

(** ** The completion client: the two histories *)
Module CompletionProps.
Import Py RAGLayer RAGLayerProps.

Lemma slice_from_suffix {A : Type} (i : Z) (l : list A) :
  exists dropped, l = (dropped ++ slice_from i l)%list.
Proof.
  unfold slice_from. eexists. symmetry. apply firstn_skipn.
Qed.

(** X11: whatever the completion service does, [generate_response] leaves
    the caller's history list either as it was or extended by exactly two
    turns, the user's query and then the assistant turn holding the returned
    text; and the history it returns is a suffix of the caller's list. *)
Theorem generate_response_appends_both_or_nothing (conversation_memory : Z)
    (query : string) (conversation_history : option (list turn))
    (post : res http_response) :
  let given := match conversation_history with Some h => h | None => [] end in
  let g := generate_response conversation_memory query conversation_history post in
  (argument_after g = given
   \/ argument_after g = (given ++ [user query; assistant (response g)])%list)
  /\ exists dropped, argument_after g = (dropped ++ history g)%list.
Proof.
  intros given g. subst given g. unfold generate_response.
  set (given := match conversation_history with Some h => h | None => [] end).
  destruct post as [reply | e]; cbn [bind].
  - destruct (status_code reply =? 200).
    + destruct (message_content reply) as [assistant_response | e]; cbn [bind].
      * cbn [argument_after response history]. split; [now right |].
        destruct (Z.of_nat _ >? _).
        -- apply slice_from_suffix.
        -- exists []. reflexivity.
      * destruct e; cbn [argument_after history]; split;
          try (now left); exists []; reflexivity.
    + cbn [argument_after response history]. split; [now right |].
      exists []. reflexivity.
  - destruct e; cbn [argument_after history]; split;
      try (now left); exists []; reflexivity.
Qed.

(** X12: on a 200 reply with a message, [generate_response] returns the
    message and extends the caller's list by the two new turns; with a
    memory of at least 1 the returned history has min(n + 2, 2 * memory)
    turns, ends with the two new turns and is otherwise a suffix of the
    given history; with a memory of 0 nothing is trimmed (the slice
    [[-0:]] is the whole list). *)
Theorem successful_reply_keeps_last_turns (conversation_memory : Z)
    (query : string) (conversation_history : option (list turn))
    (reply : http_response) (assistant_response : string) :
  status_code reply = 200 ->
  message_content reply = Ok assistant_response ->
  let given := match conversation_history with Some h => h | None => [] end in
  let g := generate_response conversation_memory query conversation_history
             (Ok reply) in
  response g = assistant_response
  /\ argument_after g
     = (given ++ [user query; assistant assistant_response])%list
  /\ (1 <= conversation_memory ->
      Z.of_nat (List.length (history g))
      = Z.min (Z.of_nat (List.length given) + 2) (conversation_memory * 2)
      /\ exists kept,
           history g = (kept ++ [user query; assistant assistant_response])%list
           /\ exists dropped, given = (dropped ++ kept)%list)
  /\ (conversation_memory = 0 -> history g = argument_after g).
Proof.
  intros Hstatus Hcontent given g. subst given g. unfold generate_response.
  set (given := match conversation_history with Some h => h | None => [] end).
  cbn [bind]. rewrite Hstatus, Hcontent. cbn [bind Z.eqb Pos.eqb].
  cbn [response argument_after history].
  split; [reflexivity |]. split; [reflexivity |]. split.
  - intros Hmemory.
    rewrite length_app. cbn [List.length].
    destruct (Z.gtb_spec (Z.of_nat (List.length given + 2)) (conversation_memory * 2))
      as [Hlong | Hshort].
    + unfold slice_from. rewrite length_app. cbn [List.length].
      destruct (Z.ltb_spec (- conversation_memory * 2) 0) as [_ | Hbad]; [| lia].
      set (k := Z.to_nat (Z.max 0 (- conversation_memory * 2
                                   + Z.of_nat (List.length given + 2)))).
      assert (Hk : (k <= List.length given)%nat) by (subst k; lia).
      rewrite skipn_app.
      replace (k - List.length given)%nat with 0%nat by lia.
      cbn [skipn]. split.
      * rewrite length_app, length_skipn. cbn [List.length]. subst k. lia.
      * exists (skipn k given). split; [reflexivity |].
        exists (firstn k given). symmetry. apply firstn_skipn.
    + split.
      * rewrite length_app. cbn [List.length]. lia.
      * exists given. split; [reflexivity |]. exists []. reflexivity.
  - intros ->. cbn [Z.mul Z.opp].
    destruct (Z.of_nat _ >? 0); [| reflexivity].
    unfold slice_from. cbn [Z.ltb Z.compare Z.to_nat skipn]. reflexivity.
Qed.

Lemma successful_reply_keeps_last_turns_witness :
  Z.of_nat (List.length
              (history (generate_response 1 "Do you deliver?"
                          (Some [user "Hello"; assistant "Welcome to Romana"])
                          (Ok (Response 200 "{}" (Ok "Not yet"))))))
  = 2
  /\ argument_after (generate_response 1 "Do you deliver?"
                       (Some [user "Hello"; assistant "Welcome to Romana"])
                       (Ok (Response 200 "{}" (Ok "Not yet"))))
     = [user "Hello"; assistant "Welcome to Romana";
        user "Do you deliver?"; assistant "Not yet"].
Proof.
  destruct (successful_reply_keeps_last_turns 1 "Do you deliver?"
              (Some [user "Hello"; assistant "Welcome to Romana"])
              (Response 200 "{}" (Ok "Not yet")) "Not yet" eq_refl eq_refl)
    as (_ & Hextended & Hkept & _).
  destruct (Hkept ltac:(lia)) as [Hlength _].
  split; [exact Hlength | exact Hextended].
Defined.

End CompletionProps.

(** ** Dates, times and numbers *)
Module CalendarProps.
Import Py Calendar.

(** The year of a date holds the date. *)

Lemma year_of_bounds (n : Z) :
  1 <= n ->
  days_before_year (year_of n) < n <= days_before_year (year_of n + 1).
Proof.
  intros Hn. unfold year_of, ord2ymd. cbv zeta.
  destruct ((((n - 1) mod 146097 mod 36524 mod 1461 / 365 =? 4)
             || ((n - 1) mod 146097 / 36524 =? 4))%bool) eqn:Hedge.
  - cbn [fst]. unfold days_before_year.
    apply orb_true_iff in Hedge. 
    destruct Hedge as [H | H]; apply Z.eqb_eq in H;
    Z.div_mod_to_equations; lia.
  - apply orb_false_iff in Hedge as [H1 H2].
    apply Z.eqb_neq in H1, H2.
    assert (Hfst : forall a b c d : Z * Z * Z, forall t : bool,
               fst (fst a) = fst (fst b) -> fst (fst (if t then a else b)) = fst (fst b)).
    { intros a b _ _ [] H; auto. }
    match goal with
    | |- context [if ?t then (?y, ?m1, ?d1) else (?y, ?m2, ?d2)] =>
        replace (fst (fst (if t then (y, m1, d1) else (y, m2, d2)))) with y
          by (destruct t; reflexivity)
    end.
    unfold days_before_year.
    Z.div_mod_to_equations. lia.
Qed.

Lemma days_in_month_nonneg (y m : Z) : 0 <= days_in_month y m.
Proof.
  unfold days_in_month.
  repeat match goal with
         | |- context [match ?x with _ => _ end] => destruct x
         end; lia.
Qed.

Lemma days_before_month_nonneg (y m : Z) : 0 <= days_before_month y m.
Proof.
  unfold days_before_month.
  assert (Hfold : forall l a,
             0 <= a ->
             0 <= fold_left (fun acc k => acc + days_in_month y (Z.of_nat k)) l a).
  { induction l as [| k rest IH]; intros a Ha; cbn [fold_left]; [exact Ha |].
    apply IH. pose proof (days_in_month_nonneg y (Z.of_nat k)). lia. }
  apply Hfold. lia.
Qed.

Lemma make_date_after_year_start (y m d ord : Z) :
  make_date y m d = Ok ord -> days_before_year y < ord.
Proof.
  unfold make_date.
  destruct ((1 <=? y) && (y <=? 9999) && (1 <=? m) && (m <=? 12)
            && (1 <=? d) && (d <=? days_in_month y m))%bool eqn:Hvalid;
    [| discriminate].
  intros [= <-]. unfold ymd2ord.
  repeat (apply andb_true_iff in Hvalid as [Hvalid ?]).
  pose proof (days_before_month_nonneg y m). lia.
Qed.

End CalendarProps.

Module UtilityProps.
Import Py VoiceAgent VoiceAgentProps CalendarProps Notions.

(** *** Digits *)

Lemma digit_value_nonneg (c : ascii) : is_digit c = true -> 0 <= digit_value c.
Proof.
  unfold is_digit, between, digit_value. intros H.
  apply andb_true_iff in H as [Hlo _]. apply Nat.leb_le in Hlo. lia.
Qed.

Lemma int_of_digits_from_nonneg (s : string) :
  forall acc, all_digits s = true -> 0 <= acc -> 0 <= int_of_digits_from acc s.
Proof.
  induction s as [| c s' IH]; intros acc Hdigits Hacc; cbn [int_of_digits_from].
  - exact Hacc.
  - cbn [all_digits] in Hdigits. apply andb_true_iff in Hdigits as [Hc Hrest].
    apply IH; [exact Hrest |]. pose proof (digit_value_nonneg c Hc). lia.
Qed.

Lemma int_of_digits_nonneg (s : string) :
  all_digits s = true -> 0 <= int_of_digits s.
Proof. intros H. apply int_of_digits_from_nonneg; [exact H | lia]. Qed.

Lemma span_digits_all (s : string) : all_digits (fst (span_digits s)) = true.
Proof.
  induction s as [| c s' IH]; cbn [span_digits]; [reflexivity |].
  destruct (is_digit c) eqn:Hc; [| reflexivity].
  destruct (span_digits s') as [ds rest]. cbn [fst all_digits] in *.
  now rewrite Hc, IH.
Qed.

Lemma search_number_digits (s : string) :
  forall prev ds, search_number_from prev s = Some ds -> all_digits ds = true.
Proof.
  induction s as [| c s' IH]; intros prev ds; cbn [search_number_from].
  - discriminate.
  - destruct (negb prev && is_digit c); [| apply IH].
    pose proof (span_digits_all (String c s')) as Hspan.
    destruct (span_digits (String c s')) as [run rest]. cbn [fst] in Hspan.
    destruct (word_ends rest); [| apply IH].
    now intros [= <-].
Qed.

(** X13: a number returned by [_extract_number_from_text] is never
    negative (a minus sign before the digits is not read), and the
    party-size step accepts the reply exactly when that number is not 0. *)
Theorem extract_number_never_negative (text : string) (n : Z) :
  _extract_number_from_text text = Some n ->
  0 <= n
  /\ forall today, accepts today "party_size" text = negb (n =? 0).
Proof.
  intros Hn. assert (Hpos : 0 <= n).
  { unfold _extract_number_from_text in Hn.
    destruct (search_number text) as [ds |] eqn:Hds.
    - injection Hn as <-. apply int_of_digits_nonneg.
      exact (search_number_digits _ _ _ Hds).
    - pose proof (first_word_in_range _ 1 20 _ _ word_to_number_range Hn). lia. }
  split; [exact Hpos |]. intros today. unfold accepts.
  cbn [String.eqb Ascii.eqb Bool.eqb]. rewrite Hn.
  destruct (Z.gtb_spec n 0), (Z.eqb_spec n 0); cbn [negb]; lia || reflexivity.
Qed.

Lemma extract_number_never_negative_witness :
  _extract_number_from_text "a table for -5 please" = Some 5
  /\ 0 <= 5
  /\ accepts sample_today "party_size" "a table for -5 please" = true.
Proof.
  assert (Hfound : _extract_number_from_text "a table for -5 please" = Some 5)
    by (vm_compute; reflexivity).
  destruct (extract_number_never_negative "a table for -5 please" 5 Hfound)
    as [Hsign Haccepted].
  split; [exact Hfound |]. split; [exact Hsign | exact (Haccepted sample_today)].
Defined.

(** *** Dates *)

(** X14: [_parse_date] tests for the word tomorrow before it tests for the
    phrase day after tomorrow, so a text with that phrase (and without
    today) resolves to tomorrow, one day after today, not two. *)
Theorem day_after_tomorrow_is_tomorrow (today : Z) (date_str : string) :
  contains "day after tomorrow" (lower date_str) = true ->
  contains "today" (lower date_str) = false ->
  _parse_date today date_str = Ok (today + 1).
Proof.
  intros Hphrase Htoday. unfold _parse_date. cbv zeta. rewrite Htoday.
  now rewrite (contains_trans "tomorrow" "day after tomorrow" _ eq_refl Hphrase).
Qed.

Lemma day_after_tomorrow_is_tomorrow_witness :
  _parse_date sample_today "The day after tomorrow" = Ok (sample_today + 1).
Proof.
  apply day_after_tomorrow_is_tomorrow; vm_compute; reflexivity.
Defined.

(** X15: for a text without today and tomorrow that names a weekday,
    [_parse_date] returns a date that falls on the first weekday of the
    table (Monday first) named in the text, 1 to 7 days after today, or 7
    to 13 days after today when the text contains next. *)
Theorem weekday_name_resolves_ahead (today : Z) (date_str : string)
    (day_num : Z) :
  contains "today" (lower date_str) = false ->
  contains "tomorrow" (lower date_str) = false ->
  first_word_in days (lower date_str) = Some day_num ->
  exists k,
    _parse_date today date_str = Ok (today + k)
    /\ Calendar.weekday (today + k) = day_num
    /\ (if contains "next" (lower date_str) then 7 <= k <= 13 else 1 <= k <= 7).
Proof.
  intros Htoday Htomorrow Hday.
  assert (Hafter : contains "day after tomorrow" (lower date_str) = false)
    by exact (contains_false_trans "tomorrow" "day after tomorrow" _ eq_refl Htomorrow).
  rewrite (parse_date_weekday today date_str day_num Htoday Htomorrow Hafter Hday).
  assert (Hrange : 0 <= day_num < 7).
  { pose proof (first_word_in_range days 0 6 _ _
                  ltac:(unfold days; repeat constructor; cbn [snd]; lia) Hday).
    lia. }
  eexists. split; [reflexivity |]. cbv zeta. unfold Calendar.weekday.
  destruct (contains "next" (lower date_str)).
  - destruct (Z.eqb_spec ((day_num - (today + 6) mod 7) mod 7 + 7) 0);
      split; Z.div_mod_to_equations; lia.
  - destruct (Z.eqb_spec ((day_num - (today + 6) mod 7) mod 7) 0);
      split; Z.div_mod_to_equations; lia.
Qed.

Lemma weekday_name_resolves_ahead_witness :
  exists k,
    _parse_date sample_today "Sunday or Monday" = Ok (sample_today + k)
    /\ Calendar.weekday (sample_today + k) = 0
    /\ 1 <= k <= 7.
Proof.
  exact (weekday_name_resolves_ahead sample_today "Sunday or Monday" 0
           eq_refl eq_refl eq_refl).
Defined.

Lemma month_day_loop_not_past (today : Z) (ms : list string) :
  1 <= today ->
  forall i date_str d,
    month_day_loop today ms i date_str = Ok (Some d) -> today <= d.
Proof.
  intros Hvalid. induction ms as [| month rest IH]; intros i date_str d;
    cbn [month_day_loop].
  - discriminate.
  - destruct (contains month date_str); [| apply IH].
    destruct (search_day date_str) as [ds |]; [| apply IH].
    destruct (Calendar.make_date (Calendar.year_of today) i (int_of_digits ds))
      as [date_obj |] eqn:Hfirst; cbn [bind]; [| discriminate].
    destruct (Z.ltb_spec date_obj today) as [Hpast | Hfuture].
    + destruct (Calendar.make_date (Calendar.year_of today + 1) i (int_of_digits ds))
        as [date_obj' |] eqn:Hsecond; cbn [bind]; [| discriminate].
      intros [= <-].
      pose proof (make_date_after_year_start _ _ _ _ Hsecond).
      pose proof (year_of_bounds today Hvalid). lia.
    + now intros [= <-].
Qed.

(** X16: a date returned by [_parse_date] lies before today only when the
    text is a date in the form YYYY-MM-DD: the relative words, the weekday
    names and the month-and-day form (moved to next year when it has passed)
    never resolve to a past date. *)
Theorem only_iso_dates_can_be_past (today : Z) (date_str : string) (d : Z) :
  1 <= today ->
  _parse_date today date_str = Ok d ->
  d < today ->
  Calendar.strptime_ymd (lower date_str) = Ok d.
Proof.
  intros Hvalid. unfold _parse_date. cbv zeta.
  destruct (contains "today" (lower date_str)); [intros [= <-]; lia |].
  destruct (contains "tomorrow" (lower date_str)); [intros [= <-]; lia |].
  destruct (contains "day after tomorrow" (lower date_str)); [intros [= <-]; lia |].
  destruct (first_word_in days (lower date_str)) as [day_num |].
  - intros [= <-] Hpast. exfalso.
    cbn [negb] in Hpast. rewrite !andb_true_r in Hpast.
    unfold Calendar.weekday in Hpast.
    destruct (contains "next" (lower date_str));
      match type of Hpast with
      | context [if ?c then _ else _] => destruct c
      end; Z.div_mod_to_equations; lia.
  - destruct (Calendar.strptime_ymd (lower date_str)) as [iso | e].
    + now intros [= <-].
    + destruct (month_day_loop today months 1 (lower date_str))
        as [[found |] | e'] eqn:Hloop; try discriminate.
      intros [= <-] Hpast.
      pose proof (month_day_loop_not_past today months Hvalid _ _ _ Hloop). lia.
Qed.

Lemma only_iso_dates_can_be_past_witness :
  _parse_date sample_today "2020-01-15" = Ok 737439
  /\ 737439 < sample_today
  /\ Calendar.strptime_ymd (lower "2020-01-15") = Ok 737439.
Proof.
  assert (Hvalid : 1 <= sample_today) by (vm_compute; discriminate).
  assert (Hparsed : _parse_date sample_today "2020-01-15" = Ok 737439)
    by (vm_compute; reflexivity).
  assert (Hpast : 737439 < sample_today) by (vm_compute; reflexivity).
  split; [exact Hparsed |]. split; [exact Hpast |].
  exact (only_iso_dates_can_be_past sample_today "2020-01-15" 737439
           Hvalid Hparsed Hpast).
Defined.

(** *** Times *)

Lemma digits_1_2_digits (s ds : string) :
  digits_1_2 s = Some ds -> all_digits ds = true.
Proof.
  unfold digits_1_2. destruct s as [| c1 r1]; [discriminate |].
  destruct (is_digit c1) eqn:H1; [| discriminate].
  destruct r1 as [| c2 r2].
  - intros [= <-]. cbn [all_digits]. now rewrite H1.
  - destruct (is_digit c2) eqn:H2; intros [= <-]; cbn [all_digits];
      now rewrite H1, ?H2.
Qed.

Lemma search_hour_digits (s ds : string) :
  search_hour s = Some ds -> all_digits ds = true.
Proof.
  induction s as [| c s' IH]; cbn [search_hour]; [discriminate |].
  destruct (digits_1_2 (String c s')) as [found |] eqn:Hhere.
  - intros [= <-]. exact (digits_1_2_digits _ _ Hhere).
  - exact IH.
Qed.

Lemma search_minute_digits (s ds : string) :
  search_minute s = Some ds -> all_digits ds = true.
Proof.
  induction s as [| c s' IH]; cbn [search_minute]; [discriminate |].
  destruct (code c =? 58)%nat; [| exact IH].
  destruct (digits_1_2 s') as [found |] eqn:Hhere.
  - intros [= <-]. exact (digits_1_2_digits _ _ Hhere).
  - exact IH.
Qed.

(** X17: whenever [_parse_time] returns, the result is a time of day: the
    hour is between 0 and 23 and the minute between 0 and 59. *)
Theorem parse_time_is_a_time_of_day (time_str : string) (hour minute : Z) :
  _parse_time time_str = Ok (hour, minute) ->
  0 <= hour <= 23 /\ 0 <= minute <= 59.
Proof.
  unfold _parse_time. cbv zeta.
  destruct (contains "noon" (lower time_str)); [intros [= <- <-]; lia |].
  destruct (contains "midnight" (lower time_str)); [intros [= <- <-]; lia |].
  set (t := lower time_str).
  assert (Hhour : forall h,
             match search_hour t with
             | None =>
                 match first_word_in time_words t with
                 | Some number => Ok number
                 | None => Raise ValueError
                 end
             | Some ds => Ok (int_of_digits ds)
             end = Ok h -> 0 <= h).
  { intros h. destruct (search_hour t) as [ds |] eqn:Hds.
    - intros [= <-]. apply int_of_digits_nonneg.
      exact (search_hour_digits _ _ Hds).
    - destruct (first_word_in time_words t) as [number |] eqn:Hword;
        [| discriminate].
      intros [= <-].
      pose proof (first_word_in_range time_words 1 12 _ _
                    ltac:(unfold time_words; repeat constructor; cbn [snd]; lia)
                    Hword). lia. }
  destruct (match search_hour t with
            | None => _
            | Some ds => _
            end) as [h |]; cbn [bind]; [| discriminate].
  specialize (Hhour h eq_refl).
  assert (Hminute : forall ds, search_minute t = Some ds -> 0 <= int_of_digits ds).
  { intros ds Hds. apply int_of_digits_nonneg.
    exact (search_minute_digits _ _ Hds). }
  destruct (search_minute t) as [ds |].
  - specialize (Hminute ds eq_refl).
    unfold Calendar.strptime_hm.
    match goal with
    | |- (if ?c then _ else _) = _ -> _ => destruct c eqn:Hvalid; [| discriminate]
    end.
    intros [= <- <-]. apply andb_true_iff in Hvalid as [Hh Hm].
    repeat match goal with
    | |- context [if ?c then _ else _] => destruct c
    end; lia.
  - unfold Calendar.strptime_hm.
    repeat match goal with
    | |- context [if ?c then (_, _) else _] => destruct c
    end;
    match goal with
    | |- (if ?c then _ else _) = _ -> _ => destruct c eqn:Hvalid; [| discriminate]
    end;
    intros [= <- <-]; apply andb_true_iff in Hvalid as [Hh Hm];
    repeat match goal with
    | |- context [if ?c then _ else _] => destruct c
    end; try (pose proof (Z.mod_pos_bound (h - 1) 12 ltac:(lia))); lia.
Qed.

Lemma parse_time_is_a_time_of_day_witness :
  _parse_time "7:30 pm" = Ok (19, 30)
  /\ 0 <= 19 <= 23 /\ 0 <= 30 <= 59.
Proof.
  assert (Hparsed : _parse_time "7:30 pm" = Ok (19, 30))
    by (vm_compute; reflexivity).
  split; [exact Hparsed |].
  exact (parse_time_is_a_time_of_day "7:30 pm" 19 30 Hparsed).
Defined.

End UtilityProps.

(** ** The reservation dialogue: whole conversations *)
Module DialogueProps.
Import Py VoiceAgent VoiceAgentProps Notions.

Ltac open_flow :=
  cbv beta iota zeta delta
      [_handle_reservation_flow _start_reservation answer ask_again mbind lift
       ret raise try_except set_step set_data set_completed append_reservation
       append_history data_field current_reservation reservations
       conversation_history step data completed recorded Reservation
       fst snd bind];
  cbn [String.eqb Ascii.eqb Bool.eqb].

Ltac speak :=
  repeat match goal with
  | |- context [match ?f ?t with Ok _ => _ | Raise _ => _ end] =>
      destruct (f t)
  end.

Ltac read_fields :=
  repeat match goal with
  | |- context [dict_item ?k ?d] => destruct (dict_item k d)
  end.

Section Speech.

Variable text_to_speech : string -> res string.
Variable today : Z.

Lemma step_not_in_sequence (s : string) :
  step_index s = None ->
  String.eqb s "party_size" = false /\ String.eqb s "date" = false
  /\ String.eqb s "time" = false /\ String.eqb s "name" = false
  /\ String.eqb s "phone" = false /\ String.eqb s "confirm" = false.
Proof.
  unfold step_index, steps. cbn [index_of].
  repeat match goal with
         | |- context [String.eqb s ?t] => destruct (String.eqb s t)
         end; try discriminate; repeat split.
Qed.

(** X18: when the session's step is none of the six steps of the sequence,
    [_handle_reservation_flow] changes nothing and returns None, whatever
    the query. *)
Theorem unknown_step_is_ignored (query : string) (w : world) :
  step_index (step (current_reservation w)) = None ->
  _handle_reservation_flow text_to_speech today query w = (w, Ok None).
Proof.
  intros Hstep.
  destruct (step_not_in_sequence _ Hstep) as (H1 & H2 & H3 & H4 & H5 & H6).
  unfold _handle_reservation_flow.
  now rewrite H1, H2, H3, H4, H5, H6.
Qed.

End Speech.

Lemma unknown_step_is_ignored_witness :
  _handle_reservation_flow sample_speech sample_today "a table for two"
    (World (Reservation false "done" []) [] [user "hello"])
  = (World (Reservation false "done" []) [] [user "hello"], Ok None).
Proof.
  apply unknown_step_is_ignored. reflexivity.
Defined.

(** X19: what a turn of the reservation dialogue does to the session and
    to the list of reservations does not depend on the speech service: the
    session is updated before the reply is spoken, so a failure of
    [text_to_speech] loses the reply but not the step. *)
Theorem session_does_not_depend_on_speech
    (speech1 speech2 : string -> res string) (today : Z) (query : string)
    (w : world) :
  current_reservation (fst (_handle_reservation_flow speech1 today query w))
  = current_reservation (fst (_handle_reservation_flow speech2 today query w))
  /\ reservations (fst (_handle_reservation_flow speech1 today query w))
     = reservations (fst (_handle_reservation_flow speech2 today query w)).
Proof.
  destruct w as [[done current_step slots] booked past].
  unfold _handle_reservation_flow. cbn [current_reservation step].
  repeat match goal with
         | |- context [String.eqb current_step ?t] =>
             destruct (String.eqb current_step t)
         end.
  all: open_flow.
  - destruct (_extract_number_from_text query) as [n |];
      [destruct (n >? 0) |]; speak; split; reflexivity.
  - destruct (_parse_date today query) as [d | e];
      [destruct (d <? today) |]; speak; split; reflexivity.
  - destruct (_parse_time query) as [t | e]; speak; split; reflexivity.
  - speak; split; reflexivity.
  - destruct (any_char is_digit query); read_fields; speak; split; reflexivity.
  - destruct (affirmative query); speak; split; reflexivity.
  - split; reflexivity.
Qed.

(** X20: when the speech service raises on every text, a turn of the
    reservation dialogue leaves the conversation history as it was and, at
    each of the six steps, raises (the history is extended only after the
    reply was spoken). *)
Theorem speech_outage_keeps_history (speech : string -> res string)
    (today : Z) (query : string) (w : world) :
  (forall text, exists e, speech text = Raise e) ->
  conversation_history (fst (_handle_reservation_flow speech today query w))
  = conversation_history w
  /\ (step_index (step (current_reservation w)) <> None ->
      exists e, snd (_handle_reservation_flow speech today query w) = Raise e).
Proof.
  intros Hdown.
  destruct w as [[done current_step slots] booked past].
  unfold _handle_reservation_flow. cbn [current_reservation step].
  destruct (String.eqb_spec current_step "party_size") as [-> | H1].
  { open_flow.
    destruct (_extract_number_from_text query) as [n |];
      [destruct (n >? 0) |];
      match goal with
      | |- context [speech ?t] => destruct (Hdown t) as [e ->]
      end; split; eauto. }
  destruct (String.eqb_spec current_step "date") as [-> | H2].
  { open_flow.
    destruct (_parse_date today query) as [d | e0];
      [destruct (d <? today) |];
      repeat match goal with
      | |- context [speech ?t] => destruct (Hdown t) as [? ->]
      end; split; eauto. }
  destruct (String.eqb_spec current_step "time") as [-> | H3].
  { open_flow.
    destruct (_parse_time query) as [t | e0];
      repeat match goal with
      | |- context [speech ?t] => destruct (Hdown t) as [? ->]
      end; split; eauto. }
  destruct (String.eqb_spec current_step "name") as [-> | H4].
  { open_flow.
    repeat match goal with
    | |- context [speech ?t] => destruct (Hdown t) as [? ->]
    end; split; eauto. }
  destruct (String.eqb_spec current_step "phone") as [-> | H5].
  { open_flow.
    destruct (any_char is_digit query); read_fields;
    repeat match goal with
    | |- context [speech ?t] => destruct (Hdown t) as [? ->]
    end; split; eauto. }
  destruct (String.eqb_spec current_step "confirm") as [-> | H6].
  { open_flow.
    destruct (affirmative query);
    repeat match goal with
    | |- context [speech ?t] => destruct (Hdown t) as [? ->]
    end; split; eauto. }
  split; [reflexivity |]. intros Hknown. exfalso. apply Hknown.
  unfold step_index, steps. cbn [index_of].
  apply String.eqb_neq in H1, H2, H3, H4, H5, H6.
  now rewrite H1, H2, H3, H4, H5, H6.
Qed.

Lemma speech_outage_keeps_history_witness :
  conversation_history
    (fst (_handle_reservation_flow silent_speech sample_today "yes"
            sample_world))
  = conversation_history sample_world
  /\ exists e,
       snd (_handle_reservation_flow silent_speech sample_today "yes"
              sample_world) = Raise e.
Proof.
  destruct (speech_outage_keeps_history silent_speech sample_today "yes"
              sample_world (fun text => ex_intro _ RuntimeError eq_refl))
    as [Hkept Hraised].
  split; [exact Hkept |]. apply Hraised. vm_compute. discriminate.
Defined.


(** *** Whole conversations *)

Section Turns.

Variable text_to_speech : string -> res string.
Variable today : Z.

Abbreviation turn_of query w :=
  (fst (_handle_reservation_flow text_to_speech today query w)).

(** Writes seen through the list of reservations. *)
Lemma shared_none (d : dict) (l : list dict) : shared 0 d l = l.
Proof.
  unfold shared. rewrite Nat.sub_0_r, firstn_all, skipn_all.
  apply app_nil_r.
Qed.

Lemma shared_length (n : nat) (d : dict) (l : list dict) :
  List.length (shared n d l) = List.length l.
Proof.
  unfold shared. rewrite length_app, length_map, length_firstn, length_skipn.
  lia.
Qed.

Lemma shared_again (n : nat) (d d' : dict) (l : list dict) :
  shared n d (shared n d' l) = shared n d l.
Proof.
  unfold shared at 1. rewrite shared_length. unfold shared.
  set (k := (List.length l - n)%nat).
  assert (Hk : List.length (firstn k l) = k)
    by (rewrite length_firstn; subst k; lia).
  rewrite firstn_app, skipn_app, Hk, Nat.sub_diag.
  rewrite firstn_firstn, Nat.min_id, skipn_firstn_comm, Nat.sub_diag.
  cbn [firstn skipn app]. rewrite app_nil_r.
  f_equal. rewrite map_map. reflexivity.
Qed.

(** The entries before the session's own are as they were, and each of the
    session's own entries is the dictionary as written. *)
Lemma shared_entries (n : nat) (d : dict) (l : list dict) (i : nat) :
  nth_error (shared n d l) i
  = if (i <? List.length l - n)%nat then nth_error l i
    else if (i <? List.length l)%nat then Some d
    else None.
Proof.
  unfold shared. set (k := (List.length l - n)%nat).
  assert (Hk : List.length (firstn k l) = k)
    by (rewrite length_firstn; subst k; lia).
  destruct (Nat.ltb_spec i k) as [Hlt | Hge].
  - rewrite nth_error_app1 by lia. rewrite nth_error_firstn.
    destruct (Nat.ltb_spec i k); [reflexivity | lia].
  - rewrite nth_error_app2 by lia. rewrite Hk, nth_error_map.
    rewrite nth_error_skipn.
    replace (k + (i - k))%nat with i by lia.
    destruct (Nat.ltb_spec i (List.length l)) as [Hin | Hout].
    + destruct (nth_error l i) eqn:Hnth; [reflexivity |].
      apply nth_error_None in Hnth. lia.
    + apply nth_error_None in Hout. now rewrite Hout.
Qed.

(** The changes of one accepted reply, step by step, for every behaviour of
    the speech service. *)
Lemma accepted_party_size (query : string) (w : world) (done : bool)
    (slots : dict) (own : nat) (n : Z) :
  current_reservation w = Session done "party_size" slots own ->
  _extract_number_from_text query = Some n -> 0 < n ->
  current_reservation (turn_of query w)
  = Session done "date" (dict_set "party_size" (VInt n) slots) own
  /\ reservations (turn_of query w)
     = shared own (dict_set "party_size" (VInt n) slots) (reservations w).
Proof.
  destruct w as [session booked past]. cbn [current_reservation].
  intros -> Hn Hpos. open_flow. rewrite Hn.
  destruct (Z.gtb_spec n 0); [| lia]. speak; split; reflexivity.
Qed.

Lemma accepted_date (query : string) (w : world) (done : bool)
    (slots : dict) (own : nat) (d : Z) :
  current_reservation w = Session done "date" slots own ->
  _parse_date today query = Ok d -> today <= d ->
  current_reservation (turn_of query w)
  = Session done "time"
      (dict_set "date" (VStr (Calendar.strftime_ymd d)) slots) own
  /\ reservations (turn_of query w)
     = shared own (dict_set "date" (VStr (Calendar.strftime_ymd d)) slots)
         (reservations w).
Proof.
  destruct w as [session booked past]. cbn [current_reservation].
  intros -> Hd Hfuture. open_flow. rewrite Hd.
  destruct (Z.ltb_spec d today); [lia |]. speak; split; reflexivity.
Qed.

Lemma accepted_time (query : string) (w : world) (done : bool)
    (slots : dict) (own : nat) (t : Calendar.time) :
  current_reservation w = Session done "time" slots own ->
  _parse_time query = Ok t ->
  current_reservation (turn_of query w)
  = Session done "name"
      (dict_set "time" (VStr (Calendar.strftime_12h t)) slots) own
  /\ reservations (turn_of query w)
     = shared own (dict_set "time" (VStr (Calendar.strftime_12h t)) slots)
         (reservations w).
Proof.
  destruct w as [session booked past]. cbn [current_reservation].
  intros -> Ht. open_flow. rewrite Ht. speak; split; reflexivity.
Qed.

Lemma accepted_name (query : string) (w : world) (done : bool) (slots : dict)
    (own : nat) :
  current_reservation w = Session done "name" slots own ->
  current_reservation (turn_of query w)
  = Session done "phone" (dict_set "name" (VStr query) slots) own
  /\ reservations (turn_of query w)
     = shared own (dict_set "name" (VStr query) slots) (reservations w).
Proof.
  destruct w as [session booked past]. cbn [current_reservation].
  intros ->. open_flow. speak; split; reflexivity.
Qed.

Lemma accepted_phone (query : string) (w : world) (done : bool) (slots : dict)
    (own : nat) :
  current_reservation w = Session done "phone" slots own ->
  any_char is_digit query = true ->
  current_reservation (turn_of query w)
  = Session done "confirm" (dict_set "phone" (VStr query) slots) own
  /\ reservations (turn_of query w)
     = shared own (dict_set "phone" (VStr query) slots) (reservations w).
Proof.
  destruct w as [session booked past]. cbn [current_reservation].
  intros -> Hdigit. open_flow. rewrite Hdigit.
  read_fields; speak; split; reflexivity.
Qed.

Lemma accepted_confirm (query : string) (w : world) (done : bool) (slots : dict)
    (own : nat) :
  current_reservation w = Session done "confirm" slots own ->
  affirmative query = true ->
  current_reservation (turn_of query w) = Session true "confirm" slots (S own)
  /\ reservations (turn_of query w) = (reservations w ++ [slots])%list.
Proof.
  destruct w as [session booked past]. cbn [current_reservation].
  intros -> Hyes. open_flow. rewrite Hyes. speak; split; reflexivity.
Qed.

(** X21: from the first step, five accepted replies (a positive party
    size, a date not before today, a time, any name, a phone number with a
    digit) take the session to the confirm step with the five slots holding
    the parsed values in the formats the handler stores; every other key of
    the data and the completed flag are as before.  The list of
    reservations keeps its length and its entries, except those that are
    the session's own dictionary (the entries a confirmation of this very
    session appended): they show the new slots.  For a session that was
    never confirmed the list is unchanged. *)
Theorem five_replies_fill_the_slots (w : world) (done : bool) (stale : dict)
    (own : nat)
    (size_reply date_reply time_reply name_reply phone_reply : string)
    (n d : Z) (t : Calendar.time) :
  current_reservation w = Session done "party_size" stale own ->
  _extract_number_from_text size_reply = Some n -> 0 < n ->
  _parse_date today date_reply = Ok d -> today <= d ->
  _parse_time time_reply = Ok t ->
  any_char is_digit phone_reply = true ->
  let w5 := turn_of phone_reply (turn_of name_reply (turn_of time_reply
              (turn_of date_reply (turn_of size_reply w)))) in
  let slots := data (current_reservation w5) in
  step (current_reservation w5) = "confirm"
  /\ completed (current_reservation w5) = done
  /\ recorded (current_reservation w5) = own
  /\ dict_get "party_size" slots = Some (VInt n)
  /\ dict_get "date" slots = Some (VStr (Calendar.strftime_ymd d))
  /\ dict_get "time" slots = Some (VStr (Calendar.strftime_12h t))
  /\ dict_get "name" slots = Some (VStr name_reply)
  /\ dict_get "phone" slots = Some (VStr phone_reply)
  /\ (forall k,
        k <> "party_size" -> k <> "date" -> k <> "time" -> k <> "name" ->
        k <> "phone" -> dict_get k slots = dict_get k stale)
  /\ List.length (reservations w5) = List.length (reservations w)
  /\ (forall i,
        nth_error (reservations w5) i
        = if (i <? List.length (reservations w) - own)%nat
          then nth_error (reservations w) i
          else if (i <? List.length (reservations w))%nat then Some slots
          else None)
  /\ (own = 0%nat -> reservations w5 = reservations w).
Proof.
  intros Hstart Hn Hpos Hd Hfuture Ht Hdigit.
  destruct (accepted_party_size size_reply w done stale own n Hstart Hn Hpos)
    as [H1 R1].
  destruct (accepted_date date_reply _ _ _ _ d H1 Hd Hfuture) as [H2 R2].
  destruct (accepted_time time_reply _ _ _ _ t H2 Ht) as [H3 R3].
  destruct (accepted_name name_reply _ _ _ _ H3) as [H4 R4].
  destruct (accepted_phone phone_reply _ _ _ _ H4 Hdigit) as [H5 R5].
  cbv zeta. rewrite H5. cbn [step completed data recorded].
  rewrite R5, R4, R3, R2, R1, !shared_again.
  split; [reflexivity |]. split; [reflexivity |]. split; [reflexivity |].
  repeat match goal with
         | |- dict_get _ _ = Some _ /\ _ =>
             split;
             [ repeat first
                 [ apply RAGLayerProps.dict_get_set_same
                 | rewrite RAGLayerProps.dict_get_set_other by discriminate ]
             | ]
         end.
  split.
  { intros k ? ? ? ? ?.
    now rewrite !RAGLayerProps.dict_get_set_other by assumption. }
  split; [apply shared_length |].
  split; [intros i; apply shared_entries |].
  intros ->. apply shared_none.
Qed.

(** X22: a whole booking: after [_start_reservation], five accepted
    replies and an affirmative confirmation, the session is completed and
    the list of reservations has grown by exactly one entry, the mapping of
    the five slots in the order of the steps; whatever the speech service
    did on the way. *)
Theorem booking_is_recorded_once (w : world)
    (start_query size_reply date_reply time_reply name_reply phone_reply
       yes_reply : string)
    (n d : Z) (t : Calendar.time) :
  _extract_number_from_text size_reply = Some n -> 0 < n ->
  _parse_date today date_reply = Ok d -> today <= d ->
  _parse_time time_reply = Ok t ->
  any_char is_digit phone_reply = true ->
  affirmative yes_reply = true ->
  let w0 := fst (_start_reservation text_to_speech start_query w) in
  let w6 := turn_of yes_reply (turn_of phone_reply (turn_of name_reply
              (turn_of time_reply (turn_of date_reply
                 (turn_of size_reply w0))))) in
  let booking :=
    [ ("party_size", VInt n);
      ("date", VStr (Calendar.strftime_ymd d));
      ("time", VStr (Calendar.strftime_12h t));
      ("name", VStr name_reply);
      ("phone", VStr phone_reply) ] in
  current_reservation w6 = Session true "confirm" booking 1
  /\ reservations w6 = (reservations w ++ [booking])%list.
Proof.
  intros Hn Hpos Hd Hfuture Ht Hdigit Hyes.
  set (w0 := fst (_start_reservation text_to_speech start_query w)).
  assert (H0 : current_reservation w0 = Session false "party_size" [] 0
               /\ reservations w0 = reservations w).
  { subst w0. destruct w as [session booked past]. open_flow.
    speak; split; reflexivity. }
  destruct H0 as [H0 R0].
  destruct (accepted_party_size size_reply w0 _ _ _ n H0 Hn Hpos) as [H1 R1].
  destruct (accepted_date date_reply _ _ _ _ d H1 Hd Hfuture) as [H2 R2].
  destruct (accepted_time time_reply _ _ _ _ t H2 Ht) as [H3 R3].
  destruct (accepted_name name_reply _ _ _ _ H3) as [H4 R4].
  destruct (accepted_phone phone_reply _ _ _ _ H4 Hdigit) as [H5 R5].
  destruct (accepted_confirm yes_reply _ _ _ _ H5 Hyes) as [H6 R6].
  cbv zeta. split; [exact H6 |].
  rewrite R6, R5, R4, R3, R2, R1, !shared_none, R0. reflexivity.
Qed.

End Turns.

(** A session that was confirmed and then sent back to the first step: its
    recorded reservation is the dictionary the new replies write to, and the
    reservation recorded before it is not. *)
Lemma five_replies_fill_the_slots_witness :
  let w5 :=
    fst (_handle_reservation_flow sample_speech sample_today "555 9876"
     (fst (_handle_reservation_flow sample_speech sample_today "Grace"
      (fst (_handle_reservation_flow sample_speech sample_today "7:30 pm"
       (fst (_handle_reservation_flow sample_speech sample_today "tomorrow"
        (fst (_handle_reservation_flow sample_speech sample_today "2 people"
           (World (Session true "party_size" (data sample_session) 1)
              [[("name", VStr "Bob")]; data sample_session] [])))))))))) in
  nth_error (reservations w5) 0 = Some [("name", VStr "Bob")]
  /\ nth_error (reservations w5) 1
     = Some [ ("party_size", VInt 2); ("date", VStr "2026-11-05");
              ("time", VStr "07:30 PM"); ("name", VStr "Grace");
              ("phone", VStr "555 9876") ].
Proof.
  pose proof (five_replies_fill_the_slots sample_speech sample_today
                (World (Session true "party_size" (data sample_session) 1)
                   [[("name", VStr "Bob")]; data sample_session] [])
                true (data sample_session) 1
                "2 people" "tomorrow" "7:30 pm" "Grace" "555 9876"
                2 (sample_today + 1) (19, 30)
                eq_refl ltac:(vm_compute; reflexivity) eq_refl
                ltac:(vm_compute; reflexivity) ltac:(vm_compute; discriminate)
                ltac:(vm_compute; reflexivity) ltac:(vm_compute; reflexivity))
    as filled.
  destruct filled as (_ & _ & _ & _ & _ & _ & _ & _ & _ & _ & Hentries & _).
  split; [exact (Hentries 0%nat) | exact (Hentries 1%nat)].
Defined.

Lemma booking_is_recorded_once_witness :
  reservations
    (fst (_handle_reservation_flow sample_speech sample_today "yes please"
     (fst (_handle_reservation_flow sample_speech sample_today "555 9876"
      (fst (_handle_reservation_flow sample_speech sample_today "Grace"
       (fst (_handle_reservation_flow sample_speech sample_today "7:30 pm"
        (fst (_handle_reservation_flow sample_speech sample_today "tomorrow"
         (fst (_handle_reservation_flow sample_speech sample_today "2 people"
          (fst (_start_reservation sample_speech "I would like to book a table"
                  sample_world))))))))))))))
  = [ [ ("party_size", VInt 2); ("date", VStr "2026-11-05");
        ("time", VStr "07:30 PM"); ("name", VStr "Grace");
        ("phone", VStr "555 9876") ] ].
Proof.
  refine (proj2 (booking_is_recorded_once sample_speech sample_today
                   sample_world "I would like to book a table"
                   "2 people" "tomorrow" "7:30 pm" "Grace" "555 9876"
                   "yes please" 2 (sample_today + 1) (19, 30) _ _ _ _ _ _ _)).
  - vm_compute; reflexivity.
  - reflexivity.
  - vm_compute; reflexivity.
  - vm_compute; discriminate.
  - vm_compute; reflexivity.
  - vm_compute; reflexivity.
  - vm_compute; reflexivity.
Defined.

End DialogueProps.

(** ** The conversation router and the ordering flow *)
Module ConversationProps.
Import Py Conversation Notions.

Ltac open_agent :=
  cbv beta iota zeta delta
      [mbind lift ret set_order place_order append_history on_reservation
       answer menu passed_on rag_response start_reservation
       knowledge_base current_reservation reservations current_order orders
       conversation_history fst snd bind].

Ltac speak :=
  repeat match goal with
  | |- context [match ?f ?t with Ok _ => _ | Raise _ => _ end] =>
      destruct (f t)
  end.

Section Agent.

Variable text_to_speech : string -> res string.
Variable today : Z.
Variable total_text : list value -> res string.
Variable conversation_memory : Z.
Variable post : res RAGLayer.http_response.

Abbreviation handle :=
  (handle_conversation text_to_speech today total_text conversation_memory post).
Abbreviation routing :=
  (route text_to_speech today total_text conversation_memory post).

Lemma fst_caught (done : agent * res routed) :
  fst (caught text_to_speech done) = fst done.
Proof.
  unfold caught. destruct done as [a' [out | e]]; [reflexivity |].
  destruct (text_to_speech error_msg); reflexivity.
Qed.

Lemma caught_voiced (done : agent * res routed) :
  (forall out, snd done = Ok out -> voiced out) ->
  voiced (snd (caught text_to_speech done)).
Proof.
  unfold caught. destruct done as [a' [out | e]]; cbn [snd]; intros Hout.
  - now apply Hout.
  - destruct (text_to_speech error_msg); exact I.
Qed.

(** The router of an idle agent is the table of intents. *)
Lemma idle_routes_by_intent (query : string) (a : agent) :
  idle a = true ->
  routing query a
  = intents text_to_speech today conversation_memory post query a.
Proof.
  unfold idle, route. intros Hidle. apply andb_true_iff in Hidle as [Hr Ho].
  destruct (current_reservation a) as [r |]; [rewrite Hr; cbn [negb] |];
    (destruct (current_order a) as [o |]; [rewrite Ho; cbn [negb] |]);
    reflexivity.
Qed.

(** An order under way gets the query unless a reservation is under way. *)
Lemma active_order_routes_to_ordering (query : string) (a : agent) (o : order) :
  match current_reservation a with
  | Some r => VoiceAgent.completed r
  | None => true
  end = true ->
  current_order a = Some o ->
  order_completed o = false ->
  routing query a = _handle_ordering_flow text_to_speech total_text o query a.
Proof.
  intros Hquiet Horder Hactive. unfold route.
  rewrite Horder, Hactive. cbn [negb].
  destruct (current_reservation a) as [r |]; [rewrite Hquiet |]; reflexivity.
Qed.

(** X23: while a reservation session is under way, [handle_conversation]
    hands every query to the reservation flow, whatever words it contains:
    session, reservations and history are what the flow leaves, the order
    state and the knowledge base are untouched, and a result of the flow is
    returned as it is. *)
Theorem active_reservation_takes_every_query (query : string) (a : agent)
    (r : VoiceAgent.reservation) :
  current_reservation a = Some r ->
  VoiceAgent.completed r = false ->
  let turn :=
    VoiceAgent._handle_reservation_flow text_to_speech today query
      (VoiceAgent.World r (reservations a) (conversation_history a)) in
  let a' := fst (handle query a) in
  current_reservation a' = Some (VoiceAgent.current_reservation (fst turn))
  /\ reservations a' = VoiceAgent.reservations (fst turn)
  /\ conversation_history a' = VoiceAgent.conversation_history (fst turn)
  /\ current_order a' = current_order a
  /\ orders a' = orders a
  /\ knowledge_base a' = knowledge_base a
  /\ (forall out, snd turn = Ok out -> snd (handle query a) = passed_on out).
Proof.
  intros Hsession Hactive. cbv zeta.
  unfold handle_conversation, caught, route. rewrite Hsession, Hactive.
  cbn [negb]. unfold mbind, on_reservation, ret.
  destruct (VoiceAgent._handle_reservation_flow text_to_speech today query _)
    as [w [out | e]]; cbn [fst snd].
  - repeat split. intros ? [= <-]. reflexivity.
  - destruct (text_to_speech error_msg); cbn [fst snd];
      repeat split; intros ? [=].
Qed.

(** X24: when no session is under way, a query containing one of the words
    reservation, book, table or reserve opens a fresh reservation session
    at the first step with no data, also when the speech service fails;
    reservations, orders and the knowledge base are untouched. *)
Theorem reservation_words_start_a_reservation (query : string) (a : agent) :
  idle a = true ->
  any_word reservation_words (lower query) = true ->
  let a' := fst (handle query a) in
  current_reservation a'
  = Some (VoiceAgent.Reservation false "party_size" [])
  /\ reservations a' = reservations a
  /\ current_order a' = current_order a
  /\ orders a' = orders a
  /\ knowledge_base a' = knowledge_base a.
Proof.
  intros Hidle Hwords. cbv zeta. unfold handle_conversation.
  rewrite fst_caught, (idle_routes_by_intent query a Hidle).
  unfold intents. cbv zeta. rewrite Hwords.
  destruct a as [kb session booked ordering placed past].
  open_agent.
  cbv beta iota zeta delta
      [VoiceAgent._start_reservation VoiceAgent.answer VoiceAgent.mbind
       VoiceAgent.lift VoiceAgent.ret VoiceAgent.append_history
       VoiceAgent.current_reservation VoiceAgent.reservations
       VoiceAgent.conversation_history].
  speak; cbn [fst snd]; repeat split.
Qed.

(** X25: when no session is under way, a query with an ordering word and
    no reservation word opens an order at the table-number step, and the
    next query, if a positive number is read from it, sets the table number
    and moves the order to item selection, whatever else that query
    says. *)
Theorem order_is_opened_then_takes_the_table (query table_reply : string)
    (a : agent) (n : Z) :
  idle a = true ->
  any_word reservation_words (lower query) = false ->
  any_word order_words (lower query) = true ->
  VoiceAgent._extract_number_from_text table_reply = Some n ->
  0 < n ->
  let a1 := fst (handle query a) in
  let a2 := fst (handle table_reply a1) in
  current_order a1 = Some (Order false "table_number" [] "" None)
  /\ current_order a2 = Some (Order false "item_selection" [] "" (Some n))
  /\ current_reservation a2 = current_reservation a
  /\ orders a2 = orders a.
Proof.
  intros Hidle Hnot Hwords Hn Hpos. cbv zeta.
  assert (Hfirst :
            current_order (fst (handle query a))
            = Some (Order false "table_number" [] "" None)
            /\ current_reservation (fst (handle query a)) = current_reservation a
            /\ orders (fst (handle query a)) = orders a).
  { unfold handle_conversation. rewrite fst_caught.
    rewrite (idle_routes_by_intent query a Hidle).
    unfold intents. cbv zeta. rewrite Hnot, Hwords.
    destruct a as [kb session booked ordering placed past].
    unfold _start_ordering. open_agent.
    destruct (RAGLayer.iterate _) as [dishes | e]; cbn [fst snd].
    - destruct (each _ dishes) as [lines | e]; cbn [fst snd];
        speak; cbn [fst snd]; repeat split.
    - repeat split. }
  destruct Hfirst as (Horder & Hsession & Hplaced).
  split; [exact Horder |].
  set (a1 := fst (handle query a)) in *.
  assert (Hquiet : match current_reservation a1 with
                   | Some r => VoiceAgent.completed r
                   | None => true
                   end = true).
  { rewrite Hsession. unfold idle in Hidle.
    now apply andb_true_iff in Hidle as [Hr _]. }
  unfold handle_conversation. rewrite fst_caught.
  rewrite (active_order_routes_to_ordering table_reply a1 _ Hquiet Horder eq_refl).
  rewrite <- Hsession, <- Hplaced. clear Hsession Hplaced Horder Hquiet.
  destruct a1 as [kb session booked ordering placed past].
  unfold _handle_ordering_flow.
  cbn [order_step String.eqb Ascii.eqb Bool.eqb order_completed items
       special_requests table_number].
  rewrite Hn. destruct (Z.gtb_spec n 0); [| lia].
  open_agent. speak; cbn [fst snd]; repeat split.
Qed.

Lemma matching_items_filter (query : string) (dishes : list value) :
  forall found,
    matching_items query dishes = Ok found ->
    found = filter (named_in query) dishes.
Proof.
  induction dishes as [| item rest IH]; cbn [matching_items filter];
    intros found.
  - now intros [= <-].
  - unfold named_in at 1.
    destruct (item_name item) as [name |]; cbn [bind]; [| discriminate].
    destruct (matching_items query rest) as [there |]; cbn [bind];
      [| discriminate].
    intros [= <-]. rewrite (IH there eq_refl).
    destruct (contains (lower name) (lower query)); reflexivity.
Qed.

(** X26: at item selection, the dishes added to the order are exactly the
    menu entries whose lowercased name occurs in the lowercased query, in
    menu order; table number and special requests are kept, the order is
    not placed, and the step moves on to special requests only if a dish
    was found. *)
Theorem selection_adds_the_named_dishes (query : string) (a : agent)
    (o : order) (dishes found : list value) :
  match current_reservation a with
  | Some r => VoiceAgent.completed r
  | None => true
  end = true ->
  current_order a = Some o ->
  order_completed o = false ->
  order_step o = "item_selection" ->
  RAGLayer.iterate
    (RAGLayer.get_knowledge_base (knowledge_base a)
       (Some "restaurant_info/popular_dishes")) = Ok dishes ->
  matching_items query dishes = Ok found ->
  found = filter (named_in query) dishes
  /\ exists o',
       current_order (fst (handle query a)) = Some o'
       /\ items o' = (items o ++ found)%list
       /\ table_number o' = table_number o
       /\ special_requests o' = special_requests o
       /\ order_completed o' = false
       /\ (order_step o' = "item_selection"
           \/ (order_step o' = "special_requests" /\ found <> []))
       /\ orders (fst (handle query a)) = orders a.
Proof.
  intros Hquiet Horder Hactive Hstep Hmenu Hfound.
  split; [exact (matching_items_filter _ _ _ Hfound) |].
  unfold handle_conversation. rewrite fst_caught.
  rewrite (active_order_routes_to_ordering query a o Hquiet Horder Hactive).
  destruct o as [done current_step chosen requests table].
  cbn [order_completed order_step items special_requests table_number] in *.
  subst done current_step.
  destruct a as [kb session booked ordering placed past].
  cbn [current_order knowledge_base] in *. subst ordering.
  unfold _handle_ordering_flow.
  cbn [order_step String.eqb Ascii.eqb Bool.eqb order_completed items
       special_requests table_number].
  open_agent. rewrite Hmenu, Hfound.
  destruct found as [| first more].
  - speak; cbn [fst snd]; eexists; (split; [reflexivity |]);
      cbn [order_completed table_number special_requests items order_step];
      rewrite ?app_nil_r; repeat split; now left.
  - destruct (total_text (chosen ++ first :: more)); cbn [fst snd].
    + destruct (each item_name (first :: more)); cbn [fst snd].
      * destruct (contains "no" (lower query)
                  || contains "that's it" (lower query)
                  || contains "that's all" (lower query))%bool;
          speak; cbn [fst snd]; eexists; (split; [reflexivity |]);
          cbn [order_completed table_number special_requests items order_step];
          repeat split;
          first [now left | right; split; [reflexivity | discriminate]].
      * eexists; (split; [reflexivity |]);
          cbn [order_completed table_number special_requests items order_step];
          repeat split; now left.
    + eexists; (split; [reflexivity |]);
        cbn [order_completed table_number special_requests items order_step];
        repeat split; now left.
Qed.

(** X27: at the confirmation step, a query containing yes, confirm or
    place completes the order and appends it to the list of orders; any
    other query sends the order back to item selection with its items
    kept and nothing appended. *)
Theorem order_confirmation_places_or_reopens (query : string) (a : agent)
    (o : order) :
  match current_reservation a with
  | Some r => VoiceAgent.completed r
  | None => true
  end = true ->
  current_order a = Some o ->
  order_completed o = false ->
  order_step o = "confirm_order" ->
  let a' := fst (handle query a) in
  if (contains "yes" (lower query) || contains "confirm" (lower query)
      || contains "place" (lower query))%bool
  then
    current_order a'
    = Some (Order true "confirm_order" (items o) (special_requests o)
                  (table_number o))
    /\ orders a'
       = (orders a ++ [Order true "confirm_order" (items o)
                             (special_requests o) (table_number o)])%list
  else
    current_order a'
    = Some (Order false "item_selection" (items o) (special_requests o)
                  (table_number o))
    /\ orders a' = orders a.
Proof.
  intros Hquiet Horder Hactive Hstep. cbv zeta.
  unfold handle_conversation. rewrite fst_caught.
  rewrite (active_order_routes_to_ordering query a o Hquiet Horder Hactive).
  destruct o as [done current_step chosen requests table].
  cbn [order_completed order_step items special_requests table_number] in *.
  subst done current_step.
  destruct a as [kb session booked ordering placed past].
  unfold _handle_ordering_flow.
  cbn [order_step String.eqb Ascii.eqb Bool.eqb order_completed items
       special_requests table_number].
  destruct (contains "yes" (lower query) || contains "confirm" (lower query)
            || contains "place" (lower query))%bool;
    open_agent; cbn [order_step items special_requests table_number];
    speak; cbn [fst snd]; speak; cbn [fst snd]; split; reflexivity.
Qed.

(** *** The fallback *)

Lemma answer_voiced (text : string) (a : agent) (out : routed) :
  snd (answer text_to_speech text a) = Ok out -> voiced out.
Proof.
  unfold answer. open_agent. destruct (text_to_speech text); cbn [snd].
  - now intros [= <-].
  - discriminate.
Qed.

(** Case analysis on a scrutinee that is not itself a case analysis. *)
Ltac branch :=
  match goal with
  | |- context [match ?x with _ => _ end] =>
      lazymatch x with
      | match _ with _ => _ end => fail
      | (match _ with _ => _ end) _ => fail
      | _ => destruct x
      end
  end.

Lemma ordering_voiced (o : order) (query : string) (a : agent) (out : routed) :
  snd (_handle_ordering_flow text_to_speech total_text o query a) = Ok out ->
  voiced out.
Proof.
  unfold _handle_ordering_flow. open_agent.
  repeat branch; cbn [snd]; try discriminate; now intros [= <-].
Qed.

(** X28: [handle_conversation] returns the pair of [generate_response]
    (text and trimmed history, no audio) exactly when no session is under
    way and the query contains none of the intent words; then the agent is
    unchanged but for the history the completion client extended.  In every
    other case the result is a triple around the caller's list, or None. *)
Theorem only_the_fallback_returns_a_pair (query : string) (a : agent) :
  let no_intent :=
    (negb (any_word reservation_words (lower query))
     && negb (any_word order_words (lower query))
     && negb (any_word hours_words (lower query))
     && negb (any_word feedback_words (lower query))
     && negb (any_word help_words (lower query))
     && negb (any_word specials_words (lower query))
     && negb (any_word location_words (lower query)))%bool in
  let g :=
    RAGLayer.generate_response conversation_memory query
      (Some (conversation_history a)) post in
  (idle a && no_intent = true ->
   handle query a
   = (Agent (knowledge_base a) (current_reservation a) (reservations a)
            (current_order a) (orders a) (RAGLayer.argument_after g),
      Unspoken (RAGLayer.response g) (RAGLayer.history g)))
  /\ (idle a && no_intent = false -> voiced (snd (handle query a))).
Proof.
  cbv zeta. split.
  - intros Hfallback. apply andb_true_iff in Hfallback as [Hidle Hnone].
    repeat (apply andb_true_iff in Hnone as [Hnone ?]).
    repeat match goal with
           | H : negb _ = true |- _ => apply negb_true_iff in H
           end.
    unfold handle_conversation.
    rewrite (idle_routes_by_intent query a Hidle).
    unfold intents. cbv zeta.
    repeat match goal with
           | H : any_word _ _ = false |- _ => rewrite H; clear H
           end.
    reflexivity.
  - intros Hother. unfold handle_conversation. apply caught_voiced.
    intros out. destruct (idle a) eqn:Hidle.
    + rewrite (idle_routes_by_intent query a Hidle).
      cbn [andb] in Hother.
      unfold intents, _start_ordering, _handle_feedback, _get_daily_specials,
        _get_location_info. cbv zeta.
      destruct (any_word reservation_words (lower query)).
      { open_agent. repeat branch; cbn [snd]; try discriminate;
          now intros [= <-]. }
      destruct (any_word order_words (lower query)).
      { open_agent. repeat branch; cbn [snd]; try discriminate;
          now intros [= <-]. }
      destruct (any_word hours_words (lower query)); [intros Hout; exact (answer_voiced _ _ _ Hout) |].
      destruct (any_word feedback_words (lower query)); [intros Hout; exact (answer_voiced _ _ _ Hout) |].
      destruct (any_word help_words (lower query)); [intros Hout; exact (answer_voiced _ _ _ Hout) |].
      destruct (any_word specials_words (lower query)).
      { open_agent. repeat branch; cbn [snd]; try discriminate;
          now intros [= <-]. }
      destruct (any_word location_words (lower query)); [intros Hout; exact (answer_voiced _ _ _ Hout) |].
      discriminate.
    + clear Hother. unfold idle in Hidle. unfold route.
      destruct (current_reservation a) as [r |].
      * destruct (VoiceAgent.completed r); cbn [negb andb] in *.
        -- destruct (current_order a) as [o |]; [| discriminate].
           rewrite Hidle. cbn [negb]. apply ordering_voiced.
        -- open_agent. repeat branch; cbn [snd]; try discriminate;
             now intros [= <-].
      * cbn [andb] in Hidle.
        destruct (current_order a) as [o |]; [| discriminate].
        rewrite Hidle. cbn [negb]. apply ordering_voiced.
Qed.

(** X29: when no session is under way, a query with an hours word and no
    reservation or ordering word is answered with the fixed table of
    operating hours (not with the hours of the knowledge base), spoken and
    appended to the history as one assistant turn. *)
Theorem hours_are_answered_from_the_table (query : string) (a : agent)
    (audio : string) :
  idle a = true ->
  any_word reservation_words (lower query) = false ->
  any_word order_words (lower query) = false ->
  any_word hours_words (lower query) = true ->
  text_to_speech _get_operating_hours = Ok audio ->
  handle query a
  = (Agent (knowledge_base a) (current_reservation a) (reservations a)
           (current_order a) (orders a)
           (conversation_history a ++ [assistant _get_operating_hours]),
     Spoken _get_operating_hours (Some audio)).
Proof.
  intros Hidle H1 H2 H3 Haudio. unfold handle_conversation.
  rewrite (idle_routes_by_intent query a Hidle).
  unfold intents. cbv zeta. rewrite H1, H2, H3.
  unfold answer. open_agent. rewrite Haudio. reflexivity.
Qed.

End Agent.

Lemma active_reservation_takes_every_query_witness :
  current_reservation
    (fst (handle_conversation VoiceAgent.sample_speech VoiceAgent.sample_today
            sample_total 5 sample_post "What are your hours?"
            (Agent (RAGLayer._initialize_knowledge_base RAGLayer.sample_now)
               (Some VoiceAgent.sample_session) [] None [] [])))
  = Some (VoiceAgent.Reservation false "party_size"
            (VoiceAgent.data VoiceAgent.sample_session)).
Proof.
  exact (proj1 (active_reservation_takes_every_query
                  VoiceAgent.sample_speech VoiceAgent.sample_today
                  sample_total 5 sample_post "What are your hours?"
                  (Agent (RAGLayer._initialize_knowledge_base RAGLayer.sample_now)
                     (Some VoiceAgent.sample_session) [] None [] [])
                  VoiceAgent.sample_session eq_refl eq_refl)).
Defined.

Lemma reservation_words_start_a_reservation_witness :
  current_reservation
    (fst (handle_conversation silent_speech VoiceAgent.sample_today
            sample_total 5 sample_post "Can I book for tonight?" fresh_agent))
  = Some (VoiceAgent.Reservation false "party_size" []).
Proof.
  apply (reservation_words_start_a_reservation silent_speech
           VoiceAgent.sample_today sample_total 5 sample_post
           "Can I book for tonight?" fresh_agent).
  - reflexivity.
  - vm_compute; reflexivity.
Defined.

Lemma order_is_opened_then_takes_the_table_witness :
  current_order
    (fst (handle_conversation VoiceAgent.sample_speech VoiceAgent.sample_today
            sample_total 5 sample_post "number 5, and do you take bookings?"
       (fst (handle_conversation VoiceAgent.sample_speech
               VoiceAgent.sample_today sample_total 5 sample_post
               "I am hungry" fresh_agent))))
  = Some (Order false "item_selection" [] "" (Some 5)).
Proof.
  apply (order_is_opened_then_takes_the_table VoiceAgent.sample_speech
           VoiceAgent.sample_today sample_total 5 sample_post
           "I am hungry" "number 5, and do you take bookings?" fresh_agent 5).
  - reflexivity.
  - vm_compute; reflexivity.
  - vm_compute; reflexivity.
  - vm_compute; reflexivity.
  - reflexivity.
Defined.

Lemma selection_adds_the_named_dishes_witness :
  List.length sample_found = 2%nat
  /\ exists o',
       current_order
         (fst (handle_conversation VoiceAgent.sample_speech
                 VoiceAgent.sample_today sample_total 5 sample_post
                 sample_selection (ordering_agent "item_selection" [])))
       = Some o'
       /\ items o' = sample_found.
Proof.
  split; [vm_compute; reflexivity |].
  destruct (selection_adds_the_named_dishes VoiceAgent.sample_speech
              VoiceAgent.sample_today sample_total 5 sample_post
              sample_selection (ordering_agent "item_selection" [])
              (Order false "item_selection" [] "" (Some 5))
              sample_dishes sample_found)
    as (_ & o' & Horder & Hitems & _).
  - reflexivity.
  - reflexivity.
  - reflexivity.
  - reflexivity.
  - vm_compute; reflexivity.
  - vm_compute; reflexivity.
  - exists o'. split; [exact Horder | exact Hitems].
Defined.

Lemma order_confirmation_places_or_reopens_witness :
  orders
    (fst (handle_conversation VoiceAgent.sample_speech VoiceAgent.sample_today
            sample_total 5 sample_post "Yes, place it"
            (ordering_agent "confirm_order" sample_found)))
  = [Order true "confirm_order" sample_found "" (Some 5)]
  /\ orders
       (fst (handle_conversation VoiceAgent.sample_speech
               VoiceAgent.sample_today sample_total 5 sample_post
               "Wait, one more thing"
               (ordering_agent "confirm_order" sample_found)))
     = [].
Proof.
  split.
  - exact (proj2 (order_confirmation_places_or_reopens
                    VoiceAgent.sample_speech VoiceAgent.sample_today
                    sample_total 5 sample_post "Yes, place it"
                    (ordering_agent "confirm_order" sample_found)
                    (Order false "confirm_order" sample_found "" (Some 5))
                    eq_refl eq_refl eq_refl eq_refl)).
  - vm_compute; reflexivity.
Defined.

Lemma hours_are_answered_from_the_table_witness :
  handle_conversation VoiceAgent.sample_speech VoiceAgent.sample_today
    sample_total 5 sample_post "When do you open?" fresh_agent
  = (Agent (RAGLayer._initialize_knowledge_base RAGLayer.sample_now)
       None [] None [] [assistant _get_operating_hours],
     Spoken _get_operating_hours (Some "audio")).
Proof.
  apply (hours_are_answered_from_the_table VoiceAgent.sample_speech
           VoiceAgent.sample_today sample_total 5 sample_post
           "When do you open?" fresh_agent "audio").
  - reflexivity.
  - vm_compute; reflexivity.
  - vm_compute; reflexivity.
  - vm_compute; reflexivity.
  - reflexivity.
Defined.

End ConversationProps.
